(** * training_utils.py: batch assembly and training callbacks

    A shallow embedding of [training_utils.py]:
    - [DocumentSequence] (the batch assembler and the epoch shuffler),
    - [SaveDocModels] (the checkpoint saver),
    - [ReduceLROnPlateauAfterValLoss] (the deferred plateau reducer),
    - [LearningRateLinearIncrease] (the linear warmup scheduler),
    - [PrintMetrics] (the metrics logger).

    Python exceptions are values of [exn]; a statement that may raise has a
    result in [result].  A loss is an exact rational, one of the two
    infinities or not a number.  A learning rate is an exact rational: the
    rounding of its additions is outside the model.  The quotient of
    [__len__] is taken exactly in [__len__] and in binary64 in
    [len_binary64]. *)

From Stdlib Require Import ZArith QArith Qround String List Bool Lia Permutation.
From Stdlib Require Import DecimalString Lqa.
Import ListNotations.

Local Open Scope Z_scope.

(** ** Exceptions and results *)

Inductive exn : Type :=
| AttributeError (what : string)
| NameError (name : string)
| ValueError (what : string)
| IndexError (what : string)
| KeyError (key : string)
| TypeError (what : string)
| ZeroDivisionError
| OverflowError (what : string).

Inductive result (A : Type) : Type :=
| Ok (a : A)
| Raise (e : exn).

Arguments Ok {A} a.
Arguments Raise {A} e.

(** ** Binary64: the quotient of two integers

    Python's [a / b] on two integers is the quotient rounded to the nearest
    binary64 number, a tie going to the even mantissa; a float is kept here
    as the rational it is. *)

Module Binary64.

(** The integer nearest to [a / b], for [a >= 0] and [b > 0]; of two that
    are equally near, the even one. *)
Definition round_half_even (a b : Z) : Z :=
  let q := a / b in
  let r := a mod b in
  if 2 * r <? b then q
  else if b <? 2 * r then q + 1
  else if Z.even q then q else q + 1.

(** The exponent [e] of [n / d], for [n > 0] and [d > 0]:
    [2^e <= n / d < 2^(e+1)]. *)
Definition exponent (n d : Z) : Z :=
  let e := Z.log2 n - Z.log2 d in
  if n * 2 ^ Z.log2 d <? d * 2 ^ Z.log2 n then e - 1 else e.

(** [n / d] rounded, for [n > 0] and [d > 0]: a mantissa of 53 bits at
    most times [2^fexp], where [fexp] is at least -1074; [None] when the
    outcome is [2^1024] or more. *)
Definition round_pos (n d : Z) : option Q :=
  let fexp := Z.max (exponent n d - 52) (-1074) in
  if 0 <? fexp then
    let v := round_half_even n (d * 2 ^ fexp) * 2 ^ fexp in
    if 2 ^ 1024 <=? v then None else Some (inject_Z v)
  else
    Some (round_half_even (n * 2 ^ (- fexp)) d # Z.to_pos (2 ^ (- fexp))).

(** [a / b] *)
Definition truediv (a b : Z) : result Q :=
  if b =? 0 then Raise ZeroDivisionError
  else if a =? 0 then Ok 0%Q
  else
    match round_pos (Z.abs a) (Z.abs b) with
    | None =>
        Raise (OverflowError "integer division result too large for a float")
    | Some q => Ok (inject_Z (Z.sgn a * Z.sgn b) * q)%Q
    end.

(** [int(np.ceil(x))] *)
Definition ceil (x : Q) : Z := Qceiling x.

End Binary64.

(** ** Python lists: slicing *)

Module Py.

(** Clamp a slice bound of a list of length [n]: a negative bound counts
    from the end, and the outcome is brought into [0..n]. *)
Definition clamp (n : nat) (i : Z) : nat :=
  let i' := if i <? 0 then i + Z.of_nat n else i in
  if i' <? 0 then 0%nat
  else if Z.of_nat n <? i' then n
  else Z.to_nat i'.

(** [l[start:stop]] with step 1; [None] is an omitted bound. *)
Definition slice {A} (l : list A) (start stop : option Z) : list A :=
  let n := length l in
  let lo := match start with Some i => clamp n i | None => 0%nat end in
  let hi := match stop with Some i => clamp n i | None => n end in
  firstn (hi - lo) (skipn lo l).

(** [d[key]] and [d.get(key)] on a dict kept as an association list. *)
Fixpoint get {V} (d : list (string * V)) (key : string) : option V :=
  match d with
  | [] => None
  | (k, v) :: d' => if String.eqb k key then Some v else get d' key
  end.

Definition getitem {V} (d : list (string * V)) (key : string) : result V :=
  match get d key with
  | Some v => Ok v
  | None => Raise (KeyError key)
  end.

(** [d[key] = v]: the binding is replaced where the key is present and
    added at the end otherwise. *)
Fixpoint setitem {V} (d : list (string * V)) (key : string) (v : V)
  : list (string * V) :=
  match d with
  | [] => [(key, v)]
  | (k, u) :: d' =>
      if String.eqb k key then (k, v) :: d' else (k, u) :: setitem d' key v
  end.

(** ['{}'.format(i)] for an integer. *)
Definition str_of_int (i : Z) : string :=
  NilEmpty.string_of_int (Z.to_int i).

End Py.

(** ** NumPy arrays

    An array of one or more dimensions is kept as the list of its items along
    axis 0, each item flattened in row-major order, with the shape of an item.
    A matrix of shape [(n, w)] has [n] items of length [w] and item shape
    [[w]]; a vector of shape [(n,)] has [n] items of length 1 and item shape
    [[]]. *)

Record ndarray : Type := mk_ndarray {
  items : list (list Q);
  item_shape : list nat
}.

Definition shape (a : ndarray) : list nat := length (items a) :: item_shape a.

(** [a.shape[0]] *)
Definition shape0 (a : ndarray) : nat := length (items a).

(** [a.shape[-1]] *)
Definition shape_last (a : ndarray) : nat := last (shape a) 0%nat.

(** A matrix, as the lookups of [image_utils] and [text_utils] return it:
    rows of [ncols] entries each.  As an array it has shape
    [(length rows, ncols)]. *)
Record matrix : Type := mk_matrix {
  rows : list (list Q);
  ncols : nat
}.

Definition of_matrix (m : matrix) : ndarray := mk_ndarray (rows m) [ncols m].

(** A stack of arrays of one shape: the outcome of [np.expand_dims(a, 0)] and
    of [np.vstack] over such arrays.  Its shape is
    [length slabs :: slab_shape]. *)
Record tensor : Type := mk_tensor {
  slabs : list ndarray;
  slab_shape : list nat
}.

Definition tensor_shape (t : tensor) : list nat :=
  length (slabs t) :: slab_shape t.

Module Np.

Definition prod (dims : list nat) : nat := fold_right Nat.mul 1%nat dims.

(** [np.zeros(dims)]: a negative dimension raises [ValueError]. *)
Definition zeros (dims : list Z) : result ndarray :=
  if existsb (fun d => d <? 0) dims then
    Raise (ValueError "negative dimensions are not allowed")
  else
    match map Z.to_nat dims with
    | [] => Raise (TypeError "zero-dimensional array")
    | n :: rest =>
        Ok (mk_ndarray (repeat (repeat 0%Q (prod rest)) n) rest)
    end.

(** [a[:, 0] = v]: on an item shape [d :: rest] the first [prod rest]
    entries of every item are overwritten; an axis of size 0 has no index 0
    and a one-dimensional array has no second axis. *)
Definition set_col0 (a : ndarray) (v : Q) : result ndarray :=
  match item_shape a with
  | [] => Raise (IndexError "too many indices for array")
  | d :: rest =>
      if (d =? 0)%nat then
        Raise (IndexError "index 0 is out of bounds for axis 1 with size 0")
      else
        Ok (mk_ndarray
              (map (fun it => repeat v (prod rest) ++ skipn (prod rest) it)
                   (items a))
              (item_shape a))
  end.

(** [np.atleast_2d(a)]: a vector of shape [(n,)] becomes a matrix of shape
    [(1, n)]. *)
Definition atleast_2d (a : ndarray) : ndarray :=
  match item_shape a with
  | [] => mk_ndarray [concat (items a)] [length (items a)]
  | _ => a
  end.

Definition eqb_shape (s1 s2 : list nat) : bool :=
  if list_eq_dec Nat.eq_dec s1 s2 then true else false.

Fixpoint vstack_from (acc : ndarray) (rest : list ndarray) : result ndarray :=
  match rest with
  | [] => Ok acc
  | b :: rest' =>
      if eqb_shape (item_shape acc) (item_shape b) then
        vstack_from (mk_ndarray (items acc ++ items b) (item_shape acc)) rest'
      else
        Raise (ValueError "all the input array dimensions except for the concatenation axis must match exactly")
  end.

(** [np.vstack(arrays)]: the arrays, made at least two-dimensional, are
    joined along axis 0; they must agree on every other axis, and there
    must be one at least. *)
Definition vstack (arrays : list ndarray) : result ndarray :=
  match map atleast_2d arrays with
  | [] => Raise (ValueError "need at least one array to concatenate")
  | a :: rest => vstack_from a rest
  end.

(** [np.expand_dims(a, 0)] *)
Definition expand_dims0 (a : ndarray) : tensor :=
  mk_tensor [a] (shape a).

Fixpoint vstack_t_from (acc : tensor) (rest : list tensor) : result tensor :=
  match rest with
  | [] => Ok acc
  | t :: rest' =>
      if eqb_shape (slab_shape acc) (slab_shape t) then
        vstack_t_from (mk_tensor (slabs acc ++ slabs t) (slab_shape acc)) rest'
      else
        Raise (ValueError "all the input array dimensions except for the concatenation axis must match exactly")
  end.

(** [np.vstack] over arrays that already carry a leading axis. *)
Definition vstack_t (ts : list tensor) : result tensor :=
  match ts with
  | [] => Raise (ValueError "need at least one array to concatenate")
  | t :: rest => vstack_t_from t rest
  end.

(** [np.expand_dims(np.array(counts), -1)]: a column of shape [(n, 1)]. *)
Definition column (counts : list nat) : ndarray :=
  mk_ndarray (map (fun c => [inject_Z (Z.of_nat c)]) counts) [1%nat].

(** [np.zeros(n)] for a length [n], which is never negative. *)
Definition zeros1 (n : nat) : ndarray :=
  mk_ndarray (repeat [0%Q] n) [].

End Np.

(** ** The interpreter state

    Document lists are Python list objects: they live in a heap and are named
    by their address, so that a slice is a new object and [+=] and
    [np.random.shuffle] change the object they are given.  The random
    generator is a tape of draws; an exhausted tape keeps drawing 0. *)

Definition ident : Type := string.

(** An image or a sentence of a document: a tuple whose component 0 is the
    identifier. *)
Definition entry : Type := (ident * string)%type.

(** A document [vers]: [vers[0]] are its images, [vers[1]] its sentences. *)
Definition Doc : Type := (list entry * list entry)%type.

Definition addr : Type := nat.

Record state : Type := mk_state {
  heap : list (list Doc);
  rng : list nat
}.

Definition M (A : Type) : Type := state -> result A * state.

Definition ret {A} (a : A) : M A := fun s => (Ok a, s).

Definition raise {A} (e : exn) : M A := fun s => (Raise e, s).

Definition bind {A B} (m : M A) (k : A -> M B) : M B :=
  fun s =>
    match m s with
    | (Ok a, s') => k a s'
    | (Raise e, s') => (Raise e, s')
    end.

Definition lift {A} (r : result A) : M A := fun s => (r, s).

Notation "x <- c1 ;; c2" := (bind c1 (fun x => c2))
  (at level 61, c1 at next level, right associativity).
Notation "c1 ;;; c2" := (bind c1 (fun _ => c2))
  (at level 61, right associativity).

Fixpoint set_nth {A} (n : nat) (v : A) (l : list A) : list A :=
  match l, n with
  | [], _ => []
  | _ :: l', O => v :: l'
  | x :: l', S n' => x :: set_nth n' v l'
  end.

(** The list object at an address; no list is at an address not yet
    allocated. *)
Definition read (a : addr) : M (list Doc) :=
  fun s => (Ok (nth a (heap s) []), s).

(** A new list object. *)
Definition alloc (v : list Doc) : M addr :=
  fun s => (Ok (length (heap s)), mk_state (heap s ++ [v]) (rng s)).

(** The list object at an address is overwritten in place. *)
Definition store (a : addr) (v : list Doc) : M unit :=
  fun s => (Ok tt, mk_state (set_nth a v (heap s)) (rng s)).

(** A draw below [bound]. *)
Definition draw (bound : nat) : M nat :=
  fun s =>
    match rng s with
    | [] => (Ok 0%nat, s)
    | r :: tape => (Ok (r mod bound)%nat, mk_state (heap s) tape)
    end.

(** [np.random.shuffle] on the elements of a list: each element is put at a
    drawn position among those already placed. *)
Fixpoint shuffle {A} (l : list A) : M (list A) :=
  match l with
  | [] => ret []
  | x :: xs =>
      ys <- shuffle xs ;;
      r <- draw (S (length ys)) ;;
      ret (firstn r ys ++ x :: skipn r ys)
  end.

(** ** Name resolution in [training_utils]

    A name that a function does not assign is looked up among the globals of
    the module and then among the builtins. *)

Inductive pyobj : Type :=
| PyModule (name : string)
| PyClass (name : string)
| PyBuiltin (name : string).

Definition module_globals : list (string * pyobj) :=
  [ ("tf", PyModule "tensorflow");
    ("np", PyModule "numpy");
    ("eval_utils", PyModule "eval_utils");
    ("text_utils", PyModule "text_utils");
    ("image_utils", PyModule "image_utils");
    ("DocumentSequence", PyClass "DocumentSequence");
    ("SaveDocModels", PyClass "SaveDocModels");
    ("ReduceLROnPlateauAfterValLoss", PyClass "ReduceLROnPlateauAfterValLoss");
    ("PrintMetrics", PyClass "PrintMetrics");
    ("LearningRateLinearIncrease", PyClass "LearningRateLinearIncrease") ]%string.

Definition builtin_names : list string :=
  [ "abs"; "all"; "any"; "ascii"; "bin"; "bool"; "breakpoint"; "bytearray";
    "bytes"; "callable"; "chr"; "classmethod"; "compile"; "complex";
    "delattr"; "dict"; "dir"; "divmod"; "enumerate"; "eval"; "exec";
    "filter"; "float"; "format"; "frozenset"; "getattr"; "globals";
    "hasattr"; "hash"; "help"; "hex"; "id"; "input"; "int"; "isinstance";
    "issubclass"; "iter"; "len"; "list"; "locals"; "map"; "max";
    "memoryview"; "min"; "next"; "object"; "oct"; "open"; "ord"; "pow";
    "print"; "property"; "range"; "repr"; "reversed"; "round"; "set";
    "setattr"; "slice"; "sorted"; "staticmethod"; "str"; "sum"; "super";
    "tuple"; "type"; "vars"; "zip"; "True"; "False"; "None" ]%string.

Definition load_global (name : string) : M pyobj :=
  match Py.get module_globals name with
  | Some o => ret o
  | None =>
      if existsb (String.eqb name) builtin_names then ret (PyBuiltin name)
      else raise (NameError name)
  end.

(** ** DocumentSequence *)

Record Args : Type := mk_Args {
  docs_per_batch : Z;
  seq_len : Z;
  subsample_text : Z;
  subsample_image : Z;
  end2end : bool
}.

(** What [__getitem__] returns: [([texts, images, text_n_docs, image_n_docs], y)]. *)
Record batch : Type := mk_batch {
  texts : tensor;
  images : tensor;
  text_n_docs : ndarray;
  image_n_docs : ndarray;
  y : ndarray * ndarray
}.

Section DocumentSequence.

(** The lookup tables are owned by the caller and only handed on. *)
Variables ImageMatrix Idx2Row Vocab : Type.

(** The collaborators of [image_utils] and [text_utils]; each may raise. *)
Variable images_to_images : list ident -> pyobj -> pyobj -> result ndarray.
Variable images_to_matrix : list ident -> ImageMatrix -> Idx2Row -> result matrix.
Variable text_to_matrix : list ident -> Vocab -> Z -> result matrix.

(** The object, with the attributes [__init__] sets from its parameters;
    [argument] holds the parameter [augment], and [data_in] the address of
    the list of documents. *)
Record DocumentSequence : Type := mk_DocumentSequence {
  data_in : addr;
  image_matrix : ImageMatrix;
  image_idx2row : Idx2Row;
  max_sentences_per_doc : Z;
  max_images_per_doc : Z;
  vocab : Vocab;
  args : option Args;
  argument : bool;
  shuffle_sentences : bool;
  shuffle_images : bool;
  shuffle_docs : bool
}.

Variable self : DocumentSequence.

(** [self.args.<field>]: [None] has no attributes. *)
Definition self_args : M Args :=
  match args self with
  | Some a => ret a
  | None => raise (AttributeError "'NoneType' object has no attribute")
  end.

(** [self.args and self.args.<field> > 0] *)
Definition args_and_positive (field : Args -> Z) : bool :=
  match args self with
  | Some a => 0 <? field a
  | None => false
  end.

(** [__len__], the quotient and its ceiling taken exactly. *)
Definition __len__ : M Z :=
  l <- read (data_in self) ;;
  a <- self_args ;;
  if docs_per_batch a =? 0 then raise ZeroDivisionError
  else ret (- ((- Z.of_nat (length l)) / docs_per_batch a)).

(** [__len__], the quotient of line 34 taken in binary64 as Python's [/]
    takes it. *)
Definition len_binary64 : M Z :=
  l <- read (data_in self) ;;
  a <- self_args ;;
  q <- lift (Binary64.truediv (Z.of_nat (length l)) (docs_per_batch a)) ;;
  ret (Binary64.ceil q).

(** [len(self)]: the builtin refuses a negative [__len__]. *)
Definition len_self : M Z :=
  n <- __len__ ;;
  if n <? 0 then raise (ValueError "__len__() should return >= 0")
  else ret n.

(** Lines 37-43 of [__getitem__]: the documents of batch [idx], as a new
    list object. *)
Definition select_docs (idx : Z) : M addr :=
  a <- self_args ;;
  let start := idx * docs_per_batch a in
  let end_ := (idx + 1) * docs_per_batch a in
  l <- read (data_in self) ;;
  cur_doc_b <- alloc (Py.slice l (Some start) (Some end_)) ;;
  n <- len_self ;;
  (if idx =? n - 1 then
     a <- self_args ;;
     cur <- read cur_doc_b ;;
     let docs_to_add := docs_per_batch a - Z.of_nat (length cur) in
     l <- read (data_in self) ;;
     store cur_doc_b (cur ++ Py.slice l None (Some docs_to_add))
   else ret tt) ;;;
  ret cur_doc_b.

(** The number of rows the images, and the sentences, of a document are
    padded to: the subsample count under
    [self.args and self.args.subsample_image > 0] and the maximum otherwise
    (lines 67-72 and 76-81 for the images, 87-92 for the sentences); the
    padding has this number less the rows of the document as its first
    dimension. *)
Definition image_target : Z :=
  match args self with
  | Some a => if 0 <? subsample_image a then subsample_image a
              else max_images_per_doc self
  | None => max_images_per_doc self
  end.

Definition text_target : Z :=
  match args self with
  | Some a => if 0 <? subsample_text a then subsample_text a
              else max_sentences_per_doc self
  | None => max_sentences_per_doc self
  end.

(** Lines 48-63: the identifiers of a document, shuffled and subsampled.
    [cur_images] and [cur_text] are lists the comprehensions have just
    built, so shuffling them in place does not reach the document. *)
Definition draw_ids (vers : Doc) : M (list ident * list ident) :=
  let cur_images := map fst (fst vers) in
  let cur_text := map fst (snd vers) in
  cur_text <-
    (if shuffle_sentences self && negb (args_and_positive subsample_text)
     then shuffle cur_text else ret cur_text) ;;
  cur_images <-
    (if shuffle_images self && negb (args_and_positive subsample_image)
     then shuffle cur_images else ret cur_images) ;;
  cur_images <-
    (if args_and_positive subsample_image then
       a <- self_args ;;
       cur_images <- shuffle cur_images ;;
       ret (Py.slice cur_images None (Some (subsample_image a)))
     else ret cur_images) ;;
  cur_text <-
    (if args_and_positive subsample_text then
       a <- self_args ;;
       cur_text <- shuffle cur_text ;;
       ret (Py.slice cur_text None (Some (subsample_text a)))
     else ret cur_text) ;;
  ret (cur_images, cur_text).

(** Lines 65-81: the images of a document and their padding. *)
Definition image_features (cur_images : list ident) : M (ndarray * ndarray) :=
  a <- self_args ;;
  if end2end a then
    augment <- load_global "augment" ;;
    args_ <- load_global "args" ;;
    cur_images <- lift (images_to_images cur_images augment args_) ;;
    image_padding <-
      lift (Np.zeros [image_target - Z.of_nat (shape0 cur_images); 224; 224; 3]) ;;
    ret (cur_images, image_padding)
  else
    m <- lift (images_to_matrix cur_images (image_matrix self) (image_idx2row self)) ;;
    let cur_images := of_matrix m in
    image_padding <-
      lift (Np.zeros [image_target - Z.of_nat (shape0 cur_images);
                      Z.of_nat (shape_last cur_images)]) ;;
    ret (cur_images, image_padding).

(** Lines 83-96: the sentences of a document and their padding, whose
    first column holds the index of the unknown token. *)
Definition text_features (cur_text : list ident) : M (ndarray * ndarray) :=
  a <- self_args ;;
  m <- lift (text_to_matrix cur_text (vocab self) (seq_len a)) ;;
  let cur_text := of_matrix m in
  text_padding <-
    lift (Np.zeros [text_target - Z.of_nat (shape0 cur_text);
                    Z.of_nat (shape_last cur_text)]) ;;
  text_padding <- lift (Np.set_col0 text_padding 1) ;;
  ret (cur_text, text_padding).

(** The body of the loop of [__getitem__], lines 48-102: the padded images
    and sentences of one document, each with a leading axis, and the two
    counts [cur_images.shape[0]] and [cur_text.shape[0]] taken before the
    padding. *)
Definition process_doc (vers : Doc) : M (tensor * tensor * nat * nat) :=
  ids <- draw_ids vers ;;
  let '(cur_images, cur_text) := ids in
  im <- image_features cur_images ;;
  let '(cur_images, image_padding) := im in
  tx <- text_features cur_text ;;
  let '(cur_text, text_padding) := tx in
  let image_n := shape0 cur_images in
  let text_n := shape0 cur_text in
  cur_images <- lift (Np.vstack [cur_images; image_padding]) ;;
  cur_text <- lift (Np.vstack [cur_text; text_padding]) ;;
  ret (Np.expand_dims0 cur_images, Np.expand_dims0 cur_text, image_n, text_n).

(** The loop over the documents of the batch: what is appended to
    [images], [texts], [image_n_docs] and [text_n_docs]. *)
Fixpoint for_docs (docs : list Doc)
  : M (list tensor * list tensor * list nat * list nat) :=
  match docs with
  | [] => ret ([], [], [], [])
  | vers :: rest =>
      r <- process_doc vers ;;
      let '(im, tx, image_n, text_n) := r in
      rs <- for_docs rest ;;
      let '(ims, txs, image_ns, text_ns) := rs in
      ret (im :: ims, tx :: txs, image_n :: image_ns, text_n :: text_ns)
  end.

(** [__getitem__] *)
Definition __getitem__ (idx : Z) : M batch :=
  cur_doc_b <- select_docs idx ;;
  docs <- read cur_doc_b ;;
  r <- for_docs docs ;;
  let '(images, texts, image_n_docs, text_n_docs) := r in
  images <- lift (Np.vstack_t images) ;;
  texts <- lift (Np.vstack_t texts) ;;
  let image_n_docs := Np.column image_n_docs in
  let text_n_docs := Np.column text_n_docs in
  let y := (Np.zeros1 (shape0 text_n_docs), Np.zeros1 (shape0 image_n_docs)) in
  ret (mk_batch texts images text_n_docs image_n_docs y).

(** [on_epoch_end]: returns [None]. *)
Definition on_epoch_end : M unit :=
  if shuffle_docs self then
    l <- read (data_in self) ;;
    l <- shuffle l ;;
    store (data_in self) l
  else ret tt.

End DocumentSequence.

Arguments data_in {ImageMatrix Idx2Row Vocab}.
Arguments image_matrix {ImageMatrix Idx2Row Vocab}.
Arguments image_idx2row {ImageMatrix Idx2Row Vocab}.
Arguments max_sentences_per_doc {ImageMatrix Idx2Row Vocab}.
Arguments max_images_per_doc {ImageMatrix Idx2Row Vocab}.
Arguments vocab {ImageMatrix Idx2Row Vocab}.
Arguments args {ImageMatrix Idx2Row Vocab}.
Arguments argument {ImageMatrix Idx2Row Vocab}.
Arguments shuffle_sentences {ImageMatrix Idx2Row Vocab}.
Arguments shuffle_images {ImageMatrix Idx2Row Vocab}.
Arguments shuffle_docs {ImageMatrix Idx2Row Vocab}.
Arguments self_args {ImageMatrix Idx2Row Vocab}.
Arguments args_and_positive {ImageMatrix Idx2Row Vocab}.
Arguments __len__ {ImageMatrix Idx2Row Vocab}.
Arguments len_binary64 {ImageMatrix Idx2Row Vocab}.
Arguments len_self {ImageMatrix Idx2Row Vocab}.
Arguments select_docs {ImageMatrix Idx2Row Vocab}.
Arguments image_target {ImageMatrix Idx2Row Vocab}.
Arguments text_target {ImageMatrix Idx2Row Vocab}.
Arguments draw_ids {ImageMatrix Idx2Row Vocab}.
Arguments image_features {ImageMatrix Idx2Row Vocab}.
Arguments text_features {ImageMatrix Idx2Row Vocab}.
Arguments process_doc {ImageMatrix Idx2Row Vocab}.
Arguments for_docs {ImageMatrix Idx2Row Vocab}.
Arguments __getitem__ {ImageMatrix Idx2Row Vocab}.
Arguments on_epoch_end {ImageMatrix Idx2Row Vocab}.

(** ** Floats

    A loss or a rate is a rational number, one of the two infinities, or
    not a number. *)

Inductive fl : Type :=
| NegInf
| Fin (q : Q)
| PosInf
| NaN.

Definition Qltb (x y : Q) : bool := negb (Qle_bool y x).

(** [a < b], which is false when [a] or [b] is not a number. *)
Definition fl_ltb (a b : fl) : bool :=
  match a with
  | NegInf => match b with Fin _ | PosInf => true | NegInf | NaN => false end
  | Fin x => match b with Fin y => Qltb x y | PosInf => true | _ => false end
  | PosInf | NaN => false
  end.

(** [a + d] and [a - d] for a finite [d]: an infinity and what is not a
    number stay what they are. *)
Definition fl_add (a : fl) (d : Q) : fl :=
  match a with
  | Fin x => Fin (x + d)
  | _ => a
  end.

Definition fl_sub (a : fl) (d : Q) : fl := fl_add a (- d).

(** [math.isnan] *)
Definition is_nan (a : fl) : bool :=
  match a with
  | NaN => true
  | _ => false
  end.

(** The log of an epoch: a dict from metric names to values. *)
Definition logs : Type := list (string * fl).

(** ** SaveDocModels *)

Module SaveDocModels.
Section SaveDocModels.

(** A Keras model, as far as [save] is concerned. *)
Variable Model : Type.

(** ['{:.5f}'.format(x)] *)
Variable format_5f : fl -> string.

(** The callback object, with the files written by [save] so far, oldest
    first.  An attribute that [__init__] does not set is [None] until
    [on_train_begin] sets it. *)
Record t : Type := mk {
  checkpoint_dir : string;
  single_text_doc_model : Model;
  single_image_doc_model : Model;
  best_val_loss : option fl;
  best_checkpoints_and_logs : option (option (string * string * logs * Z));
  saved : list (string * Model)
}.

(** [__init__] *)
Definition __init__ (checkpoint_dir : string)
           (single_text_doc_model single_image_doc_model : Model)
           (disk : list (string * Model)) : t :=
  mk checkpoint_dir single_text_doc_model single_image_doc_model
     None None disk.

(** [on_train_begin] *)
Definition on_train_begin (self : t) : t :=
  mk (checkpoint_dir self) (single_text_doc_model self)
     (single_image_doc_model self)
     (Some PosInf) (Some None) (saved self).

Definition model_str (self : t) (kind : string) (epoch : Z) (val_loss : fl)
  : string :=
  (checkpoint_dir self ++ "/" ++ kind ++ "_model_epoch_"
     ++ Py.str_of_int epoch ++ "_val=" ++ format_5f val_loss ++ ".model")%string.

(** [on_epoch_end]; what is printed is left out. *)
Definition on_epoch_end (self : t) (epoch : Z) (lg : logs) : result t :=
  match Py.getitem lg "val_loss" with
  | Raise e => Raise e
  | Ok val_loss =>
      match best_val_loss self with
      | None =>
          Raise (AttributeError "'SaveDocModels' object has no attribute 'best_val_loss'")
      | Some best =>
          if fl_ltb val_loss best then
            let image_model_str := model_str self "image" epoch val_loss in
            let sentence_model_str := model_str self "text" epoch val_loss in
            Ok (mk (checkpoint_dir self) (single_text_doc_model self)
                   (single_image_doc_model self)
                   (Some val_loss)
                   (Some (Some (image_model_str, sentence_model_str, lg, epoch)))
                   (saved self
                      ++ [(sentence_model_str, single_text_doc_model self);
                          (image_model_str, single_image_doc_model self)]))
          else Ok self
      end
  end.

(** The epoch ends of a run, in order. *)
Fixpoint run (self : t) (epochs : list (Z * logs)) : result t :=
  match epochs with
  | [] => Ok self
  | (epoch, lg) :: rest =>
      match on_epoch_end self epoch lg with
      | Ok self' => run self' rest
      | Raise e => Raise e
      end
  end.

(** The validation losses an epoch sequence reports. *)
Fixpoint val_losses (epochs : list (Z * logs)) : list fl :=
  match epochs with
  | [] => []
  | (_, lg) :: rest =>
      match Py.get lg "val_loss" with
      | Some v => v :: val_losses rest
      | None => val_losses rest
      end
  end.

End SaveDocModels.

Arguments checkpoint_dir {Model}.
Arguments single_text_doc_model {Model}.
Arguments single_image_doc_model {Model}.
Arguments best_val_loss {Model}.
Arguments best_checkpoints_and_logs {Model}.
Arguments saved {Model}.
Arguments __init__ {Model}.
Arguments on_train_begin {Model}.
Arguments model_str {Model}.
Arguments on_epoch_end {Model}.
Arguments run {Model}.

End SaveDocModels.

(** ** LearningRateLinearIncrease *)

Module LearningRateLinearIncrease.

(** The callback object together with the rate of the optimizer of its
    model, [self.model.optimizer.lr]. *)
Record t : Type := mk {
  max_lr : Q;
  warmup_steps : Z;
  verbose : Z;
  cur_step_count : Z;
  lr : Q
}.

(** [__init__], on a model whose optimizer has rate [lr0]. *)
Definition __init__ (max_lr : Q) (warmup_steps verbose : Z) (lr0 : Q) : t :=
  mk max_lr warmup_steps verbose 0 lr0.

(** [on_train_begin] *)
Definition on_train_begin (self : t) : t :=
  mk (max_lr self) (warmup_steps self) (verbose self) (cur_step_count self) 0.

(** [on_batch_begin]; what is printed is left out. *)
Definition on_batch_begin (self : t) : t :=
  if warmup_steps self <=? cur_step_count self then self
  else
    let lr' := (lr self + (1 / inject_Z (warmup_steps self)) * max_lr self)%Q in
    mk (max_lr self) (warmup_steps self) (verbose self)
       (cur_step_count self + 1) lr'.

(** [k] mini-batches begin. *)
Fixpoint batches (k : nat) (self : t) : t :=
  match k with
  | O => self
  | S k' => on_batch_begin (batches k' self)
  end.

End LearningRateLinearIncrease.

(** ** ReduceLROnPlateauAfterValLoss

    The class extends [tf.keras.callbacks.ReduceLROnPlateau]; [__init__],
    [in_cooldown] and [on_epoch_end] are the three methods of
    [training_utils.py], while [_reset] and [super_on_epoch_end] are the
    inherited [_reset] and [on_epoch_end] of Keras, which call back into
    [in_cooldown]. *)

Module ReduceLROnPlateauAfterValLoss.

(** [monitor_op]: [np.less(a, b - min_delta)] or
    [np.greater(a, b + min_delta)]. *)
Inductive op : Type := Less | Greater.

(** The callback object together with the rate of the optimizer of its
    model.  [current_logs] is [None] until the first [on_epoch_end] sets
    the attribute, and then holds what was passed as [logs], which may be
    Python's [None]. *)
Record t : Type := mk {
  monitor : string;
  factor : Q;
  patience : Z;
  mode : string;
  min_delta : Q;
  cooldown : Z;
  min_lr : Q;
  cooldown_counter : Z;
  wait : Z;
  best : fl;
  monitor_op : op;
  activation_val_loss : fl;
  val_threshold_activated : bool;
  current_logs : option (option logs);
  lr : Q
}.

Definition contains (sub s : string) : bool :=
  match String.index 0 sub s with Some _ => true | None => false end.

(** Keras' [_reset]. *)
Definition _reset (self : t) : t :=
  let mode' :=
    if (String.eqb (mode self) "auto" || String.eqb (mode self) "min"
        || String.eqb (mode self) "max")%bool
    then mode self else "auto"%string in
  let is_min :=
    (String.eqb mode' "min"
     || (String.eqb mode' "auto" && negb (contains "acc" (monitor self))))%bool in
  mk (monitor self) (factor self) (patience self) mode' (min_delta self)
     (cooldown self) (min_lr self)
     0 0 (if is_min then PosInf else NegInf) (if is_min then Less else Greater)
     (activation_val_loss self) (val_threshold_activated self)
     (current_logs self) (lr self).

(** [__init__], with Keras' arguments spelled out, on a model whose
    optimizer has rate [lr0]. *)
Definition __init__ (activation_val_loss : fl) (monitor : string) (factor : Q)
           (patience : Z) (mode : string) (min_delta : Q) (cooldown : Z)
           (min_lr : Q) (lr0 : Q) : result t :=
  if Qle_bool 1 factor then
    Raise (ValueError "ReduceLROnPlateau does not support a factor >= 1.0.")
  else
    let self :=
      _reset (mk monitor factor patience mode min_delta cooldown min_lr
                0 0 (Fin 0) Less PosInf false None lr0) in
    Ok (mk (ReduceLROnPlateauAfterValLoss.monitor self)
           (ReduceLROnPlateauAfterValLoss.factor self)
           (ReduceLROnPlateauAfterValLoss.patience self)
           (ReduceLROnPlateauAfterValLoss.mode self)
           (ReduceLROnPlateauAfterValLoss.min_delta self)
           (ReduceLROnPlateauAfterValLoss.cooldown self)
           (ReduceLROnPlateauAfterValLoss.min_lr self)
           (cooldown_counter self) (wait self) (best self) (monitor_op self)
           activation_val_loss false None lr0).

Definition set_activated (self : t) : t :=
  mk (monitor self) (factor self) (patience self) (mode self)
     (min_delta self) (cooldown self) (min_lr self)
     (cooldown_counter self) (wait self) (best self) (monitor_op self)
     (activation_val_loss self) true (current_logs self) (lr self).

(** [in_cooldown]; what is printed is left out. *)
Definition in_cooldown (self : t) : result (bool * t) :=
  let finish (self : t) :=
    Ok ((0 <? cooldown_counter self) || negb (val_threshold_activated self),
        self)%bool in
  if negb (val_threshold_activated self) then
    match current_logs self with
    | None =>
        Raise (AttributeError "object has no attribute 'current_logs'")
    | Some None => Raise (TypeError "'NoneType' object is not subscriptable")
    | Some (Some lg) =>
        match Py.getitem lg "val_loss" with
        | Raise e => Raise e
        | Ok val_loss =>
            if fl_ltb val_loss (activation_val_loss self) then
              finish (_reset (set_activated self))
            else finish self
        end
    end
  else finish self.

Definition apply_op (self : t) (a b : fl) : bool :=
  match monitor_op self with
  | Less => fl_ltb a (fl_sub b (min_delta self))
  | Greater => fl_ltb (fl_add b (min_delta self)) a
  end.

Definition set_counters (self : t) (cooldown_counter wait : Z) : t :=
  mk (monitor self) (factor self) (patience self) (mode self)
     (min_delta self) (cooldown self) (min_lr self)
     cooldown_counter wait (best self) (monitor_op self)
     (activation_val_loss self) (val_threshold_activated self)
     (current_logs self) (lr self).

Definition set_best (self : t) (best : fl) : t :=
  mk (monitor self) (factor self) (patience self) (mode self)
     (min_delta self) (cooldown self) (min_lr self)
     (cooldown_counter self) (wait self) best (monitor_op self)
     (activation_val_loss self) (val_threshold_activated self)
     (current_logs self) (lr self).

Definition set_lr (self : t) (lr : Q) : t :=
  mk (monitor self) (factor self) (patience self) (mode self)
     (min_delta self) (cooldown self) (min_lr self)
     (cooldown_counter self) (wait self) (best self) (monitor_op self)
     (activation_val_loss self) (val_threshold_activated self)
     (current_logs self) lr.

Definition set_current_logs (self : t) (lg : option logs) : t :=
  mk (monitor self) (factor self) (patience self) (mode self)
     (min_delta self) (cooldown self) (min_lr self)
     (cooldown_counter self) (wait self) (best self) (monitor_op self)
     (activation_val_loss self) (val_threshold_activated self)
     (Some lg) (lr self).

(** The rate is lowered, lines [old_lr = ...] to [self.wait = 0] of
    Keras' [on_epoch_end]. *)
Definition reduce_lr (self : t) : t :=
  let old_lr := lr self in
  if Qltb (min_lr self) old_lr then
    let new_lr := (old_lr * factor self)%Q in
    let new_lr := if Qltb new_lr (min_lr self) then min_lr self else new_lr in
    set_counters (set_lr self new_lr) (cooldown self) 0
  else self.

(** Keras' [on_epoch_end] from its second statement in the branch of a
    monitored value that is there: [c] is what the first
    [self.in_cooldown()] returned and [current] the monitored value. *)
Definition detect (self : t) (c : bool) (current : fl) : result t :=
  let self :=
    if c then set_counters self (cooldown_counter self - 1) 0 else self in
  if apply_op self current (best self) then
    Ok (set_counters (set_best self current) (cooldown_counter self) 0)
  else
    match in_cooldown self with
    | Raise e => Raise e
    | Ok (c, self) =>
        if negb c then
          let self :=
            set_counters self (cooldown_counter self) (wait self + 1) in
          if patience self <=? wait self then Ok (reduce_lr self)
          else Ok self
        else Ok self
    end.

(** Keras' [on_epoch_end], which consults [self.in_cooldown()].  It is
    entered from [on_epoch_end] below with [current_logs] holding [lg]: a
    dict that is not empty is one object under both names, so the rate
    written into it shows in [current_logs] too. *)
Definition super_on_epoch_end (self : t) (epoch : Z) (lg : option logs)
  : result t :=
  let d := match lg with Some d => d | None => [] end in
  let d := Py.setitem d "lr" (Fin (lr self)) in
  let self :=
    match lg with
    | Some (_ :: _) => set_current_logs self (Some d)
    | _ => self
    end in
  match Py.get d (monitor self) with
  | None => Ok self
  | Some current =>
      match in_cooldown self with
      | Raise e => Raise e
      | Ok (c, self) => detect self c current
      end
  end.

(** Keras' [on_train_begin] *)
Definition on_train_begin (self : t) : t := _reset self.

(** [on_epoch_end] *)
Definition on_epoch_end (self : t) (epoch : Z) (lg : option logs) : result t :=
  super_on_epoch_end (set_current_logs self lg) epoch lg.

End ReduceLROnPlateauAfterValLoss.

(** ** ReduceLROnPlateau

    The class of Keras that [ReduceLROnPlateauAfterValLoss] extends, on the
    same objects: its own [in_cooldown], and its [on_epoch_end] when it is
    that [in_cooldown] which is consulted. *)

Module ReduceLROnPlateau.
Import ReduceLROnPlateauAfterValLoss.

(** Keras' [in_cooldown] *)
Definition in_cooldown (self : t) : bool := 0 <? cooldown_counter self.

(** Keras' [on_epoch_end] from its second statement in the branch of a
    monitored value that is there. *)
Definition detect (self : t) (c : bool) (current : fl) : t :=
  let self :=
    if c then set_counters self (cooldown_counter self - 1) 0 else self in
  if apply_op self current (best self) then
    set_counters (set_best self current) (cooldown_counter self) 0
  else if negb (in_cooldown self) then
    let self := set_counters self (cooldown_counter self) (wait self + 1) in
    if patience self <=? wait self then reduce_lr self else self
  else self.

(** Keras' [on_epoch_end], on an object whose [current_logs] the subclass
    has set to [lg]. *)
Definition on_epoch_end (self : t) (epoch : Z) (lg : option logs) : t :=
  let d := match lg with Some d => d | None => [] end in
  let d := Py.setitem d "lr" (Fin (lr self)) in
  let self :=
    match lg with
    | Some (_ :: _) => set_current_logs self (Some d)
    | _ => self
    end in
  match Py.get d (monitor self) with
  | None => self
  | Some current => detect self (in_cooldown self) current
  end.

End ReduceLROnPlateau.

(** The epoch ends of a run of the deferred reducer, in order. *)
Fixpoint reducer_run (self : ReduceLROnPlateauAfterValLoss.t)
         (epochs : list (Z * option logs))
  : result ReduceLROnPlateauAfterValLoss.t :=
  match epochs with
  | [] => Ok self
  | (epoch, lg) :: rest =>
      match ReduceLROnPlateauAfterValLoss.on_epoch_end self epoch lg with
      | Ok self' => reducer_run self' rest
      | Raise e => Raise e
      end
  end.

(** ** PrintMetrics *)

Module PrintMetrics.
Section PrintMetrics.

(** What the callback is given and only hands on to
    [eval_utils.print_all_metrics], and the values of the metrics. *)
Variables Val ImageFeatures Idx2Row Word2Idx Model ArgsT Metric : Type.

(** The callback object.  [epoch] and [history] are [None] until
    [on_train_begin] sets the attributes; [history] is a dict from metric
    names to lists, in the order of insertion. *)
Record t : Type := mk {
  val : Val;
  image_features : ImageFeatures;
  image_idx2row : Idx2Row;
  word2idx : Word2Idx;
  single_text_doc_model : Model;
  single_img_doc_model : Model;
  args : ArgsT;
  epoch : option (list Z);
  history : option (list (string * list Metric))
}.

(** [__init__] *)
Definition __init__ (val : Val) (image_features : ImageFeatures)
           (image_idx2row : Idx2Row) (word2idx : Word2Idx)
           (single_text_doc_model single_img_doc_model : Model) (args : ArgsT)
  : t :=
  mk val image_features image_idx2row word2idx single_text_doc_model
     single_img_doc_model args None None.

(** [on_train_begin] *)
Definition on_train_begin (self : t) : t :=
  mk (val self) (image_features self) (image_idx2row self) (word2idx self)
     (single_text_doc_model self) (single_img_doc_model self) (args self)
     (Some []) (Some []).

(** [h.setdefault(k, []).append(v)] *)
Fixpoint setdefault_append (h : list (string * list Metric)) (k : string)
         (v : Metric) : list (string * list Metric) :=
  match h with
  | [] => [(k, [v])]
  | (k', vs) :: h' =>
      if String.eqb k' k then (k', vs ++ [v]) :: h'
      else (k', vs) :: setdefault_append h' k v
  end.

(** The loop over [metrics.items()]; [self.history] is looked up in its
    body only. *)
Fixpoint record_metrics (history : option (list (string * list Metric)))
         (items : list (string * Metric))
  : result (option (list (string * list Metric))) :=
  match items with
  | [] => Ok history
  | (k, v) :: rest =>
      match history with
      | None =>
          Raise (AttributeError "'PrintMetrics' object has no attribute 'history'")
      | Some h => record_metrics (Some (setdefault_append h k v)) rest
      end
  end.

(** [on_epoch_end]; [metrics] is what
    [eval_utils.print_all_metrics(self.val, ..., self.args)] returned for
    the weights the two encoders have at this epoch end, or what it
    raised. *)
Definition on_epoch_end (self : t) (epoch_ : Z)
           (metrics : result (list (string * Metric))) : result t :=
  match metrics with
  | Raise e => Raise e
  | Ok metrics =>
      match epoch self with
      | None =>
          Raise (AttributeError "'PrintMetrics' object has no attribute 'epoch'")
      | Some es =>
          match record_metrics (history self) metrics with
          | Raise e => Raise e
          | Ok h =>
              Ok (mk (val self) (image_features self) (image_idx2row self)
                     (word2idx self) (single_text_doc_model self)
                     (single_img_doc_model self) (args self)
                     (Some (es ++ [epoch_])) h)
          end
      end
  end.

(** The epoch ends of a run, in order, each with the outcome of its
    evaluation. *)
Fixpoint run (self : t) (epochs : list (Z * result (list (string * Metric))))
  : result t :=
  match epochs with
  | [] => Ok self
  | (epoch_, metrics) :: rest =>
      match on_epoch_end self epoch_ metrics with
      | Ok self' => run self' rest
      | Raise e => Raise e
      end
  end.

End PrintMetrics.

Arguments val {Val ImageFeatures Idx2Row Word2Idx Model ArgsT Metric}.
Arguments epoch {Val ImageFeatures Idx2Row Word2Idx Model ArgsT Metric}.
Arguments history {Val ImageFeatures Idx2Row Word2Idx Model ArgsT Metric}.
Arguments on_train_begin {Val ImageFeatures Idx2Row Word2Idx Model ArgsT Metric}.
Arguments on_epoch_end {Val ImageFeatures Idx2Row Word2Idx Model ArgsT Metric}.
Arguments run {Val ImageFeatures Idx2Row Word2Idx Model ArgsT Metric}.
Arguments setdefault_append {Metric}.
Arguments record_metrics {Metric}.

End PrintMetrics.

(** * Vocabulary of the properties *)

(** A computation that leaves the heap alone, whatever its outcome. *)
Definition heap_stable {A} (m : M A) : Prop :=
  forall s r s', m s = (r, s') -> heap s' = heap s.

(** The row that pads an image matrix of width [w], and the row that pads
    a sentence matrix of width [w]. *)
Definition zero_row (w : nat) : list Q := repeat 0%Q w.

Definition unk_row (w : nat) : list Q := 1%Q :: repeat 0%Q (w - 1).

(** A matrix padded to [target] rows with copies of [padrow]. *)
Definition padded (m : matrix) (target : Z) (padrow : list Q) : ndarray :=
  mk_ndarray
    (rows m ++ repeat padrow (Z.to_nat (target - Z.of_nat (length (rows m)))))
    [ncols m].

(** The documents [__getitem__] iterates over for batch [idx], from the
    document list [l] and the batch size [B]. *)
Definition batch_docs (l : list Doc) (B idx : Z) : list Doc :=
  let cur := Py.slice l (Some (idx * B)) (Some ((idx + 1) * B)) in
  if idx =? - ((- Z.of_nat (length l)) / B) - 1 then
    cur ++ Py.slice l None (Some (B - Z.of_nat (length cur)))
  else cur.

(** The identifiers [ids] are drawn from the identifiers [all] of a
    document under the subsample count [k]: they are identifiers of [all],
    none taken more often than [all] holds it; all of them when [k] is not
    positive, and [min k (length all)] of them otherwise. *)
Definition drawn_from (k : Z) (all ids : list ident) : Prop :=
  (exists rest, Permutation all (ids ++ rest)) /\
  length ids =
    if 0 <? k then Nat.min (Z.to_nat k) (length all) else length all.

(** What the body of the loop makes of a document once its identifiers
    [ci] (images) and [ct] (sentences) are drawn: the first failure among the
    image stage and the sentence stage, or else the two padded matrices and
    the two counts. *)
Section Assemble.

Context {ImageMatrix Idx2Row Vocab : Type}.
Variable images_to_matrix : list ident -> ImageMatrix -> Idx2Row -> result matrix.
Variable text_to_matrix : list ident -> Vocab -> Z -> result matrix.
Variable self : DocumentSequence ImageMatrix Idx2Row Vocab.

Definition assemble_doc (ci ct : list ident)
  : result (tensor * tensor * nat * nat) :=
  match args self with
  | None => Raise (AttributeError "'NoneType' object has no attribute")
  | Some a =>
      if end2end a then Raise (NameError "augment")
      else
        match images_to_matrix ci (image_matrix self) (image_idx2row self) with
        | Raise e => Raise e
        | Ok mi =>
            if image_target self - Z.of_nat (length (rows mi)) <? 0 then
              Raise (ValueError "negative dimensions are not allowed")
            else
              match text_to_matrix ct (vocab self) (seq_len a) with
              | Raise e => Raise e
              | Ok mt =>
                  if text_target self - Z.of_nat (length (rows mt)) <? 0 then
                    Raise (ValueError "negative dimensions are not allowed")
                  else if (ncols mt =? 0)%nat then
                    Raise (IndexError "index 0 is out of bounds for axis 1 with size 0")
                  else
                    Ok (Np.expand_dims0
                          (padded mi (image_target self) (zero_row (ncols mi))),
                        Np.expand_dims0
                          (padded mt (text_target self) (unk_row (ncols mt))),
                        length (rows mi), length (rows mt))
              end
        end
  end.

(** A document of the batch next to what the batch holds for it: its
    image slab, its sentence slab and its two counts.  The slabs are the
    matrices the lookups returned for the identifiers drawn from the
    document, padded. *)
Inductive doc_assembled (vers : Doc) : ndarray -> ndarray -> nat -> nat -> Prop :=
| doc_assembled_intro a s ci ct s' mi mt :
    args self = Some a ->
    end2end a = false ->
    draw_ids self vers s = (Ok (ci, ct), s') ->
    images_to_matrix ci (image_matrix self) (image_idx2row self) = Ok mi ->
    text_to_matrix ct (vocab self) (seq_len a) = Ok mt ->
    Z.of_nat (length (rows mi)) <= image_target self ->
    Z.of_nat (length (rows mt)) <= text_target self ->
    ncols mt <> 0%nat ->
    doc_assembled vers
      (padded mi (image_target self) (zero_row (ncols mi)))
      (padded mt (text_target self) (unk_row (ncols mt)))
      (length (rows mi)) (length (rows mt)).

(** The same, document by document along a batch. *)
Inductive batch_assembled
  : list Doc -> list ndarray -> list ndarray -> list nat -> list nat -> Prop :=
| batch_assembled_nil : batch_assembled [] [] [] [] []
| batch_assembled_cons vers docs im ims tx txs ni nis nt nts :
    doc_assembled vers im tx ni nt ->
    batch_assembled docs ims txs nis nts ->
    batch_assembled (vers :: docs) (im :: ims) (tx :: txs) (ni :: nis) (nt :: nts).

(** The rows of a slab after its first [n] are the padding of a sentence
    matrix: the unknown-token index 1 in the first column and 0 in every
    other; [target - n] rows of them. *)
Definition text_padding_rows (target : Z) (n : nat) (T : ndarray) : Prop :=
  exists w,
    item_shape T = [S w] /\
    skipn n (items T) =
    repeat (1%Q :: repeat 0%Q w) (Z.to_nat (target - Z.of_nat n)).

(** The rows of a slab after its first [n] are the padding of an image
    matrix: 0 in every column; [target - n] rows of them. *)
Definition image_padding_rows (target : Z) (n : nat) (I : ndarray) : Prop :=
  exists w,
    item_shape I = [w] /\
    skipn n (items I) = repeat (repeat 0%Q w) (Z.to_nat (target - Z.of_nat n)).

(** The count [n] is the number of rows the image lookup returned, these
    rows open the slab, and the slab has [image_target] rows. *)
Definition image_rows_counted (n : nat) (I : ndarray) : Prop :=
  exists ci mi,
    images_to_matrix ci (image_matrix self) (image_idx2row self) = Ok mi /\
    n = length (rows mi) /\
    firstn n (items I) = rows mi /\
    length (items I) = Z.to_nat (image_target self).

(** The same for the sentences. *)
Definition text_rows_counted (n : nat) (T : ndarray) : Prop :=
  exists a ct mt,
    args self = Some a /\
    text_to_matrix ct (vocab self) (seq_len a) = Ok mt /\
    n = length (rows mt) /\
    firstn n (items T) = rows mt /\
    length (items T) = Z.to_nat (text_target self).

(** The count [n] is the count of the images of the document [vers]: the
    number of rows the image lookup returned for the identifiers drawn from
    the images of [vers]; these rows open the slab [I], which has
    [image_target] rows. *)
Definition image_count_of (vers : Doc) (n : nat) (I : ndarray) : Prop :=
  exists a ci mi,
    args self = Some a /\
    drawn_from (subsample_image a) (map fst (fst vers)) ci /\
    images_to_matrix ci (image_matrix self) (image_idx2row self) = Ok mi /\
    n = length (rows mi) /\
    firstn n (items I) = rows mi /\
    length (items I) = Z.to_nat (image_target self).

(** The same for the sentences of [vers]. *)
Definition text_count_of (vers : Doc) (n : nat) (T : ndarray) : Prop :=
  exists a ct mt,
    args self = Some a /\
    drawn_from (subsample_text a) (map fst (snd vers)) ct /\
    text_to_matrix ct (vocab self) (seq_len a) = Ok mt /\
    n = length (rows mt) /\
    firstn n (items T) = rows mt /\
    length (items T) = Z.to_nat (text_target self).

(** The identifiers [ci] and [ct] bring more rows than a padding target:
    the image lookup returns more than [image_target] rows, or the sentence
    lookup more than [text_target]. *)
Definition overflow (ci ct : list ident) : Prop :=
  (exists mi,
      images_to_matrix ci (image_matrix self) (image_idx2row self) = Ok mi /\
      image_target self < Z.of_nat (length (rows mi))) \/
  (exists a mt,
      args self = Some a /\
      text_to_matrix ct (vocab self) (seq_len a) = Ok mt /\
      text_target self < Z.of_nat (length (rows mt))).

(** A document that brings more rows than a padding target however its
    identifiers are drawn. *)
Definition overflows (vers : Doc) : Prop :=
  forall s ci ct s', draw_ids self vers s = (Ok (ci, ct), s') -> overflow ci ct.

(** The images of a document fit: however its identifiers are drawn, the
    lookup returns a matrix of width [wi] with at most [image_target] rows. *)
Definition images_fit (wi : nat) (vers : Doc) : Prop :=
  forall s ci ct s',
    draw_ids self vers s = (Ok (ci, ct), s') ->
    exists mi,
      images_to_matrix ci (image_matrix self) (image_idx2row self) = Ok mi /\
      ncols mi = wi /\
      Z.of_nat (length (rows mi)) <= image_target self.

(** The sentences of a document fit: the lookup returns a matrix of width
    [S wt], not zero, with at most [text_target] rows. *)
Definition sentences_fit (wt : nat) (vers : Doc) : Prop :=
  forall a s ci ct s',
    args self = Some a ->
    draw_ids self vers s = (Ok (ci, ct), s') ->
    exists mt,
      text_to_matrix ct (vocab self) (seq_len a) = Ok mt /\
      ncols mt = S wt /\
      Z.of_nat (length (rows mt)) <= text_target self.

End Assemble.

(** A matrix of [target] rows, all of them the padding row. *)
Definition all_padding (padrow : list Q) (target : Z) (w : nat) : ndarray :=
  mk_ndarray (repeat padrow (Z.to_nat target)) [w].

(** * A small collection

    Four documents and lookups that return one row per identifier: an image
    is the row [1/2, 1/3], a sentence a row of [max_len] sevens. *)

Definition ex_images_to_images (ids : list ident) (augment args_ : pyobj)
  : result ndarray :=
  Ok (mk_ndarray (map (fun _ => repeat (1 # 2) (224 * 224 * 3)) ids)
                 [224; 224; 3]%nat).

Definition ex_images_to_matrix (ids : list ident) (image_matrix image_idx2row : unit)
  : result matrix :=
  Ok (mk_matrix (map (fun _ => [1 # 2; 1 # 3]) ids) 2).

Definition ex_text_to_matrix (ids : list ident) (vocab : unit) (max_len : Z)
  : result matrix :=
  Ok (mk_matrix (map (fun _ => repeat 7%Q (Z.to_nat max_len)) ids)
                (Z.to_nat max_len)).

(** A document of [ni] images and [nt] sentences. *)
Definition ex_doc (ni nt : nat) : Doc :=
  (repeat ("img", "jpg")%string ni, repeat ("a sentence", "en")%string nt).

(** At most 2 images and 3 sentences a document; no subsampling. *)
Definition ex_sequence (B : Z) (end2end shuffle : bool)
  : DocumentSequence unit unit unit :=
  mk_DocumentSequence unit unit unit 0%nat tt tt 3 2 tt
    (Some (mk_Args B 2 0 0 end2end)) true shuffle shuffle shuffle.

Definition ex_state : state :=
  mk_state [[ex_doc 1 2; ex_doc 0 0; ex_doc 2 3; ex_doc 2 1]] [5; 3; 1; 4; 2]%nat.

(** A collection of one document. *)
Definition ex_state_one : state := mk_state [[ex_doc 1 2]] [5; 3; 1]%nat.

(** A collection with a document of 3 images, one more than the maximum. *)
Definition ex_state_overflow : state :=
  mk_state [[ex_doc 1 2; ex_doc 3 1]] [5; 3; 1]%nat.

(** The losses of a list that are numbers. *)
Definition numbers (l : list fl) : list fl :=
  filter (fun u => negb (is_nan u)) l.

(** The best loss of a run is below exactly the candidates that are below
    infinity and below every loss seen that is a number. *)
Definition best_is_min {Model} (self : SaveDocModels.t Model) (seen : list fl)
  : Prop :=
  exists best,
    SaveDocModels.best_val_loss self = Some best /\
    forall v,
      fl_ltb v best = true <->
      fl_ltb v PosInf = true /\
      Forall (fun u => fl_ltb v u = true) (numbers seen).

(** A stand-in for ['{:.5f}'.format]: the fraction is written out. *)
Definition ex_format_5f (x : fl) : string :=
  match x with
  | NegInf => "-inf"
  | Fin q => Py.str_of_int (Qnum q) ++ "/" ++ Py.str_of_int (Zpos (Qden q))
  | PosInf => "inf"
  | NaN => "nan"
  end%string.

(** A saver whose models are known by name, and two epochs of a run with
    the validation losses 3/2 and 2. *)
Definition ex_saver : SaveDocModels.t string :=
  SaveDocModels.__init__ "ckpt"%string "text encoder"%string "image encoder"%string [].

Definition ex_epochs : list (Z * logs) :=
  [ (0, [("loss", Fin 2); ("val_loss", Fin (3 # 2))]);
    (1, [("loss", Fin 1); ("val_loss", Fin 2)]) ]%string.

Definition ex_saver_after : SaveDocModels.t string :=
  Eval vm_compute in
    match SaveDocModels.run ex_format_5f
            (SaveDocModels.on_train_begin ex_saver) ex_epochs with
    | Ok self => self
    | Raise _ => ex_saver
    end.

(** A reducer that wakes up below a validation loss of 1, with Keras'
    defaults otherwise and a rate of 1/100. *)
Definition ex_reducer : ReduceLROnPlateauAfterValLoss.t :=
  Eval vm_compute in
    match ReduceLROnPlateauAfterValLoss.__init__
            (Fin 1) "val_loss" (1 # 10) 10 "auto" (1 # 10000) 0 0 (1 # 100) with
    | Ok self => self
    | Raise _ =>
        ReduceLROnPlateauAfterValLoss.mk
          "val_loss" 0 0 "auto" 0 0 0 0 0 PosInf ReduceLROnPlateauAfterValLoss.Less
          PosInf false None 0
    end.

(** A computation that leaves the state alone, whatever its outcome. *)
Definition state_stable {A} (m : M A) : Prop :=
  forall s r s', m s = (r, s') -> s' = s.

(** The values a dict of metrics holds under a name, and the values the
    evaluations of a run returned under it, epoch after epoch. *)
Definition values_in {Metric} (items : list (string * Metric)) (k : string)
  : list Metric :=
  map snd (filter (fun kv => String.eqb (fst kv) k) items).

Definition reported {Metric}
           (epochs : list (Z * result (list (string * Metric)))) (k : string)
  : list Metric :=
  flat_map (fun em => match snd em with
                      | Ok items => values_in items k
                      | Raise _ => []
                      end) epochs.

(** A list of values joins the list a history may hold under a name. *)
Definition joined {Metric} (held : option (list Metric)) (more : list Metric)
  : option (list Metric) :=
  match more with
  | [] => held
  | _ => Some (match held with Some vs => vs ++ more | None => more end)
  end.

(** At most one image and two sentences are drawn from a document. *)
Definition ex_sequence_subsampled : DocumentSequence unit unit unit :=
  mk_DocumentSequence unit unit unit 0%nat tt tt 3 2 tt
    (Some (mk_Args 3 2 2 1 false)) true false true true.

(** A reducer that monitors the training loss. *)
Definition ex_reducer_on_loss : ReduceLROnPlateauAfterValLoss.t :=
  Eval vm_compute in
    match ReduceLROnPlateauAfterValLoss.__init__
            (Fin 1) "loss" (1 # 10) 10 "auto" (1 # 10000) 0 0 (1 # 100) with
    | Ok self => self
    | Raise _ => ex_reducer
    end.

(** A logger of metrics, all it hands on left out, and two evaluations. *)
Definition ex_logger : PrintMetrics.t unit unit unit unit unit unit Q :=
  PrintMetrics.__init__ unit unit unit unit unit unit Q tt tt tt tt tt tt tt.

Definition ex_evaluations : list (Z * result (list (string * Q))) :=
  [ (0, Ok [("recall", 1 # 2); ("auc", 3 # 4)]);
    (1, Ok [("recall", 2 # 3); ("auc", 4 # 5)]) ]%string.

(** * Properties *)

(** ** Computations in [M] *)

Lemma bind_ok {A B} (m : M A) (k : A -> M B) s b s' :
  bind m k s = (Ok b, s') ->
  exists a s1, m s = (Ok a, s1) /\ k a s1 = (Ok b, s').
Proof.
  unfold bind. destruct (m s) as [[a|e] s1]; intros H.
  - exists a, s1. auto.
  - discriminate.
Qed.

Lemma bind_step {A B} (m : M A) (k : A -> M B) s a s1 :
  m s = (Ok a, s1) -> bind m k s = k a s1.
Proof. unfold bind. intros ->. reflexivity. Qed.

Lemma bind_raise {A B} (m : M A) (k : A -> M B) s e s1 :
  m s = (Raise e, s1) -> bind m k s = (Raise e, s1).
Proof. unfold bind. intros ->. reflexivity. Qed.

Lemma lift_ok {A} (r : result A) s a s' :
  lift r s = (Ok a, s') -> r = Ok a /\ s' = s.
Proof. unfold lift. intros H. inversion H. auto. Qed.

Lemma heap_stable_ret {A} (a : A) : heap_stable (ret a).
Proof. intros s r s' H. inversion H. reflexivity. Qed.

Lemma heap_stable_raise {A} (e : exn) : heap_stable (@raise A e).
Proof. intros s r s' H. inversion H. reflexivity. Qed.

Lemma heap_stable_lift {A} (r : result A) : heap_stable (lift r).
Proof. intros s r' s' H. inversion H. reflexivity. Qed.

Lemma heap_stable_bind {A B} (m : M A) (k : A -> M B) :
  heap_stable m -> (forall a, heap_stable (k a)) -> heap_stable (bind m k).
Proof.
  intros Hm Hk s r s'. unfold bind.
  destruct (m s) as [[a|e] s1] eqn:E; intros H.
  - apply Hk in H. apply Hm in E. congruence.
  - inversion H; subst. eapply Hm; eauto.
Qed.

Lemma heap_stable_read a : heap_stable (read a).
Proof. intros s r s' H. inversion H. reflexivity. Qed.

Lemma heap_stable_draw n : heap_stable (draw n).
Proof.
  intros s r s'. unfold draw. destruct (rng s); intros H; inversion H; reflexivity.
Qed.

Lemma heap_stable_load_global name : heap_stable (load_global name).
Proof.
  unfold load_global. destruct (Py.get module_globals name).
  - apply heap_stable_ret.
  - destruct (existsb _ _); [apply heap_stable_ret | apply heap_stable_raise].
Qed.

Lemma heap_stable_shuffle {A} (l : list A) : heap_stable (shuffle l).
Proof.
  induction l as [|x xs IH]; simpl.
  - apply heap_stable_ret.
  - apply heap_stable_bind; [exact IH|]. intros ys.
    apply heap_stable_bind; [apply heap_stable_draw|]. intros r.
    apply heap_stable_ret.
Qed.

Create HintDb stable.

#[local] Hint Resolve heap_stable_ret heap_stable_raise heap_stable_lift
  heap_stable_read heap_stable_draw heap_stable_load_global
  heap_stable_shuffle : stable.

Ltac stable :=
  repeat first
    [ apply heap_stable_bind; [| intros ?]
    | solve [auto with stable]
    | match goal with
      | |- heap_stable (if ?b then _ else _) => destruct b
      | |- heap_stable (match ?x with _ => _ end) => destruct x
      end ].

(** ** Shuffling *)

Lemma draw_ok n s : exists r, draw n s = (Ok r, mk_state (heap s) (skipn 1 (rng s))).
Proof.
  unfold draw. destruct s as [h [|r tape]]; simpl; eauto.
Qed.

(** A shuffle never raises, and what it returns is a rearrangement of what
    it was given. *)
Lemma shuffle_permutation {A} (l : list A) s :
  exists l' s', shuffle l s = (Ok l', s') /\ Permutation l l'.
Proof.
  revert s. induction l as [|x xs IH]; intros s; simpl.
  - exists [], s. split; [reflexivity | constructor].
  - destruct (IH s) as (ys & s1 & E & P).
    destruct (draw_ok (S (length ys)) s1) as (r & D).
    exists (firstn r ys ++ x :: skipn r ys), (mk_state (heap s1) (skipn 1 (rng s1))).
    split.
    + rewrite (bind_step _ _ _ _ _ E), (bind_step _ _ _ _ _ D). reflexivity.
    + apply Permutation_cons_app. rewrite firstn_skipn. exact P.
Qed.

Lemma shuffle_ok_inv {A} (l : list A) s r s' :
  shuffle l s = (r, s') -> exists l', r = Ok l' /\ Permutation l l'.
Proof.
  intros H. destruct (shuffle_permutation l s) as (l1 & s1 & E & P).
  rewrite E in H. inversion H; subst. eauto.
Qed.

(** ** NumPy *)

Lemma eqb_shape_refl s : Np.eqb_shape s s = true.
Proof. unfold Np.eqb_shape. destruct (list_eq_dec Nat.eq_dec s s); congruence. Qed.

Lemma eqb_shape_eq s1 s2 : Np.eqb_shape s1 s2 = true -> s1 = s2.
Proof.
  unfold Np.eqb_shape. destruct (list_eq_dec Nat.eq_dec s1 s2); congruence.
Qed.

(** [np.zeros((k, w))] *)
Lemma zeros_2d (k : Z) (w : nat) :
  Np.zeros [k; Z.of_nat w] =
  if k <? 0 then Raise (ValueError "negative dimensions are not allowed")
  else Ok (mk_ndarray (repeat (repeat 0%Q w) (Z.to_nat k)) [w]).
Proof.
  unfold Np.zeros. simpl existsb.
  replace (Z.of_nat w <? 0) with false by (symmetry; apply Z.ltb_ge; lia).
  rewrite !orb_false_r. destruct (k <? 0); [reflexivity|].
  simpl. rewrite Nat2Z.id, Nat.mul_1_r. reflexivity.
Qed.

(** [a[:, 0] = 1] on [np.zeros((k, w))] *)
Lemma set_col0_zeros (k w : nat) :
  Np.set_col0 (mk_ndarray (repeat (repeat 0%Q w) k) [w]) 1 =
  if (w =? 0)%nat then
    Raise (IndexError "index 0 is out of bounds for axis 1 with size 0")
  else Ok (mk_ndarray (repeat (unk_row w) k) [w]).
Proof.
  unfold Np.set_col0. simpl. destruct w as [|w]; [reflexivity|].
  simpl. rewrite map_repeat. unfold unk_row. simpl.
  rewrite Nat.sub_0_r. reflexivity.
Qed.

(** A matrix with rows of the same width stacked under it. *)
Lemma vstack_matrix (m : matrix) (pad : list (list Q)) :
  Np.vstack [of_matrix m; mk_ndarray pad [ncols m]] =
  Ok (mk_ndarray (rows m ++ pad) [ncols m]).
Proof.
  unfold Np.vstack. simpl. rewrite eqb_shape_refl. reflexivity.
Qed.

Lemma vstack_t_from_ok acc ts t :
  Np.vstack_t_from acc ts = Ok t ->
  slabs t = slabs acc ++ concat (map slabs ts) /\
  slab_shape t = slab_shape acc /\
  Forall (fun u => slab_shape u = slab_shape acc) ts.
Proof.
  revert acc. induction ts as [|u ts IH]; simpl; intros acc H.
  - inversion H; subst. rewrite app_nil_r. auto.
  - destruct (Np.eqb_shape (slab_shape acc) (slab_shape u)) eqn:E; [|discriminate].
    apply eqb_shape_eq in E. apply IH in H. simpl in H.
    destruct H as (H1 & H2 & H3). rewrite <- app_assoc in H1. auto.
Qed.

(** A successful [np.vstack] over arrays with a leading axis of length 1:
    the slabs are those arrays in order, and all have the shape of the
    result's slabs. *)
Lemma vstack_t_expand_ok (arrs : list ndarray) t :
  Np.vstack_t (map Np.expand_dims0 arrs) = Ok t ->
  slabs t = arrs /\ arrs <> [] /\ Forall (fun a => shape a = slab_shape t) arrs.
Proof.
  destruct arrs as [|a arrs]; simpl; [discriminate|]. intros H.
  apply vstack_t_from_ok in H. simpl in H. destruct H as (H1 & H2 & H3).
  assert (C : forall l, concat (map slabs (map Np.expand_dims0 l)) = l).
  { induction l as [|x l IH]; simpl; [reflexivity | now rewrite IH]. }
  rewrite C in H1. repeat split; [assumption | discriminate |].
  constructor; [congruence|].
  rewrite Forall_map in H3. simpl in H3.
  eapply Forall_impl; [|exact H3]. simpl. congruence.
Qed.

(** ** The heap *)

Lemma set_nth_length {A} n (v : A) l : length (set_nth n v l) = length l.
Proof.
  revert n. induction l as [|x l IH]; intros [|n]; simpl; auto.
Qed.

Lemma nth_set_nth_same {A} n (v d : A) l :
  (n < length l)%nat -> nth n (set_nth n v l) d = v.
Proof.
  revert n. induction l as [|x l IH]; intros [|n]; simpl; intros H;
    try lia; auto. apply IH. lia.
Qed.

Lemma nth_set_nth_other {A} n n' (v d : A) l :
  n <> n' -> nth n' (set_nth n v l) d = nth n' l d.
Proof.
  revert n n'. induction l as [|x l IH]; intros [|n] [|n']; simpl; intros H;
    try congruence; auto.
Qed.

Lemma set_nth_beyond {A} n (v : A) l : (length l <= n)%nat -> set_nth n v l = l.
Proof.
  revert n. induction l as [|x l IH]; intros [|n]; simpl; intros H;
    try lia; auto. f_equal. apply IH. lia.
Qed.

Lemma set_nth_last {A} (v x : A) l : set_nth (length l) v (l ++ [x]) = l ++ [v].
Proof. induction l as [|y l IH]; simpl; [reflexivity | now rewrite IH]. Qed.

(** ** Python slices and the documents of a batch *)

Lemma clamp_nonneg n i : 0 <= i -> Py.clamp n i = Nat.min (Z.to_nat i) n.
Proof.
  intros Hi. unfold Py.clamp.
  replace (i <? 0) with false by (symmetry; apply Z.ltb_ge; lia).
  replace (i <? 0) with false by (symmetry; apply Z.ltb_ge; lia).
  destruct (Z.of_nat n <? i) eqn:E.
  - apply Z.ltb_lt in E. lia.
  - apply Z.ltb_ge in E. lia.
Qed.

(** [l[a:b]] for [0 <= a <= b] *)
Lemma slice_nonneg {A} (l : list A) a b :
  0 <= a -> a <= b ->
  Py.slice l (Some a) (Some b) =
  firstn (Nat.min (Z.to_nat b) (length l) - Nat.min (Z.to_nat a) (length l))
         (skipn (Nat.min (Z.to_nat a) (length l)) l).
Proof.
  intros Ha Hab. unfold Py.slice. now rewrite !clamp_nonneg by lia.
Qed.

(** [l[:b]] for [0 <= b] *)
Lemma slice_prefix {A} (l : list A) b :
  0 <= b -> Py.slice l None (Some b) = firstn (Z.to_nat b) l.
Proof.
  intros Hb. unfold Py.slice. rewrite clamp_nonneg by lia. simpl.
  rewrite Nat.sub_0_r. destruct (Nat.le_ge_cases (Z.to_nat b) (length l)).
  - now rewrite Nat.min_l.
  - rewrite Nat.min_r by assumption. now rewrite !firstn_all2.
Qed.

(** The number of batches is the ceiling of [N / B]. *)
Lemma ceiling_spec (N B : Z) :
  0 < B ->
  (- ((- N) / B) - 1) * B < N <= - ((- N) / B) * B.
Proof.
  intros HB. pose proof (Z.div_mod (- N) B ltac:(lia)) as Hdm.
  pose proof (Z.mod_pos_bound (- N) B HB) as Hm. nia.
Qed.

(** A batch that the collection can fill holds [B] documents in a row. *)
Lemma batch_docs_full (l : list Doc) (B idx : Z) :
  0 < B -> 0 <= idx -> (idx + 1) * B <= Z.of_nat (length l) ->
  batch_docs l B idx = firstn (Z.to_nat B) (skipn (Z.to_nat (idx * B)) l) /\
  length (batch_docs l B idx) = Z.to_nat B.
Proof.
  intros HB Hidx Hfull.
  assert (Hcur : Py.slice l (Some (idx * B)) (Some ((idx + 1) * B))
                 = firstn (Z.to_nat B) (skipn (Z.to_nat (idx * B)) l)).
  { rewrite slice_nonneg by nia. rewrite !Nat.min_l by nia.
    f_equal. nia. }
  assert (Hlen : length (firstn (Z.to_nat B) (skipn (Z.to_nat (idx * B)) l))
                 = Z.to_nat B).
  { rewrite length_firstn, length_skipn. nia. }
  unfold batch_docs. rewrite Hcur, Hlen. destruct (idx =? _).
  - rewrite slice_prefix by lia. replace (Z.to_nat (B - Z.of_nat (Z.to_nat B)))
      with 0%nat by lia.
    simpl. rewrite app_nil_r. auto.
  - auto.
Qed.

(** The final batch of a collection that is not a multiple of [B]: the
    trailing documents, then documents from the start of the collection, as
    many as are missing if the collection has that many. *)
Lemma batch_docs_final (l : list Doc) (B idx : Z) :
  0 < B -> 0 <= idx ->
  idx * B < Z.of_nat (length l) < (idx + 1) * B ->
  let r := (length l - Z.to_nat (idx * B))%nat in
  batch_docs l B idx =
    skipn (Z.to_nat (idx * B)) l ++ firstn (Z.to_nat B - r) l /\
  length (batch_docs l B idx) = (r + Nat.min (Z.to_nat B - r) (length l))%nat.
Proof.
  intros HB Hidx Hpart r.
  assert (Hcur : Py.slice l (Some (idx * B)) (Some ((idx + 1) * B))
                 = skipn (Z.to_nat (idx * B)) l).
  { rewrite slice_nonneg by nia. rewrite Nat.min_r by nia.
    rewrite Nat.min_l by nia. apply firstn_all2. rewrite length_skipn. lia. }
  assert (Hlast : idx = - ((- Z.of_nat (length l)) / B) - 1).
  { pose proof (ceiling_spec (Z.of_nat (length l)) B HB). nia. }
  unfold batch_docs. rewrite Hcur, <- Hlast, Z.eqb_refl.
  rewrite length_skipn. fold r. rewrite slice_prefix by (unfold r; nia).
  replace (Z.to_nat (B - Z.of_nat r)) with (Z.to_nat B - r)%nat by lia.
  split; [reflexivity|].
  rewrite length_app, length_skipn, length_firstn. reflexivity.
Qed.

(** ** DocumentSequence: the documents of a batch *)

Section DocumentSequenceFacts.

Context {ImageMatrix Idx2Row Vocab : Type}.
Variable images_to_images : list ident -> pyobj -> pyobj -> result ndarray.
Variable images_to_matrix : list ident -> ImageMatrix -> Idx2Row -> result matrix.
Variable text_to_matrix : list ident -> Vocab -> Z -> result matrix.
Variable self : DocumentSequence ImageMatrix Idx2Row Vocab.

Local Abbreviation image_features :=
  (image_features images_to_images images_to_matrix self).
Local Abbreviation text_features := (text_features text_to_matrix self).
Local Abbreviation process_doc :=
  (process_doc images_to_images images_to_matrix text_to_matrix self).
Local Abbreviation for_docs :=
  (for_docs images_to_images images_to_matrix text_to_matrix self).
Local Abbreviation __getitem__ :=
  (__getitem__ images_to_images images_to_matrix text_to_matrix self).

(** [__len__] is the ceiling of the quotient. *)
Lemma len_spec a s :
  args self = Some a -> docs_per_batch a <> 0 ->
  __len__ self s =
  (Ok (- ((- Z.of_nat (length (nth (data_in self) (heap s) [])))
          / docs_per_batch a)), s).
Proof.
  intros Ha HB. unfold __len__, self_args, bind, read, ret. rewrite Ha.
  apply Z.eqb_neq in HB. rewrite HB. reflexivity.
Qed.

(** Lines 37-43 allocate one list, holding [batch_docs], and change no
    other. *)
Lemma select_docs_spec a idx s :
  args self = Some a -> 0 < docs_per_batch a ->
  (data_in self < length (heap s))%nat ->
  select_docs self idx s =
  (Ok (length (heap s)),
   mk_state
     (heap s ++ [batch_docs (nth (data_in self) (heap s) [])
                            (docs_per_batch a) idx])
     (rng s)).
Proof.
  intros Ha HB Hd.
  pose proof (ceiling_spec (Z.of_nat (length (nth (data_in self) (heap s) [])))
                (docs_per_batch a) HB) as Hceil.
  unfold select_docs, len_self, __len__, self_args, bind, read, alloc, store, ret,
    batch_docs.
  rewrite Ha. simpl. rewrite app_nth1 by assumption.
  replace (docs_per_batch a =? 0) with false by (symmetry; apply Z.eqb_neq; lia).
  replace (- (- Z.of_nat (length (nth (data_in self) (heap s) []))
              / docs_per_batch a) <? 0) with false
    by (symmetry; apply Z.ltb_ge; nia).
  destruct (idx =? _).
  - simpl. rewrite nth_middle, app_nth1 by assumption.
    rewrite set_nth_last. reflexivity.
  - reflexivity.
Qed.

(** Whatever its outcome, [select_docs] only adds to the heap. *)
Lemma select_docs_extends idx s r s' :
  select_docs self idx s = (r, s') ->
  exists ext, heap s' = heap s ++ ext.
Proof.
  unfold select_docs, len_self, __len__, self_args, bind, read, alloc, store, ret,
    raise.
  destruct (args self) as [a|]; simpl.
  - destruct (docs_per_batch a =? 0).
    + intros H. inversion H. simpl. eauto.
    + destruct (_ <? 0).
      * intros H. inversion H. simpl. eauto.
      * destruct (idx =? _); simpl; intros H; inversion H; simpl.
        -- rewrite set_nth_last. eauto.
        -- eauto.
  - intros H. inversion H. exists []. now rewrite app_nil_r.
Qed.

Lemma select_docs_raises_no_args idx s :
  args self = None ->
  exists e, select_docs self idx s = (Raise e, s).
Proof.
  intros Ha. unfold select_docs, self_args, bind, raise. rewrite Ha. eauto.
Qed.

(** A normal return of [select_docs] on a valid [data_in]: the batch size is
    not zero and the new list holds [batch_docs]. *)
Lemma select_docs_ok_inv idx s c s0 :
  (data_in self < length (heap s))%nat ->
  select_docs self idx s = (Ok c, s0) ->
  exists a,
    args self = Some a /\ docs_per_batch a <> 0 /\
    nth c (heap s0) [] =
      batch_docs (nth (data_in self) (heap s) []) (docs_per_batch a) idx.
Proof.
  intros Hvalid. destruct (args self) as [a|] eqn:Ha.
  - unfold select_docs, len_self, __len__, self_args, bind, read, alloc, store, ret,
      raise.
    rewrite Ha. simpl. rewrite !(app_nth1 _ _ _ Hvalid).
    destruct (docs_per_batch a =? 0) eqn:HB; [discriminate|].
    apply Z.eqb_neq in HB.
    destruct (_ <? 0); [discriminate|].
    destruct (idx =? _) eqn:E; simpl;
      rewrite ?nth_middle, ?(app_nth1 _ _ _ Hvalid), ?set_nth_last;
      intros H; inversion H; subst; simpl;
      exists a; repeat split; auto;
      rewrite nth_middle; unfold batch_docs; rewrite E; reflexivity.
  - intros H. destruct (select_docs_raises_no_args idx s Ha) as (e & He).
    congruence.
Qed.

(** ** DocumentSequence: one document *)

Lemma slice_nil {A} (start stop : option Z) : Py.slice (@nil A) start stop = [].
Proof. unfold Py.slice. now rewrite skipn_nil, firstn_nil. Qed.

Lemma maybe_shuffle_ok {A} (b : bool) (l : list A) s :
  exists l' s',
    (if b then shuffle l else ret l) s = (Ok l', s') /\
    heap s' = heap s /\ Permutation l l'.
Proof.
  destruct b.
  - destruct (shuffle_permutation l s) as (l' & s' & E & P).
    exists l', s'. repeat split; auto. eapply heap_stable_shuffle; eauto.
  - exists l, s. repeat split; auto.
Qed.

Lemma subsample_ok (field : Args -> Z) (l : list ident) s :
  exists l' s',
    (if args_and_positive self field then
       a <- self_args self ;;
       l1 <- shuffle l ;;
       ret (Py.slice l1 None (Some (field a)))
     else ret l) s = (Ok l', s') /\
    heap s' = heap s /\ (l = [] -> l' = []) /\
    (args_and_positive self field = false -> l' = l).
Proof.
  unfold args_and_positive, self_args. destruct (args self) as [a|].
  - destruct (0 <? field a).
    + destruct (shuffle_permutation l s) as (l1 & s1 & E & P).
      exists (Py.slice l1 None (Some (field a))), s1.
      split; [|split; [|split]].
      * unfold bind at 1. unfold ret at 1.
        rewrite (bind_step _ _ _ _ _ E). reflexivity.
      * eapply heap_stable_shuffle; eauto.
      * intros ->. apply Permutation_nil in P. subst. apply slice_nil.
      * discriminate.
    + exists l, s. auto.
  - exists l, s. auto.
Qed.

(** Drawing the identifiers of a document never raises and leaves the
    heap alone; a document without images (sentences) yields no image
    (sentence) identifier. *)
Lemma draw_ids_ok vers s :
  exists ci ct s',
    draw_ids self vers s = (Ok (ci, ct), s') /\
    heap s' = heap s /\
    (fst vers = [] -> ci = []) /\ (snd vers = [] -> ct = []).
Proof.
  unfold draw_ids.
  destruct (maybe_shuffle_ok
              (shuffle_sentences self && negb (args_and_positive self subsample_text))
              (map fst (snd vers)) s) as (t1 & s1 & E1 & H1 & P1).
  destruct (maybe_shuffle_ok
              (shuffle_images self && negb (args_and_positive self subsample_image))
              (map fst (fst vers)) s1) as (i1 & s2 & E2 & H2 & P2).
  destruct (subsample_ok subsample_image i1 s2) as (i2 & s3 & E3 & H3 & N3 & _).
  destruct (subsample_ok subsample_text t1 s3) as (t2 & s4 & E4 & H4 & N4 & _).
  exists i2, t2, s4.
  rewrite (bind_step _ _ _ _ _ E1), (bind_step _ _ _ _ _ E2),
    (bind_step _ _ _ _ _ E3), (bind_step _ _ _ _ _ E4).
  repeat split.
  - congruence.
  - intros Hv. apply N3. rewrite Hv in P2. now apply Permutation_nil in P2.
  - intros Hv. apply N4. rewrite Hv in P1. now apply Permutation_nil in P1.
Qed.

(** Without subsampling the identifiers drawn are those of the document,
    in some order. *)
Lemma draw_ids_unsampled vers s ci ct s' :
  draw_ids self vers s = (Ok (ci, ct), s') ->
  (args_and_positive self subsample_image = false ->
   Permutation (map fst (fst vers)) ci) /\
  (args_and_positive self subsample_text = false ->
   Permutation (map fst (snd vers)) ct).
Proof.
  unfold draw_ids.
  destruct (maybe_shuffle_ok
              (shuffle_sentences self && negb (args_and_positive self subsample_text))
              (map fst (snd vers)) s) as (t1 & s1 & E1 & _ & P1).
  destruct (maybe_shuffle_ok
              (shuffle_images self && negb (args_and_positive self subsample_image))
              (map fst (fst vers)) s1) as (i1 & s2 & E2 & _ & P2).
  destruct (subsample_ok subsample_image i1 s2) as (i2 & s3 & E3 & _ & _ & K3).
  destruct (subsample_ok subsample_text t1 s3) as (t2 & s4 & E4 & _ & _ & K4).
  rewrite (bind_step _ _ _ _ _ E1), (bind_step _ _ _ _ _ E2),
    (bind_step _ _ _ _ _ E3), (bind_step _ _ _ _ _ E4).
  intros H. inversion H; subst. split; intros Hn.
  - now rewrite (K3 Hn).
  - now rewrite (K4 Hn).
Qed.

(** Subsampling with a positive count keeps the first identifiers of a
    rearrangement. *)
Lemma subsample_positive (field : Args -> Z) (l : list ident) a s :
  args self = Some a -> 0 < field a ->
  exists l1 s',
    (if args_and_positive self field then
       a <- self_args self ;;
       l1 <- shuffle l ;;
       ret (Py.slice l1 None (Some (field a)))
     else ret l) s = (Ok (firstn (Z.to_nat (field a)) l1), s') /\
    Permutation l l1.
Proof.
  intros Ha Hk. unfold args_and_positive, self_args. rewrite Ha.
  replace (0 <? field a) with true by (symmetry; apply Z.ltb_lt; exact Hk).
  destruct (shuffle_permutation l s) as (l1 & s1 & E & P).
  exists l1, s1. split; [|exact P].
  unfold bind at 1. unfold ret at 1. rewrite (bind_step _ _ _ _ _ E).
  unfold ret. now rewrite slice_prefix by lia.
Qed.

Lemma drawn_from_all k all ids :
  k <= 0 -> Permutation all ids -> drawn_from k all ids.
Proof.
  intros Hk P. split.
  - exists []. now rewrite app_nil_r.
  - replace (0 <? k) with false by (symmetry; apply Z.ltb_ge; exact Hk).
    symmetry. now apply Permutation_length.
Qed.

Lemma drawn_from_prefix k all l1 :
  0 < k -> Permutation all l1 -> drawn_from k all (firstn (Z.to_nat k) l1).
Proof.
  intros Hk P. split.
  - exists (skipn (Z.to_nat k) l1). now rewrite firstn_skipn.
  - replace (0 <? k) with true by (symmetry; apply Z.ltb_lt; exact Hk).
    rewrite length_firstn, (Permutation_length P). reflexivity.
Qed.

(** What is handed to the lookups is drawn from the document. *)
Lemma draw_ids_drawn a vers s ci ct s' :
  args self = Some a ->
  draw_ids self vers s = (Ok (ci, ct), s') ->
  drawn_from (subsample_image a) (map fst (fst vers)) ci /\
  drawn_from (subsample_text a) (map fst (snd vers)) ct.
Proof.
  intros Ha Hd. split.
  - destruct (Z.lt_ge_cases 0 (subsample_image a)) as [Hk|Hk].
    + revert Hd. unfold draw_ids.
      destruct (maybe_shuffle_ok
                  (shuffle_sentences self
                   && negb (args_and_positive self subsample_text))
                  (map fst (snd vers)) s) as (t1 & s1 & E1 & _ & P1).
      destruct (maybe_shuffle_ok
                  (shuffle_images self
                   && negb (args_and_positive self subsample_image))
                  (map fst (fst vers)) s1) as (i1 & s2 & E2 & _ & P2).
      destruct (subsample_positive subsample_image i1 a s2 Ha Hk)
        as (l1 & s3 & E3 & P3).
      destruct (subsample_ok subsample_text t1 s3) as (t2 & s4 & E4 & _).
      rewrite (bind_step _ _ _ _ _ E1), (bind_step _ _ _ _ _ E2),
        (bind_step _ _ _ _ _ E3), (bind_step _ _ _ _ _ E4).
      intros H. inversion H; subst. apply drawn_from_prefix; [exact Hk|].
      now transitivity i1.
    + apply drawn_from_all; [exact Hk|].
      apply (draw_ids_unsampled vers s ci ct s' Hd).
      unfold args_and_positive. rewrite Ha. apply Z.ltb_ge. exact Hk.
  - destruct (Z.lt_ge_cases 0 (subsample_text a)) as [Hk|Hk].
    + revert Hd. unfold draw_ids.
      destruct (maybe_shuffle_ok
                  (shuffle_sentences self
                   && negb (args_and_positive self subsample_text))
                  (map fst (snd vers)) s) as (t1 & s1 & E1 & _ & P1).
      destruct (maybe_shuffle_ok
                  (shuffle_images self
                   && negb (args_and_positive self subsample_image))
                  (map fst (fst vers)) s1) as (i1 & s2 & E2 & _ & P2).
      destruct (subsample_ok subsample_image i1 s2) as (i2 & s3 & E3 & _).
      destruct (subsample_positive subsample_text t1 a s3 Ha Hk)
        as (l1 & s4 & E4 & P4).
      rewrite (bind_step _ _ _ _ _ E1), (bind_step _ _ _ _ _ E2),
        (bind_step _ _ _ _ _ E3), (bind_step _ _ _ _ _ E4).
      intros H. inversion H; subst. apply drawn_from_prefix; [exact Hk|].
      now transitivity t1.
    + apply drawn_from_all; [exact Hk|].
      apply (draw_ids_unsampled vers s ci ct s' Hd).
      unfold args_and_positive. rewrite Ha. apply Z.ltb_ge. exact Hk.
Qed.

(** In end-to-end mode the image stage stops at the name [augment]. *)
Lemma image_features_end2end a ids s :
  args self = Some a -> end2end a = true ->
  image_features ids s = (Raise (NameError "augment"), s).
Proof.
  intros Ha He. unfold image_features, self_args, bind, ret.
  rewrite Ha, He. reflexivity.
Qed.

(** The image stage on precomputed features. *)
Lemma image_features_matrix a ids s :
  args self = Some a -> end2end a = false ->
  image_features ids s =
  match images_to_matrix ids (image_matrix self) (image_idx2row self) with
  | Raise e => (Raise e, s)
  | Ok m =>
      if image_target self - Z.of_nat (length (rows m)) <? 0 then
        (Raise (ValueError "negative dimensions are not allowed"), s)
      else
        (Ok (of_matrix m,
             mk_ndarray
               (repeat (zero_row (ncols m))
                  (Z.to_nat (image_target self - Z.of_nat (length (rows m)))))
               [ncols m]), s)
  end.
Proof.
  intros Ha He. unfold image_features, self_args, bind, ret, lift.
  rewrite Ha, He.
  destruct (images_to_matrix _ _ _) as [m|e]; [|reflexivity].
  unfold shape0, shape_last, shape, of_matrix. simpl items. simpl last.
  rewrite zeros_2d. destruct (_ <? 0); reflexivity.
Qed.

(** The sentence stage. *)
Lemma text_features_matrix a ids s :
  args self = Some a ->
  text_features ids s =
  match text_to_matrix ids (vocab self) (seq_len a) with
  | Raise e => (Raise e, s)
  | Ok m =>
      if text_target self - Z.of_nat (length (rows m)) <? 0 then
        (Raise (ValueError "negative dimensions are not allowed"), s)
      else if (ncols m =? 0)%nat then
        (Raise (IndexError "index 0 is out of bounds for axis 1 with size 0"), s)
      else
        (Ok (of_matrix m,
             mk_ndarray
               (repeat (unk_row (ncols m))
                  (Z.to_nat (text_target self - Z.of_nat (length (rows m)))))
               [ncols m]), s)
  end.
Proof.
  intros Ha. unfold text_features, self_args, bind, ret, lift.
  rewrite Ha.
  destruct (text_to_matrix _ _ _) as [m|e]; [|reflexivity].
  unfold shape0, shape_last, shape, of_matrix. simpl items. simpl last.
  rewrite zeros_2d. destruct (_ <? 0); [reflexivity|].
  rewrite set_col0_zeros. destruct (_ =? _)%nat; reflexivity.
Qed.

(** The body of the loop: the identifiers are drawn, and the rest is
    [assemble_doc]. *)
Lemma process_doc_spec a vers s ci ct s1 :
  args self = Some a ->
  draw_ids self vers s = (Ok (ci, ct), s1) ->
  process_doc vers s =
  (assemble_doc images_to_matrix text_to_matrix self ci ct, s1).
Proof.
  intros Ha Hd. unfold process_doc, assemble_doc.
  rewrite (bind_step _ _ _ _ _ Hd). rewrite Ha.
  destruct (end2end a) eqn:He.
  - rewrite (bind_raise _ _ _ _ _ (image_features_end2end a ci s1 Ha He)).
    reflexivity.
  - unfold bind at 1. rewrite (image_features_matrix a ci s1 Ha He).
    destruct (images_to_matrix _ _ _) as [mi|e]; [|reflexivity].
    destruct (_ <? 0); [reflexivity|].
    unfold bind at 1. rewrite (text_features_matrix a ct s1 Ha).
    destruct (text_to_matrix _ _ _) as [mt|e]; [|reflexivity].
    destruct (_ <? 0); [reflexivity|].
    destruct (_ =? _)%nat; [reflexivity|].
    unfold bind, lift, ret. rewrite !vstack_matrix. reflexivity.
Qed.

Lemma heap_stable_process_doc vers : heap_stable (process_doc vers).
Proof.
  unfold process_doc, draw_ids, image_features, text_features, self_args.
  stable.
Qed.

Lemma heap_stable_for_docs docs : heap_stable (for_docs docs).
Proof.
  induction docs as [|vers docs IH]; simpl.
  - apply heap_stable_ret.
  - apply heap_stable_bind; [apply heap_stable_process_doc|].
    intros [[[im tx] ni] nt].
    apply heap_stable_bind; [exact IH|].
    intros [[[ims txs] nis] nts]. apply heap_stable_ret.
Qed.

Local Abbreviation doc_assembled :=
  (doc_assembled images_to_matrix text_to_matrix self).
Local Abbreviation batch_assembled :=
  (batch_assembled images_to_matrix text_to_matrix self).

Lemma assemble_doc_ok vers s ci ct s' im tx ni nt :
  draw_ids self vers s = (Ok (ci, ct), s') ->
  assemble_doc images_to_matrix text_to_matrix self ci ct = Ok (im, tx, ni, nt) ->
  exists ai at_,
    im = Np.expand_dims0 ai /\ tx = Np.expand_dims0 at_ /\
    doc_assembled vers ai at_ ni nt.
Proof.
  intros Hd. unfold assemble_doc.
  destruct (args self) as [a|] eqn:Ha; [|discriminate].
  destruct (end2end a) eqn:He; [discriminate|].
  destruct (images_to_matrix _ _ _) as [mi|] eqn:Ei; [|discriminate].
  destruct (image_target self - _ <? 0) eqn:Li; [discriminate|].
  destruct (text_to_matrix _ _ _) as [mt|] eqn:Et; [|discriminate].
  destruct (text_target self - _ <? 0) eqn:Lt; [discriminate|].
  destruct (ncols mt =? 0)%nat eqn:Wt; [discriminate|].
  intros H. inversion H; subst. do 2 eexists. repeat split.
  apply Z.ltb_ge in Li, Lt. apply Nat.eqb_neq in Wt.
  econstructor; eauto; lia.
Qed.

(** A loop that ends normally has assembled every document. *)
Lemma for_docs_ok docs s ims txs nis nts s' :
  for_docs docs s = (Ok (ims, txs, nis, nts), s') ->
  exists ais ats,
    ims = map Np.expand_dims0 ais /\ txs = map Np.expand_dims0 ats /\
    batch_assembled docs ais ats nis nts.
Proof.
  revert s ims txs nis nts s'.
  induction docs as [|vers docs IH]; simpl; intros s ims txs nis nts s' H.
  - inversion H; subst. exists [], []. repeat split. constructor.
  - apply bind_ok in H. destruct H as ([[[im tx] ni] nt] & s1 & Hp & H).
    apply bind_ok in H. destruct H as ([[[ims' txs'] nis'] nts'] & s2 & Hf & H).
    inversion H; subst. clear H.
    destruct (draw_ids_ok vers s) as (ci & ct & s0 & Hd & _).
    destruct (args self) as [a|] eqn:Ha.
    + rewrite (process_doc_spec a vers s ci ct s0 Ha Hd) in Hp.
      inversion Hp; subst.
      destruct (assemble_doc_ok vers s ci ct s1 im tx ni nt Hd H0)
        as (ai & at_ & -> & -> & Hdoc).
      destruct (IH _ _ _ _ _ _ Hf) as (ais & ats & -> & -> & Hb).
      exists (ai :: ais), (at_ :: ats). repeat split. now constructor.
    + exfalso. revert Hp. unfold process_doc. rewrite (bind_step _ _ _ _ _ Hd).
      unfold image_features, self_args, bind, raise. rewrite Ha. discriminate.
Qed.

(** ** DocumentSequence: a batch *)

(** What a normal return of [__getitem__] tells: the documents were
    selected, every one of them was assembled, and the slabs of each tensor
    agree in shape. *)
Lemma getitem_ok idx s b s' :
  __getitem__ idx s = (Ok b, s') ->
  exists c s0 nis nts,
    select_docs self idx s = (Ok c, s0) /\
    heap s' = heap s0 /\
    batch_assembled (nth c (heap s0) [])
      (slabs (images b)) (slabs (texts b)) nis nts /\
    Forall (fun x => shape x = slab_shape (images b)) (slabs (images b)) /\
    Forall (fun x => shape x = slab_shape (texts b)) (slabs (texts b)) /\
    image_n_docs b = Np.column nis /\
    text_n_docs b = Np.column nts /\
    y b = (Np.zeros1 (length nts), Np.zeros1 (length nis)) /\
    slabs (images b) <> [].
Proof.
  unfold __getitem__. intros H.
  apply bind_ok in H. destruct H as (c & s0 & Hsel & H).
  apply bind_ok in H. destruct H as (docs & s1 & Hread & H).
  inversion Hread; subst. clear Hread.
  apply bind_ok in H. destruct H as ([[[ims txs] nis] nts] & s2 & Hloop & H).
  apply bind_ok in H. destruct H as (ti & s3 & Hi & H).
  apply bind_ok in H. destruct H as (tt_ & s4 & Ht & H).
  apply lift_ok in Hi, Ht. destruct Hi as [Hi ->], Ht as [Ht ->].
  inversion H; subst. clear H. simpl.
  pose proof (heap_stable_for_docs _ _ _ _ Hloop) as Hheap.
  apply for_docs_ok in Hloop. destruct Hloop as (ais & ats & -> & -> & Hb).
  apply vstack_t_expand_ok in Hi, Ht.
  destruct Hi as (Hi1 & Hne & Hi2), Ht as (Ht1 & _ & Ht2).
  exists c, s1, nis, nts. rewrite Hi1, Ht1.
  unfold shape0, Np.column. simpl. rewrite !length_map.
  repeat split; auto.
Qed.

Lemma batch_assembled_lengths docs ais ats nis nts :
  batch_assembled docs ais ats nis nts ->
  length ais = length docs /\ length ats = length docs /\
  length nis = length docs /\ length nts = length docs.
Proof.
  induction 1; simpl; [auto|]. destruct IHbatch_assembled as (? & ? & ? & ?).
  repeat split; congruence.
Qed.

(** The assembled documents can be read position by position. *)
Lemma batch_assembled_nth docs ais ats nis nts i vers :
  batch_assembled docs ais ats nis nts ->
  nth_error docs i = Some vers ->
  exists ai at_ ni nt,
    nth_error ais i = Some ai /\ nth_error ats i = Some at_ /\
    nth_error nis i = Some ni /\ nth_error nts i = Some nt /\
    doc_assembled vers ai at_ ni nt.
Proof.
  intros H. revert i. induction H; intros [|i] Hn; simpl in *; try discriminate.
  - inversion Hn; subst. do 4 eexists. repeat split. assumption.
  - apply IHbatch_assembled. assumption.
Qed.

Lemma heap_stable_after_select c :
  heap_stable
    (docs <- read c ;;
     r <- for_docs docs ;;
     let '(images, texts, image_n_docs, text_n_docs) := r in
     images <- lift (Np.vstack_t images) ;;
     texts <- lift (Np.vstack_t texts) ;;
     let image_n_docs := Np.column image_n_docs in
     let text_n_docs := Np.column text_n_docs in
     let y := (Np.zeros1 (shape0 text_n_docs), Np.zeros1 (shape0 image_n_docs)) in
     ret (mk_batch texts images text_n_docs image_n_docs y)).
Proof.
  apply heap_stable_bind; [apply heap_stable_read|]. intros docs.
  apply heap_stable_bind; [apply heap_stable_for_docs|].
  intros [[[ims txs] nis] nts]. stable.
Qed.

(** Whatever its outcome, [__getitem__] only adds to the heap. *)
Lemma getitem_extends idx s r s' :
  __getitem__ idx s = (r, s') -> exists ext, heap s' = heap s ++ ext.
Proof.
  unfold __getitem__, bind at 1.
  destruct (select_docs self idx s) as [[c|e] s0] eqn:Hsel; intros H.
  - apply heap_stable_after_select in H.
    apply select_docs_extends in Hsel. destruct Hsel as (ext & Hext).
    exists ext. congruence.
  - inversion H; subst. eapply select_docs_extends; eauto.
Qed.

(** The epoch shuffler never raises; it rearranges the list at [data_in]
    and touches nothing else. *)
Lemma on_epoch_end_spec s :
  exists s',
    on_epoch_end self s = (Ok tt, s') /\
    (shuffle_docs self = false -> s' = s) /\
    Permutation (nth (data_in self) (heap s) []) (nth (data_in self) (heap s') []) /\
    (forall a, a <> data_in self -> nth a (heap s') [] = nth a (heap s) []) /\
    length (heap s') = length (heap s).
Proof.
  unfold on_epoch_end. destruct (shuffle_docs self).
  - destruct (shuffle_permutation (nth (data_in self) (heap s) []) s)
      as (l' & s1 & E & P).
    pose proof (heap_stable_shuffle _ _ _ _ E) as Hh.
    exists (mk_state (set_nth (data_in self) l' (heap s1)) (rng s1)).
    split; [|split; [discriminate|split; [|split]]].
    + unfold bind at 1, read at 1. rewrite (bind_step _ _ _ _ _ E). reflexivity.
    + simpl. rewrite Hh.
      destruct (Nat.lt_ge_cases (data_in self) (length (heap s))) as [Hlt|Hge].
      * now rewrite nth_set_nth_same.
      * rewrite set_nth_beyond by assumption.
        rewrite nth_overflow in P |- * by assumption.
        apply Permutation_nil in P. now subst.
    + intros a Ha. simpl. rewrite Hh. apply nth_set_nth_other. congruence.
    + simpl. rewrite set_nth_length. congruence.
  - exists s. repeat split; auto.
Qed.

(** C8: the list of documents [data_in] is changed by the epoch shuffler
    only.  For every batch index [__getitem__], whether it returns or
    raises, leaves the list at [data_in] as it was: the slice it extends for
    the final batch is a new list.  [on_epoch_end] returns [None]; it leaves
    the whole state alone when [shuffle_docs] is false, and otherwise
    rearranges the list at [data_in] in place, keeping the multiset of its
    documents and every other list. *)
Theorem data_in_changed_by_shuffler_only (s : state) :
  (data_in self < length (heap s))%nat ->
  (forall idx r s',
      __getitem__ idx s = (r, s') ->
      nth (data_in self) (heap s') [] = nth (data_in self) (heap s) []) /\
  (exists s',
      on_epoch_end self s = (Ok tt, s') /\
      (shuffle_docs self = false -> s' = s) /\
      Permutation (nth (data_in self) (heap s) [])
                  (nth (data_in self) (heap s') []) /\
      (forall a, a <> data_in self -> nth a (heap s') [] = nth a (heap s) []) /\
      length (heap s') = length (heap s)).
Proof.
  intros Hvalid. split.
  - intros idx r s' H. apply getitem_extends in H. destruct H as (ext & ->).
    now apply app_nth1.
  - apply on_epoch_end_spec.
Qed.

(** C1: in end-to-end mode [__getitem__] does not return.  The body of the
    loop stops at the name [augment], which is neither a local of
    [__getitem__] nor a global of the module, before any image is turned
    into a tensor; and a batch without documents has nothing to stack.  So
    every call raises. *)
Theorem getitem_end2end_raises (a : Args) :
  args self = Some a -> end2end a = true ->
  (forall vers s, exists s',
      process_doc vers s = (Raise (NameError "augment"), s')) /\
  (forall idx s, exists e s', __getitem__ idx s = (Raise e, s')).
Proof.
  intros Ha He. split.
  - intros vers s. destruct (draw_ids_ok vers s) as (ci & ct & s1 & Hd & _).
    exists s1. rewrite (process_doc_spec a vers s ci ct s1 Ha Hd).
    unfold assemble_doc. rewrite Ha, He. reflexivity.
  - intros idx s. destruct (__getitem__ idx s) as [[b|e] s'] eqn:H; [|eauto].
    exfalso. apply getitem_ok in H.
    destruct H as (c & s0 & nis & nts & _ & _ & Hb & _ & _ & _ & _ & _ & Hne).
    inversion Hb as [|vers docs im ims tx txs ni nis' nt nts' Hdoc Hrest]; subst.
    + congruence.
    + inversion Hdoc; subst. congruence.
Qed.

(** The four arrays of a returned batch have the number of selected
    documents as their first dimension. *)
Lemma getitem_first_dimension idx s b s' :
  (data_in self < length (heap s))%nat ->
  __getitem__ idx s = (Ok b, s') ->
  exists a,
    args self = Some a /\ docs_per_batch a <> 0 /\
    let n := length (batch_docs (nth (data_in self) (heap s) [])
                                (docs_per_batch a) idx) in
    hd 0%nat (tensor_shape (texts b)) = n /\
    hd 0%nat (tensor_shape (images b)) = n /\
    shape0 (text_n_docs b) = n /\
    shape0 (image_n_docs b) = n.
Proof.
  intros Hvalid H. apply getitem_ok in H.
  destruct H as (c & s0 & nis & nts & Hsel & _ & Hb & _ & _ & Hi & Ht & _).
  destruct (select_docs_ok_inv idx s c s0 Hvalid Hsel) as (a & Ha & HB & Hdocs).
  exists a. split; [exact Ha|]. split; [exact HB|].
  rewrite Hdocs in Hb. apply batch_assembled_lengths in Hb.
  destruct Hb as (L1 & L2 & L3 & L4).
  rewrite Hi, Ht. unfold shape0, Np.column. simpl. rewrite !length_map.
  auto.
Qed.

(** ** DocumentSequence: padding and counts *)

Lemma padded_skipn m target padrow :
  skipn (length (rows m)) (items (padded m target padrow)) =
  repeat padrow (Z.to_nat (target - Z.of_nat (length (rows m)))).
Proof.
  unfold padded. simpl. rewrite skipn_app, skipn_all, Nat.sub_diag.
  reflexivity.
Qed.

Lemma padded_firstn m target padrow :
  firstn (length (rows m)) (items (padded m target padrow)) = rows m.
Proof.
  unfold padded. simpl. rewrite firstn_app, firstn_all, Nat.sub_diag.
  simpl. apply app_nil_r.
Qed.

Lemma padded_length m target padrow :
  Z.of_nat (length (rows m)) <= target ->
  length (items (padded m target padrow)) = Z.to_nat target.
Proof.
  intros H. unfold padded. simpl. rewrite length_app, repeat_length. lia.
Qed.

Lemma doc_assembled_padding vers ai at_ ni nt :
  doc_assembled vers ai at_ ni nt ->
  image_padding_rows (image_target self) ni ai /\
  text_padding_rows (text_target self) nt at_.
Proof.
  intros H. inversion H; subst. split.
  - exists (ncols mi). split; [reflexivity|]. apply padded_skipn.
  - destruct (ncols mt) as [|w] eqn:Hw; [congruence|].
    exists w. split; [unfold padded; simpl; congruence|].
    rewrite padded_skipn. unfold unk_row. simpl. now rewrite Nat.sub_0_r.
Qed.

Lemma doc_assembled_counted vers ai at_ ni nt :
  doc_assembled vers ai at_ ni nt ->
  image_rows_counted images_to_matrix self ni ai /\
  text_rows_counted text_to_matrix self nt at_ /\
  Z.of_nat ni <= image_target self /\ Z.of_nat nt <= text_target self /\
  (exists w, shape ai = [Z.to_nat (image_target self); w]) /\
  (exists w, shape at_ = [Z.to_nat (text_target self); w]).
Proof.
  intros H. inversion H; subst. repeat split; try assumption.
  - exists ci, mi. repeat split; auto using padded_firstn, padded_length.
  - exists a, ct, mt. repeat split; auto using padded_firstn, padded_length.
  - exists (ncols mi). unfold shape. now rewrite padded_length.
  - exists (ncols mt). unfold shape. now rewrite padded_length.
Qed.

Lemma batch_assembled_padding docs ais ats nis nts :
  batch_assembled docs ais ats nis nts ->
  Forall2 (image_padding_rows (image_target self)) nis ais /\
  Forall2 (text_padding_rows (text_target self)) nts ats.
Proof.
  induction 1 as [|vers docs im ims tx txs ni nis nt nts Hdoc Hb [IHi IHt]].
  - split; constructor.
  - apply doc_assembled_padding in Hdoc. destruct Hdoc.
    split; constructor; assumption.
Qed.

Lemma batch_assembled_counted docs ais ats nis nts :
  batch_assembled docs ais ats nis nts ->
  Forall2 (image_rows_counted images_to_matrix self) nis ais /\
  Forall2 (text_rows_counted text_to_matrix self) nts ats /\
  Forall (fun n => Z.of_nat n <= image_target self) nis /\
  Forall (fun n => Z.of_nat n <= text_target self) nts.
Proof.
  induction 1 as [|vers docs im ims tx txs ni nis nt nts Hdoc Hb (IH1 & IH2 & IH3 & IH4)].
  - repeat split; constructor.
  - apply doc_assembled_counted in Hdoc.
    destruct Hdoc as (H1 & H2 & H3 & H4 & _).
    repeat split; constructor; assumption.
Qed.


(** The padding target of a modality is its subsample count when
    subsampling is configured for it, and the configured maximum otherwise. *)
Lemma targets_by_configuration a :
  args self = Some a ->
  image_target self =
    (if 0 <? subsample_image a then subsample_image a
     else max_images_per_doc self) /\
  text_target self =
    (if 0 <? subsample_text a then subsample_text a
     else max_sentences_per_doc self).
Proof.
  intros Ha. unfold image_target, text_target. rewrite Ha. auto.
Qed.

(** The counts of an assembled document are the counts of that document. *)
Lemma doc_assembled_count_of vers ai at_ ni nt :
  doc_assembled vers ai at_ ni nt ->
  image_count_of images_to_matrix self vers ni ai /\
  text_count_of text_to_matrix self vers nt at_.
Proof.
  intros H. inversion H as [a s0 ci ct s1 mi mt Ha He Hd Hi Ht Li Lt Hw]; subst.
  destruct (draw_ids_drawn a vers s0 ci ct s1 Ha Hd) as [Di Dt].
  split.
  - exists a, ci, mi. repeat split; auto using padded_firstn, padded_length;
      apply Di.
  - exists a, ct, mt. repeat split; auto using padded_firstn, padded_length;
      apply Dt.
Qed.

(** C4: in every batch that [__getitem__] returns there is one entry of
    the image-count vector, one of the sentence-count vector, one image slab
    and one sentence slab for each document of the batch, in the order of
    the batch, and for the document at a position:
    - the entry of the image-count (sentence-count) vector is the number of
      rows the lookup returned, before padding, for the identifiers drawn
      from the images (sentences) of that document, and these rows open the
      slab of the document;
    - that count is at most the padding target, which is the subsample
      count when subsampling is configured for the modality and the
      configured maximum otherwise;
    - the axis of the images (sentences) in the image (sentence) tensor has
      exactly the length of the target. *)
Theorem counts_and_padded_axis idx s b s' :
  (data_in self < length (heap s))%nat ->
  __getitem__ idx s = (Ok b, s') ->
  exists a nis nts wi wt,
    args self = Some a /\
    image_n_docs b = Np.column nis /\
    text_n_docs b = Np.column nts /\
    let docs :=
      batch_docs (nth (data_in self) (heap s) []) (docs_per_batch a) idx in
    length nis = length docs /\ length nts = length docs /\
    (forall i vers,
        nth_error docs i = Some vers ->
        exists ni nt I T,
          nth_error nis i = Some ni /\
          nth_error nts i = Some nt /\
          nth_error (slabs (images b)) i = Some I /\
          nth_error (slabs (texts b)) i = Some T /\
          image_count_of images_to_matrix self vers ni I /\
          text_count_of text_to_matrix self vers nt T /\
          Z.of_nat ni <= image_target self /\
          Z.of_nat nt <= text_target self) /\
    image_target self =
      (if 0 <? subsample_image a then subsample_image a
       else max_images_per_doc self) /\
    text_target self =
      (if 0 <? subsample_text a then subsample_text a
       else max_sentences_per_doc self) /\
    tensor_shape (images b) =
      [length docs; Z.to_nat (image_target self); wi] /\
    tensor_shape (texts b) =
      [length docs; Z.to_nat (text_target self); wt].
Proof.
  intros Hvalid H. apply getitem_ok in H.
  destruct H as (c & s0 & nis & nts & Hsel & _ & Hb & Hsi & Hst & Hi & Ht & _ & Hne).
  destruct (select_docs_ok_inv idx s c s0 Hvalid Hsel) as (a & Ha & _ & Hdocs).
  rewrite Hdocs in Hb.
  pose proof (batch_assembled_lengths _ _ _ _ _ Hb) as (Li & Lt & Lni & Lnt).
  assert (Wi : exists wi, slab_shape (images b) = [Z.to_nat (image_target self); wi]
               /\ exists wt, slab_shape (texts b) = [Z.to_nat (text_target self); wt]).
  { inversion Hb as [|vers docs im ims tx txs ni nis' nt nts' Hdoc Hrest Ed Ei Et];
      subst; [congruence|].
    rewrite <- Ei in Hsi. rewrite <- Et in Hst.
    inversion Hsi; subst. inversion Hst; subst.
    apply doc_assembled_counted in Hdoc.
    destruct Hdoc as (_ & _ & _ & _ & (wi & Hwi) & (wt & Hwt)).
    exists wi. split; [congruence|]. exists wt. congruence. }
  destruct Wi as (wi & Hwi & wt & Hwt).
  destruct (targets_by_configuration a Ha) as [Ti Tt].
  exists a, nis, nts, wi, wt. unfold tensor_shape.
  rewrite Hwi, Hwt, Li, Lt.
  split; [exact Ha|]. split; [exact Hi|]. split; [exact Ht|].
  split; [exact Lni|]. split; [exact Lnt|].
  split; [|split; [exact Ti|split; [exact Tt|split; reflexivity]]].
  intros i vers Hn.
  destruct (batch_assembled_nth _ _ _ _ _ i vers Hb Hn)
    as (ai & at_ & ni & nt & Hai & Hat & Hni & Hnt & Hdoc).
  exists ni, nt, ai, at_.
  destruct (doc_assembled_count_of _ _ _ _ _ Hdoc) as [Ci Ct].
  destruct (doc_assembled_counted _ _ _ _ _ Hdoc) as (_ & _ & Bi & Bt & _).
  repeat split; assumption.
Qed.

(** ** DocumentSequence: batches that are returned *)

Lemma vstack_t_from_same_shape acc ts :
  Forall (fun t => slab_shape t = slab_shape acc) ts ->
  exists t, Np.vstack_t_from acc ts = Ok t.
Proof.
  revert acc. induction ts as [|u ts IH]; simpl; intros acc H.
  - eauto.
  - inversion H as [|? ? Hu Hts]; subst. rewrite Hu, eqb_shape_refl.
    apply IH. simpl. exact Hts.
Qed.

(** [np.vstack] succeeds on one array or more of one shape. *)
Lemma vstack_t_same_shape ts sh :
  ts <> [] -> Forall (fun t => slab_shape t = sh) ts ->
  exists t, Np.vstack_t ts = Ok t.
Proof.
  destruct ts as [|t ts]; [congruence|]. intros _ H.
  inversion H as [|? ? Ht Hts]; subst. simpl.
  apply vstack_t_from_same_shape.
  eapply Forall_impl; [|exact Hts]. simpl. congruence.
Qed.

Local Abbreviation images_fit := (images_fit images_to_matrix self).
Local Abbreviation sentences_fit := (sentences_fit text_to_matrix self).

(** The loop returns normally on documents that fit. *)
Lemma for_docs_returns a wi wt docs s :
  args self = Some a -> end2end a = false ->
  Forall (fun vers => images_fit wi vers /\ sentences_fit wt vers) docs ->
  exists ims txs nis nts s',
    for_docs docs s = (Ok (ims, txs, nis, nts), s') /\
    Forall (fun t => slab_shape t = [Z.to_nat (image_target self); wi]) ims /\
    Forall (fun t => slab_shape t = [Z.to_nat (text_target self); S wt]) txs /\
    length ims = length docs /\ length txs = length docs.
Proof.
  intros Ha He Hfit. revert s.
  induction Hfit as [|vers docs [Hi Ht] Hrest IH]; intros s; simpl.
  - exists [], [], [], [], s. repeat split; constructor.
  - destruct (draw_ids_ok vers s) as (ci & ct & s1 & Hd & _).
    destruct (Hi _ _ _ _ Hd) as (mi & Ei & Wi & Li).
    destruct (Ht _ _ _ _ _ Ha Hd) as (mt & Et & Wt & Lt).
    destruct (IH s1) as (ims & txs & nis & nts & s2 & E & Si & St & Ni & Nt).
    assert (Hp : process_doc vers s =
                 (Ok (Np.expand_dims0 (padded mi (image_target self) (zero_row (ncols mi))),
                      Np.expand_dims0 (padded mt (text_target self) (unk_row (ncols mt))),
                      length (rows mi), length (rows mt)), s1)).
    { rewrite (process_doc_spec a vers s ci ct s1 Ha Hd).
      unfold assemble_doc. rewrite Ha, He, Ei, Et, Wt.
      replace (image_target self - Z.of_nat (length (rows mi)) <? 0) with false
        by (symmetry; apply Z.ltb_ge; lia).
      replace (text_target self - Z.of_nat (length (rows mt)) <? 0) with false
        by (symmetry; apply Z.ltb_ge; lia).
      reflexivity. }
    rewrite (bind_step _ _ _ _ _ Hp), (bind_step _ _ _ _ _ E).
    do 5 eexists. split; [reflexivity|].
    repeat split; simpl; try congruence; constructor; try assumption.
    + simpl. unfold shape. rewrite padded_length by assumption.
      simpl. congruence.
    + simpl. unfold shape. rewrite padded_length by assumption.
      simpl. congruence.
Qed.

(** [__getitem__] returns normally on a batch of documents that fit. *)
Lemma getitem_returns a wi wt idx s :
  args self = Some a -> end2end a = false -> 0 < docs_per_batch a ->
  (data_in self < length (heap s))%nat ->
  batch_docs (nth (data_in self) (heap s) []) (docs_per_batch a) idx <> [] ->
  Forall (fun vers => images_fit wi vers /\ sentences_fit wt vers)
    (batch_docs (nth (data_in self) (heap s) []) (docs_per_batch a) idx) ->
  exists b s', __getitem__ idx s = (Ok b, s').
Proof.
  intros Ha He HB Hvalid Hne Hfit. unfold __getitem__.
  rewrite (bind_step _ _ _ _ _ (select_docs_spec a idx s Ha HB Hvalid)).
  unfold bind at 1, read at 1. simpl heap. rewrite nth_middle.
  set (docs := batch_docs _ _ _) in *.
  destruct (for_docs_returns a wi wt docs
              (mk_state (heap s ++ [docs]) (rng s)) Ha He Hfit)
    as (ims & txs & nis & nts & s1 & E & Si & St & Ni & Nt).
  rewrite (bind_step _ _ _ _ _ E).
  assert (Hims : ims <> [])
    by (intros ->; destruct docs; [congruence | discriminate]).
  assert (Htxs : txs <> [])
    by (intros ->; destruct docs; [congruence | discriminate]).
  destruct (vstack_t_same_shape ims _ Hims Si) as (ti & Eti).
  destruct (vstack_t_same_shape txs _ Htxs St) as (tt_ & Ett).
  unfold bind, lift, ret. rewrite Eti, Ett. eauto.
Qed.

(** ** DocumentSequence: documents without images or without sentences *)

Lemma padded_empty w target padrow :
  padded (mk_matrix [] w) target padrow = all_padding padrow target w.
Proof. unfold padded, all_padding. simpl. now rewrite Z.sub_0_r. Qed.

Lemma draw_ids_no_images vers s ci ct s' :
  draw_ids self vers s = (Ok (ci, ct), s') -> fst vers = [] -> ci = [].
Proof.
  intros H Hv. destruct (draw_ids_ok vers s) as (ci' & ct' & s1 & E & _ & Hi & _).
  rewrite E in H. inversion H; subst. auto.
Qed.

Lemma draw_ids_no_sentences vers s ci ct s' :
  draw_ids self vers s = (Ok (ci, ct), s') -> snd vers = [] -> ct = [].
Proof.
  intros H Hv. destruct (draw_ids_ok vers s) as (ci' & ct' & s1 & E & _ & _ & Ht).
  rewrite E in H. inversion H; subst. auto.
Qed.


(** ** DocumentSequence: more rows than the padding target *)

Local Abbreviation overflow := (overflow images_to_matrix text_to_matrix self).
Local Abbreviation overflows := (overflows images_to_matrix text_to_matrix self).

Lemma assemble_doc_overflow ci ct :
  overflow ci ct ->
  exists e, assemble_doc images_to_matrix text_to_matrix self ci ct = Raise e.
Proof.
  unfold assemble_doc. intros [(mi & Ei & Hi) | (a & mt & Ha & Et & Ht)].
  - destruct (args self) as [a|]; [|eauto].
    destruct (end2end a); [eauto|]. rewrite Ei.
    replace (image_target self - Z.of_nat (length (rows mi)) <? 0) with true
      by (symmetry; apply Z.ltb_lt; lia).
    eauto.
  - rewrite Ha. destruct (end2end a); [eauto|].
    destruct (images_to_matrix _ _ _) as [mi|]; [|eauto].
    destruct (image_target self - _ <? 0); [eauto|]. rewrite Et.
    replace (text_target self - Z.of_nat (length (rows mt)) <? 0) with true
      by (symmetry; apply Z.ltb_lt; lia).
    eauto.
Qed.

(** C10: more rows than the padding target make [__getitem__] raise.
    With more rows than [image_target] the shape of the image padding is
    negative and [np.zeros] raises [ValueError], and so for the sentences
    and [text_target]; the body of the loop raises on a document whose
    identifiers bring such rows; [__getitem__] raises for a batch holding a
    document that brings them however its identifiers are drawn, as does,
    with a lookup of one row an image and without subsampling, a document
    of more than [max_images_per_doc] images.  Hence a batch is returned
    only when the rows of every document were at most the targets. *)
Theorem overflow_raises (a : Args) :
  args self = Some a ->
  (forall ci mi s,
     end2end a = false ->
     images_to_matrix ci (image_matrix self) (image_idx2row self) = Ok mi ->
     image_target self < Z.of_nat (length (rows mi)) ->
     image_features ci s =
     (Raise (ValueError "negative dimensions are not allowed"), s)) /\
  (forall ct mt s,
     text_to_matrix ct (vocab self) (seq_len a) = Ok mt ->
     text_target self < Z.of_nat (length (rows mt)) ->
     text_features ct s =
     (Raise (ValueError "negative dimensions are not allowed"), s)) /\
  (forall vers s ci ct s1,
     draw_ids self vers s = (Ok (ci, ct), s1) ->
     overflow ci ct ->
     exists e, process_doc vers s = (Raise e, s1)) /\
  (forall idx s vers,
     (data_in self < length (heap s))%nat ->
     In vers (batch_docs (nth (data_in self) (heap s) []) (docs_per_batch a) idx) ->
     overflows vers ->
     exists e s', __getitem__ idx s = (Raise e, s')) /\
  (forall vers,
     (forall ci, exists mi,
         images_to_matrix ci (image_matrix self) (image_idx2row self) = Ok mi /\
         length (rows mi) = length ci) ->
     subsample_image a <= 0 ->
     max_images_per_doc self < Z.of_nat (length (fst vers)) ->
     overflows vers) /\
  (forall idx s b s',
     __getitem__ idx s = (Ok b, s') ->
     exists nis nts,
       image_n_docs b = Np.column nis /\ text_n_docs b = Np.column nts /\
       Forall2 (image_rows_counted images_to_matrix self) nis (slabs (images b)) /\
       Forall2 (text_rows_counted text_to_matrix self) nts (slabs (texts b)) /\
       Forall (fun n => Z.of_nat n <= image_target self) nis /\
       Forall (fun n => Z.of_nat n <= text_target self) nts).
Proof.
  intros Ha. repeat split.
  - intros ci mi s He Ei Hi. rewrite (image_features_matrix a ci s Ha He), Ei.
    replace (image_target self - Z.of_nat (length (rows mi)) <? 0) with true
      by (symmetry; apply Z.ltb_lt; lia).
    reflexivity.
  - intros ct mt s Et Ht. rewrite (text_features_matrix a ct s Ha), Et.
    replace (text_target self - Z.of_nat (length (rows mt)) <? 0) with true
      by (symmetry; apply Z.ltb_lt; lia).
    reflexivity.
  - intros vers s ci ct s1 Hd Ho.
    rewrite (process_doc_spec a vers s ci ct s1 Ha Hd).
    destruct (assemble_doc_overflow ci ct Ho) as (e & ->). eauto.
  - intros idx s vers Hvalid Hin Ho.
    destruct (__getitem__ idx s) as [[b|e] s'] eqn:H; [|eauto].
    exfalso. apply getitem_ok in H.
    destruct H as (c & s0 & nis & nts & Hsel & _ & Hb & _).
    destruct (select_docs_ok_inv idx s c s0 Hvalid Hsel) as (a' & Ha' & _ & Hdocs).
    assert (a' = a) by congruence. subst a'. rewrite Hdocs in Hb.
    apply In_nth_error in Hin. destruct Hin as (i & Hn).
    destruct (batch_assembled_nth _ _ _ _ _ i vers Hb Hn)
      as (ai & at_ & ni & nt & _ & _ & _ & _ & Hdoc).
    inversion Hdoc as [a0 sd ci ct sd' mi mt Ha0 He Hd Ei Et Hli Hlt Hw]; subst.
    destruct (Ho sd ci ct sd' Hd) as [(mi' & Ei' & Hi') | (a1 & mt' & Ha1 & Et' & Ht')].
    + assert (mi' = mi) by congruence. subst. lia.
    + assert (a1 = a0) by congruence. subst.
      assert (mt' = mt) by congruence. subst. lia.
  - intros vers Hrows Hsub Hmany sd ci ct sd' Hd.
    assert (Hoff : args_and_positive self subsample_image = false).
    { unfold args_and_positive. rewrite Ha. apply Z.ltb_ge. exact Hsub. }
    destruct (draw_ids_unsampled vers sd ci ct sd' Hd) as [Hperm _].
    apply Hperm in Hoff as Hp. apply Permutation_length in Hp.
    rewrite length_map in Hp.
    destruct (Hrows ci) as (mi & Ei & Hlen).
    left. exists mi. split; [exact Ei|].
    unfold image_target. rewrite Ha.
    replace (0 <? subsample_image a) with false
      by (symmetry; apply Z.ltb_ge; exact Hsub).
    rewrite Hlen, <- Hp. exact Hmany.
  - intros idx s b s' H. apply getitem_ok in H.
    destruct H as (c & s0 & nis & nts & _ & _ & Hb & _ & _ & Hi & Ht & _).
    exists nis, nts. apply batch_assembled_counted in Hb. tauto.
Qed.

End DocumentSequenceFacts.

(** ** DocumentSequence on the small collection *)

Lemma getitem_end2end_raises_witness :
  (exists s',
      process_doc ex_images_to_images ex_images_to_matrix ex_text_to_matrix
        (ex_sequence 3 true true) (ex_doc 1 2) ex_state
      = (Raise (NameError "augment"), s')) /\
  (exists e s',
      __getitem__ ex_images_to_images ex_images_to_matrix ex_text_to_matrix
        (ex_sequence 3 true true) 0 ex_state = (Raise e, s')).
Proof.
  destruct (getitem_end2end_raises ex_images_to_images ex_images_to_matrix
              ex_text_to_matrix (ex_sequence 3 true true)
              (mk_Args 3 2 0 0 true) eq_refl eq_refl) as [H1 H2].
  split; [apply H1 | apply H2].
Defined.


Lemma counts_and_padded_axis_witness :
  exists b s',
    __getitem__ ex_images_to_images ex_images_to_matrix ex_text_to_matrix
      (ex_sequence 3 false true) 1 ex_state = (Ok b, s') /\
    exists nis nts ni nt I T,
      image_n_docs b = Np.column nis /\
      text_n_docs b = Np.column nts /\
      length nis = 3%nat /\ length nts = 3%nat /\
      nth_error nis 0 = Some ni /\
      nth_error nts 0 = Some nt /\
      nth_error (slabs (images b)) 0 = Some I /\
      nth_error (slabs (texts b)) 0 = Some T /\
      image_count_of ex_images_to_matrix (ex_sequence 3 false true)
        (ex_doc 2 1) ni I /\
      text_count_of ex_text_to_matrix (ex_sequence 3 false true)
        (ex_doc 2 1) nt T /\
      Z.of_nat ni <= 2 /\ Z.of_nat nt <= 3.
Proof.
  eexists. eexists. split.
  - vm_compute. reflexivity.
  - edestruct (counts_and_padded_axis ex_images_to_images ex_images_to_matrix
                 ex_text_to_matrix (ex_sequence 3 false true) 1 ex_state)
      as (a & nis & nts & wi & wt & Ha & Hi & Ht & H).
    + simpl. lia.
    + vm_compute. reflexivity.
    + inversion Ha; subst a. cbv zeta in H.
      destruct H as (Lni & Lnt & Hdocs & _).
      destruct (Hdocs 0%nat (ex_doc 2 1) eq_refl)
        as (ni & nt & I & T & H1 & H2 & H3 & H4 & H5 & H6 & H7 & H8).
      exists nis, nts, ni, nt, I, T.
      repeat split; assumption.
Defined.

Lemma data_in_changed_by_shuffler_only_witness :
  (forall idx r s',
      __getitem__ ex_images_to_images ex_images_to_matrix ex_text_to_matrix
        (ex_sequence 3 false true) idx ex_state = (r, s') ->
      nth 0 (heap s') [] = nth 0 (heap ex_state) []) /\
  (exists s',
      on_epoch_end (ex_sequence 3 false true) ex_state = (Ok tt, s') /\
      (true = false -> s' = ex_state) /\
      Permutation (nth 0 (heap ex_state) []) (nth 0 (heap s') []) /\
      (forall a, a <> 0%nat -> nth a (heap s') [] = nth a (heap ex_state) []) /\
      length (heap s') = length (heap ex_state)).
Proof.
  apply (data_in_changed_by_shuffler_only ex_images_to_images ex_images_to_matrix
           ex_text_to_matrix (ex_sequence 3 false true) ex_state).
  simpl. lia.
Defined.


Lemma overflow_raises_witness :
  exists e s',
    __getitem__ ex_images_to_images ex_images_to_matrix ex_text_to_matrix
      (ex_sequence 3 false false) 0 ex_state_overflow = (Raise e, s').
Proof.
  destruct (overflow_raises ex_images_to_images ex_images_to_matrix
              ex_text_to_matrix (ex_sequence 3 false false)
              (mk_Args 3 2 0 0 false) eq_refl) as (_ & _ & _ & H & _).
  apply (H 0 ex_state_overflow (ex_doc 3 1)).
  - simpl. lia.
  - vm_compute. right. left. reflexivity.
  - intros s ci ct s' Hd. cbv in Hd. inversion Hd; subst.
    left. eexists. split; [reflexivity|]. unfold image_target. simpl. lia.
Defined.

(** C2, on a collection smaller than half a batch: with one document and
    [docs_per_batch = 3] there is one batch, and the arrays [__getitem__]
    returns for it have a first dimension of 2, not 3: the document, and the
    one document that [data_in[:2]] can add. *)
Theorem final_batch_short_of_docs_per_batch :
  __len__ (ex_sequence 3 false true) ex_state_one = (Ok 1, ex_state_one) /\
  exists b s',
    __getitem__ ex_images_to_images ex_images_to_matrix ex_text_to_matrix
      (ex_sequence 3 false true) 0 ex_state_one = (Ok b, s') /\
    tensor_shape (texts b) = [2; 3; 2]%nat /\
    tensor_shape (images b) = [2; 2; 2]%nat /\
    shape (text_n_docs b) = [2; 1]%nat /\
    shape (image_n_docs b) = [2; 1]%nat /\
    nth (length (heap ex_state_one)) (heap s') [] = [ex_doc 1 2; ex_doc 1 2].
Proof.
  split; [reflexivity|]. eexists. eexists. split.
  - vm_compute. reflexivity.
  - repeat split.
Qed.

(** ** Floats *)

Lemma Qltb_lt x y : Qltb x y = true <-> (x < y)%Q.
Proof.
  unfold Qltb. rewrite negb_true_iff. split.
  - intros H. apply Qnot_le_lt. intros Hle.
    apply Qle_bool_iff in Hle. congruence.
  - intros H. destruct (Qle_bool y x) eqn:E; [|reflexivity].
    apply Qle_bool_iff in E. exfalso. exact (Qlt_not_le _ _ H E).
Qed.

Lemma Qltb_ge x y : Qltb x y = false <-> (y <= x)%Q.
Proof.
  unfold Qltb. rewrite negb_false_iff. apply Qle_bool_iff.
Qed.

Lemma fl_ltb_trans a b c :
  fl_ltb a b = true -> fl_ltb b c = true -> fl_ltb a c = true.
Proof.
  destruct a, b, c; simpl; try congruence.
  rewrite !Qltb_lt. apply Qlt_trans.
Qed.

(** [v < b] and [b <= x] give [v < x], for a number [x]. *)
Lemma fl_ltb_le_trans v b x :
  is_nan x = false ->
  fl_ltb v b = true -> fl_ltb x b = false -> fl_ltb v x = true.
Proof.
  destruct v, b, x; simpl; try congruence.
  intros _. rewrite Qltb_ge, !Qltb_lt. apply Qlt_le_trans.
Qed.

(** What is below anything is a number. *)
Lemma fl_ltb_number a b : fl_ltb a b = true -> is_nan a = false.
Proof. destruct a, b; simpl; congruence. Qed.

Lemma numbers_app l1 l2 : numbers (l1 ++ l2) = numbers l1 ++ numbers l2.
Proof. apply filter_app. Qed.

(** ** SaveDocModels *)

Section SaveDocModelsFacts.

Variable Model : Type.
Variable format_5f : fl -> string.

Local Abbreviation on_epoch_end := (@SaveDocModels.on_epoch_end Model format_5f).
Local Abbreviation run := (@SaveDocModels.run Model format_5f).
Local Abbreviation model_str := (@SaveDocModels.model_str Model format_5f).

Lemma getitem_get {V} (d : list (string * V)) key v :
  Py.getitem d key = Ok v <-> Py.get d key = Some v.
Proof.
  unfold Py.getitem. destruct (Py.get d key); split; congruence.
Qed.

Lemma on_epoch_end_best_is_min self seen epoch lg self' :
  best_is_min self seen ->
  on_epoch_end self epoch lg = Ok self' ->
  exists v, Py.get lg "val_loss" = Some v /\ best_is_min self' (seen ++ [v]).
Proof.
  intros (best & Hb & Hmin). unfold SaveDocModels.on_epoch_end.
  destruct (Py.getitem lg "val_loss") as [v|] eqn:Hv; [|discriminate].
  apply getitem_get in Hv. rewrite Hb.
  destruct (fl_ltb v best) eqn:Hlt; intros H; inversion H; subst; clear H;
    exists v; (split; [assumption|]).
  - exists v. split; [reflexivity|]. intros x.
    rewrite numbers_app, Forall_app. unfold numbers at 2. simpl.
    rewrite (fl_ltb_number _ _ Hlt). simpl. split.
    + intros Hx. assert (Hxb : fl_ltb x best = true) by (eapply fl_ltb_trans; eauto).
      apply Hmin in Hxb. destruct Hxb. repeat split; auto.
    + intros (_ & _ & Hx). now inversion Hx.
  - exists best. split; [assumption|]. intros x.
    rewrite numbers_app, Forall_app, Hmin. unfold numbers at 2. simpl. split.
    + intros (H1 & H2). repeat split; auto.
      destruct (is_nan v) eqn:Hn; simpl; constructor; [|constructor].
      eapply fl_ltb_le_trans; [exact Hn| |exact Hlt]. apply Hmin. auto.
    + tauto.
Qed.

Lemma run_best_is_min epochs self seen self' :
  best_is_min self seen ->
  run self epochs = Ok self' ->
  best_is_min self' (seen ++ SaveDocModels.val_losses epochs).
Proof.
  revert self seen. induction epochs as [|[epoch lg] rest IH]; simpl; intros self seen Hinv H.
  - inversion H; subst. now rewrite app_nil_r.
  - destruct (on_epoch_end self epoch lg) as [self1|] eqn:E; [|discriminate].
    destruct (on_epoch_end_best_is_min _ _ _ _ _ Hinv E) as (v & Hv & Hinv1).
    rewrite Hv. replace (seen ++ v :: SaveDocModels.val_losses rest)
      with ((seen ++ [v]) ++ SaveDocModels.val_losses rest)
      by (rewrite <- app_assoc; reflexivity).
    eapply IH; eauto.
Qed.

(** C5, amended: on an epoch end of a run begun by [on_train_begin], the
    saver writes the two model files, the text encoder at the text path and
    the image encoder at the image path, both paths holding the epoch number
    and the validation loss, exactly when the validation loss of that epoch
    is strictly below infinity, the initial best loss, and strictly below
    every validation loss seen before in the run that is a number: a loss
    that is not a number is below nothing, never becomes the best loss and
    is passed over by the epochs after it.  The saver then also records the
    two paths, the logs and the epoch as the best checkpoint; otherwise it
    changes nothing. *)
Theorem saves_iff_strictly_best self0 epochs self epoch lg v :
  run (SaveDocModels.on_train_begin self0) epochs = Ok self ->
  Py.get lg "val_loss" = Some v ->
  let improves :=
    fl_ltb v PosInf = true /\
    Forall (fun u => fl_ltb v u = true)
           (numbers (SaveDocModels.val_losses epochs)) in
  let text_path := model_str self "text" epoch v in
  let image_path := model_str self "image" epoch v in
  exists self',
    on_epoch_end self epoch lg = Ok self' /\
    (improves <->
     SaveDocModels.saved self' =
     SaveDocModels.saved self
       ++ [(text_path, SaveDocModels.single_text_doc_model self);
           (image_path, SaveDocModels.single_image_doc_model self)]) /\
    (improves ->
     SaveDocModels.best_checkpoints_and_logs self' =
       Some (Some (image_path, text_path, lg, epoch)) /\
     SaveDocModels.best_val_loss self' = Some v) /\
    (~ improves -> self' = self).
Proof.
  intros Hrun Hv improves text_path image_path.
  assert (Hinv : best_is_min self (SaveDocModels.val_losses epochs)).
  { apply (run_best_is_min epochs (SaveDocModels.on_train_begin self0) [] self);
      [|exact Hrun].
    exists PosInf. split; [reflexivity|]. intros x. split; [auto|tauto]. }
  destruct Hinv as (best & Hb & Hmin).
  unfold SaveDocModels.on_epoch_end.
  apply getitem_get in Hv. rewrite Hv, Hb.
  destruct (fl_ltb v best) eqn:Hlt.
  - assert (Himp : improves) by (apply Hmin; assumption).
    eexists. split; [reflexivity|]. simpl. split; [|split].
    + split; intros _; [reflexivity | exact Himp].
    + intros _. split; reflexivity.
    + intros Hn. contradiction.
  - assert (Himp : ~ improves).
    { intros Himp. apply Hmin in Himp. congruence. }
    exists self. split; [reflexivity|]. split; [|split].
    + split; [intros Hi; contradiction|].
      intros Heq. exfalso. apply (f_equal (@length _)) in Heq.
      rewrite length_app in Heq. simpl in Heq. lia.
    + intros Hi. contradiction.
    + reflexivity.
Qed.

End SaveDocModelsFacts.

Lemma saves_iff_strictly_best_witness :
  exists self',
    SaveDocModels.on_epoch_end ex_format_5f ex_saver_after 2
      [("val_loss", Fin 1)]%string = Ok self' /\
    SaveDocModels.saved self' =
      [("ckpt/text_model_epoch_0_val=3/2.model", "text encoder");
       ("ckpt/image_model_epoch_0_val=3/2.model", "image encoder");
       ("ckpt/text_model_epoch_2_val=1/1.model", "text encoder");
       ("ckpt/image_model_epoch_2_val=1/1.model", "image encoder")]%string /\
    SaveDocModels.best_val_loss self' = Some (Fin 1).
Proof.
  destruct (saves_iff_strictly_best string ex_format_5f ex_saver ex_epochs
              ex_saver_after 2 [("val_loss", Fin 1)]%string (Fin 1)
              eq_refl eq_refl) as (self' & E & Hiff & Hbest & _).
  assert (Himp :
    fl_ltb (Fin 1) PosInf = true /\
    Forall (fun u => fl_ltb (Fin 1) u = true)
           (numbers (SaveDocModels.val_losses ex_epochs))).
  { split; [reflexivity|]. repeat constructor. }
  exists self'. split; [exact E|]. split.
  - apply Hiff in Himp. exact Himp.
  - apply Hbest. exact Himp.
Defined.

(** C5 as it was claimed fails after a loss that is not a number: in the
    run with validation loss [nan] at epoch 0, the saver writes the two
    files at epoch 1 with validation loss 1, although 1 is not strictly
    below every validation loss seen before. *)
Lemma saves_after_nan_loss :
  exists self self',
    SaveDocModels.run ex_format_5f (SaveDocModels.on_train_begin ex_saver)
      [(0, [("val_loss", NaN)])]%string = Ok self /\
    SaveDocModels.on_epoch_end ex_format_5f self 1 [("val_loss", Fin 1)]%string
      = Ok self' /\
    SaveDocModels.saved self' =
      SaveDocModels.saved self
        ++ [("ckpt/text_model_epoch_1_val=1/1.model", "text encoder");
            ("ckpt/image_model_epoch_1_val=1/1.model", "image encoder")]%string /\
    SaveDocModels.best_val_loss self' = Some (Fin 1) /\
    ~ (fl_ltb (Fin 1) PosInf = true /\
       Forall (fun u => fl_ltb (Fin 1) u = true)
              (SaveDocModels.val_losses [(0, [("val_loss", NaN)])]%string)).
Proof.
  eexists. eexists. split; [reflexivity|]. split; [reflexivity|].
  split; [reflexivity|]. split; [reflexivity|].
  intros [_ H]. inversion H as [|u l Hu Hl]; subst. discriminate Hu.
Qed.

(** ** LearningRateLinearIncrease *)

Module LinearIncreaseFacts.
Import LearningRateLinearIncrease.

Lemma inject_Z_nonzero (z : Z) : z <> 0 -> ~ (inject_Z z == 0)%Q.
Proof. intros Hz H. unfold Qeq in H. simpl in H. lia. Qed.

Lemma on_batch_begin_fields self :
  max_lr (on_batch_begin self) = max_lr self /\
  warmup_steps (on_batch_begin self) = warmup_steps self.
Proof.
  unfold on_batch_begin. destruct (_ <=? _); simpl; auto.
Qed.

Lemma batches_fields k self :
  max_lr (batches k self) = max_lr self /\
  warmup_steps (batches k self) = warmup_steps self.
Proof.
  induction k as [|k [IH1 IH2]]; simpl; [auto|].
  destruct (on_batch_begin_fields (batches k self)) as [H1 H2].
  split; congruence.
Qed.

(** During the warmup every mini-batch adds one step and one increment. *)
Lemma batches_warmup k self :
  0 < warmup_steps self ->
  cur_step_count self = 0 ->
  Z.of_nat k <= warmup_steps self ->
  cur_step_count (batches k self) = Z.of_nat k /\
  (lr (batches k self) ==
   lr self + inject_Z (Z.of_nat k) * (max_lr self / inject_Z (warmup_steps self)))%Q.
Proof.
  intros Hw H0. induction k as [|k IH]; intros Hk.
  - simpl. split; [assumption|]. unfold inject_Z. ring.
  - destruct IH as [IHc IHl]; [lia|].
    destruct (batches_fields k self) as [Hm Hws].
    simpl batches. unfold on_batch_begin.
    assert (E : (warmup_steps (batches k self) <=? cur_step_count (batches k self))
                = false) by (apply Z.leb_gt; lia).
    rewrite E. cbn [lr cur_step_count]. split; [lia|].
    rewrite IHl, Hm, Hws, Nat2Z.inj_succ. unfold Z.succ.
    rewrite inject_Z_plus. field. apply inject_Z_nonzero. lia.
Qed.

(** Once the warmup is over a mini-batch changes nothing. *)
Lemma on_batch_begin_after self :
  warmup_steps self <= cur_step_count self -> on_batch_begin self = self.
Proof.
  intros H. unfold on_batch_begin.
  replace (warmup_steps self <=? cur_step_count self) with true
    by (symmetry; apply Z.leb_le; lia).
  reflexivity.
Qed.

Lemma batches_after k self :
  warmup_steps self <= cur_step_count self -> batches k self = self.
Proof.
  intros H. induction k as [|k IH]; simpl; [reflexivity|].
  rewrite IH. now apply on_batch_begin_after.
Qed.

Lemma batches_add j k self : batches (j + k) self = batches j (batches k self).
Proof. induction j as [|j IH]; simpl; [reflexivity | now rewrite IH]. Qed.

End LinearIncreaseFacts.

(** C7: the warmup scheduler sets the rate to zero at train begin.  With
    no one else changing the rate and [warmup_steps] positive, after
    [k <= warmup_steps] calls of [on_batch_begin] the rate is
    [k * (max_lr / warmup_steps)] in exact arithmetic and the step counter
    is [k]; after [warmup_steps] calls the rate is [max_lr]; and every later
    call leaves the rate and the step counter, the whole state, as they
    are. *)
Theorem linear_warmup (max_lr : Q) (warmup_steps verbose : Z) (lr0 : Q) :
  0 < warmup_steps ->
  let self :=
    LearningRateLinearIncrease.on_train_begin
      (LearningRateLinearIncrease.__init__ max_lr warmup_steps verbose lr0) in
  LearningRateLinearIncrease.lr self = 0%Q /\
  (forall k : nat,
     Z.of_nat k <= warmup_steps ->
     (LearningRateLinearIncrease.lr (LearningRateLinearIncrease.batches k self)
      == inject_Z (Z.of_nat k) * (max_lr / inject_Z warmup_steps))%Q /\
     LearningRateLinearIncrease.cur_step_count
       (LearningRateLinearIncrease.batches k self) = Z.of_nat k) /\
  (LearningRateLinearIncrease.lr
     (LearningRateLinearIncrease.batches (Z.to_nat warmup_steps) self)
   == max_lr)%Q /\
  (forall k : nat,
     warmup_steps <= Z.of_nat k ->
     LearningRateLinearIncrease.on_batch_begin
       (LearningRateLinearIncrease.batches k self)
     = LearningRateLinearIncrease.batches k self /\
     LearningRateLinearIncrease.batches k self
     = LearningRateLinearIncrease.batches (Z.to_nat warmup_steps) self).
Proof.
  intros Hw self.
  assert (Hstep : forall k : nat, Z.of_nat k <= warmup_steps ->
            LearningRateLinearIncrease.cur_step_count
              (LearningRateLinearIncrease.batches k self) = Z.of_nat k /\
            (LearningRateLinearIncrease.lr (LearningRateLinearIncrease.batches k self)
             == inject_Z (Z.of_nat k) * (max_lr / inject_Z warmup_steps))%Q).
  { intros k Hk.
    destruct (LinearIncreaseFacts.batches_warmup k self Hw eq_refl Hk) as [Hc Hl].
    split; [exact Hc|]. rewrite Hl. simpl. ring. }
  assert (Hend : LearningRateLinearIncrease.warmup_steps
                   (LearningRateLinearIncrease.batches (Z.to_nat warmup_steps) self)
                 <= LearningRateLinearIncrease.cur_step_count
                      (LearningRateLinearIncrease.batches (Z.to_nat warmup_steps) self)).
  { destruct (LinearIncreaseFacts.batches_fields (Z.to_nat warmup_steps) self) as [_ ->].
    destruct (Hstep (Z.to_nat warmup_steps)) as [-> _]; simpl; lia. }
  split; [reflexivity|]. split; [|split].
  - intros k Hk. destruct (Hstep k Hk). auto.
  - destruct (Hstep (Z.to_nat warmup_steps)) as [_ ->]; [lia|].
    rewrite Z2Nat.id by lia. field. apply LinearIncreaseFacts.inject_Z_nonzero. lia.
  - intros k Hk.
    assert (Hafter : LearningRateLinearIncrease.batches k self
                     = LearningRateLinearIncrease.batches (Z.to_nat warmup_steps) self).
    { replace k with ((k - Z.to_nat warmup_steps) + Z.to_nat warmup_steps)%nat by lia.
      rewrite LinearIncreaseFacts.batches_add.
      now apply LinearIncreaseFacts.batches_after. }
    split; [|exact Hafter].
    rewrite Hafter. now apply LinearIncreaseFacts.on_batch_begin_after.
Qed.

Lemma linear_warmup_witness :
  let self :=
    LearningRateLinearIncrease.on_train_begin
      (LearningRateLinearIncrease.__init__ (1 # 100) 4 0 (3 # 10)) in
  LearningRateLinearIncrease.lr self = 0%Q /\
  (LearningRateLinearIncrease.lr (LearningRateLinearIncrease.batches 4 self)
   == 1 # 100)%Q /\
  LearningRateLinearIncrease.batches 7 self
  = LearningRateLinearIncrease.batches 4 self.
Proof.
  destruct (linear_warmup (1 # 100) 4 0 (3 # 10) ltac:(lia)) as (H0 & _ & H4 & H7).
  split; [exact H0|]. split; [exact H4|]. apply (H7 7%nat). simpl. lia.
Defined.

(** ** ReduceLROnPlateauAfterValLoss *)

Lemma get_setitem_other {V} (d : list (string * V)) key key' v :
  key <> key' -> Py.get (Py.setitem d key v) key' = Py.get d key'.
Proof.
  intros Hne. induction d as [|[k u] d IH]; simpl.
  - apply String.eqb_neq in Hne. now rewrite Hne.
  - destruct (String.eqb k key) eqn:E; simpl.
    + apply String.eqb_eq in E. subst k.
      apply String.eqb_neq in Hne. now rewrite Hne.
    + now rewrite IH.
Qed.

Module ReducerFacts.
Import ReduceLROnPlateauAfterValLoss.

(** The ways [in_cooldown] returns. *)
Lemma in_cooldown_cases self c self' :
  in_cooldown self = Ok (c, self') ->
  (val_threshold_activated self = true /\
   self' = self /\ c = (0 <? cooldown_counter self)) \/
  (val_threshold_activated self = false /\
   exists lg v,
     current_logs self = Some (Some lg) /\ Py.get lg "val_loss" = Some v /\
     ((fl_ltb v (activation_val_loss self) = true /\
       self' = _reset (set_activated self) /\ c = false) \/
      (fl_ltb v (activation_val_loss self) = false /\
       self' = self /\ c = true))).
Proof.
  unfold in_cooldown. destruct (val_threshold_activated self) eqn:Hf; simpl.
  - intros H. inversion H; subst. left. rewrite orb_false_r. auto.
  - destruct (current_logs self) as [[lg|]|] eqn:Hl; try discriminate.
    unfold Py.getitem. destruct (Py.get lg "val_loss") as [v|] eqn:Hv;
      [|discriminate].
    destruct (fl_ltb v (activation_val_loss self)) eqn:Hlt; simpl;
      intros H; inversion H; subst; right; split; auto; exists lg, v.
    + split; [reflexivity|]. split; [assumption|]. left. auto.
    + split; [reflexivity|]. split; [assumption|]. right.
      rewrite orb_true_r. auto.
Qed.

Lemma in_cooldown_activated self :
  val_threshold_activated self = true ->
  in_cooldown self = Ok (0 <? cooldown_counter self, self).
Proof.
  intros Hf. unfold in_cooldown. rewrite Hf. simpl. now rewrite orb_false_r.
Qed.

(** What [in_cooldown] keeps: the rate always, a set flag, and the whole
    state when it leaves the flag unset, in which case it answers [True]. *)
Lemma in_cooldown_keeps self c self' :
  in_cooldown self = Ok (c, self') ->
  lr self' = lr self /\
  (val_threshold_activated self = true -> val_threshold_activated self' = true) /\
  (val_threshold_activated self' = false -> c = true /\ self' = self).
Proof.
  intros H. apply in_cooldown_cases in H.
  destruct H as [(Hf & -> & ->) | (Hf & lg & v & _ & _ & [(_ & -> & ->) | (_ & -> & ->)])].
  - repeat split; auto. congruence.
  - simpl. repeat split; auto; discriminate.
  - repeat split; auto.
Qed.

Lemma reduce_lr_flag self :
  val_threshold_activated (reduce_lr self) = val_threshold_activated self.
Proof. unfold reduce_lr. destruct (Qltb _ _); reflexivity. Qed.

(** Plateau detection keeps a set flag, and changes the rate only with the
    flag set. *)
Lemma detect_keeps self c current self' :
  detect self c current = Ok self' ->
  (val_threshold_activated self = true -> val_threshold_activated self' = true) /\
  (val_threshold_activated self' = false -> lr self' = lr self).
Proof.
  unfold detect.
  set (s1 := if c then set_counters self (cooldown_counter self - 1) 0 else self).
  assert (Hs1 : lr s1 = lr self /\
                val_threshold_activated s1 = val_threshold_activated self)
    by (unfold s1; destruct c; auto).
  destruct Hs1 as [Hlr Hfl]. clearbody s1.
  destruct (apply_op s1 current (best s1)).
  - intros H. inversion H; subst. simpl. rewrite Hlr, Hfl. auto.
  - destruct (in_cooldown s1) as [[c' s2]|] eqn:Hc; [|discriminate].
    apply in_cooldown_keeps in Hc. destruct Hc as (Hlr2 & Hmono & Hoff).
    destruct c'; simpl.
    + intros H. inversion H; subst. split.
      * intros Hf. apply Hmono. congruence.
      * intros _. congruence.
    + assert (Hon : val_threshold_activated s2 = true).
      { destruct (val_threshold_activated s2) eqn:E; [reflexivity|].
        destruct (Hoff eq_refl). discriminate. }
      destruct (_ <=? _); intros H; inversion H; subst;
        rewrite ?reduce_lr_flag; simpl; rewrite Hon; split; auto; discriminate.
Qed.

(** With the flag set plateau detection does not raise. *)
Lemma detect_activated self c current :
  val_threshold_activated self = true ->
  exists self', detect self c current = Ok self' /\
                val_threshold_activated self' = true.
Proof.
  intros Hf. unfold detect.
  set (s1 := if c then set_counters self (cooldown_counter self - 1) 0 else self).
  assert (Hfl : val_threshold_activated s1 = true) by (unfold s1; destruct c; auto).
  clearbody s1. destruct (apply_op s1 current (best s1)).
  - eexists. split; [reflexivity|]. exact Hfl.
  - rewrite (in_cooldown_activated s1 Hfl).
    destruct (0 <? cooldown_counter s1); simpl.
    + eauto.
    + destruct (_ <=? _); eexists; (split; [reflexivity|]);
        rewrite ?reduce_lr_flag; exact Hfl.
Qed.

(** The activating epoch end in Keras' default configuration, which
    monitors [val_loss] for a minimum: it ends with the flag set, both
    counters at 0, the loss of the epoch as the best value, and the rate
    as it was. *)
Lemma activation_epoch_default self epoch lg v :
  val_threshold_activated self = false ->
  Py.get lg "val_loss" = Some v ->
  fl_ltb v (activation_val_loss self) = true ->
  monitor self = "val_loss"%string ->
  mode self = "auto"%string \/ mode self = "min"%string ->
  exists self',
    on_epoch_end self epoch (Some lg) = Ok self' /\
    val_threshold_activated self' = true /\
    cooldown_counter self' = 0 /\ wait self' = 0 /\
    best self' = v /\ lr self' = lr self.
Proof.
  intros Hf Hv Hlt Hmon Hmode.
  unfold on_epoch_end, super_on_epoch_end.
  destruct lg as [|kv lg]; [discriminate|].
  cbn [lr set_current_logs monitor].
  set (d := Py.setitem (kv :: lg) "lr" (Fin (lr self))).
  assert (Hd : Py.get d "val_loss" = Some v)
    by (unfold d; rewrite get_setitem_other by discriminate; exact Hv).
  rewrite Hmon, Hd.
  set (entered := set_current_logs _ (Some d)).
  assert (Hin : in_cooldown entered = Ok (false, _reset (set_activated entered))).
  { unfold in_cooldown, entered. simpl. rewrite Hf. simpl.
    unfold Py.getitem. rewrite Hd, Hlt. reflexivity. }
  rewrite Hin. unfold detect.
  assert (Hop : monitor_op (_reset (set_activated entered)) = Less /\
                best (_reset (set_activated entered)) = PosInf).
  { unfold _reset, entered. cbn [monitor_op best mode monitor set_activated
      set_current_logs].
    rewrite Hmon. destruct Hmode as [-> | ->]; split; reflexivity. }
  destruct Hop as [Hop Hbest].
  assert (Hless : apply_op (_reset (set_activated entered)) v
                    (best (_reset (set_activated entered))) = true).
  { unfold apply_op. rewrite Hop, Hbest.
    destruct v; simpl in *; try reflexivity; discriminate. }
  rewrite Hless. eexists. split; [reflexivity|]. simpl. auto.
Qed.


End ReducerFacts.


(** * Further properties *)

(** ** Binary64 *)

(** Some quotients: a third and a tenth; two ties, which go to the even
    mantissa; the least quotient that is not rounded to zero, and the tie
    below it; a quotient too large for a float; and a negative one. *)
Example truediv_third :
  Binary64.truediv 1 3 = Ok (6004799503160661 # 18014398509481984).
Proof. reflexivity. Qed.

Example truediv_tenth :
  exists q,
    Binary64.truediv 1 10 = Ok q /\
    (q == 3602879701896397 # 36028797018963968)%Q.
Proof. eexists. split; reflexivity. Qed.

Example truediv_ties :
  Binary64.truediv (2 ^ 53 + 1) 1 = Ok (inject_Z (2 ^ 53)) /\
  Binary64.truediv (2 ^ 53 + 3) 1 = Ok (inject_Z (2 ^ 53 + 4)).
Proof. split; vm_compute; reflexivity. Qed.

Example truediv_underflow :
  Binary64.ceil (match Binary64.truediv 3 (2 ^ 1076) with
                 | Ok q => q
                 | Raise _ => 0%Q
                 end) = 1 /\
  Binary64.ceil (match Binary64.truediv 1 (2 ^ 1075) with
                 | Ok q => q
                 | Raise _ => 1%Q
                 end) = 0.
Proof. split; vm_compute; reflexivity. Qed.

Example truediv_overflow :
  Binary64.truediv (2 ^ 1024 - 2 ^ 970) 1
  = Raise (OverflowError "integer division result too large for a float") /\
  exists q, Binary64.truediv (2 ^ 1024 - 2 ^ 970 - 1) 1 = Ok q.
Proof. split; [vm_compute; reflexivity|]. eexists. vm_compute. reflexivity. Qed.

Example truediv_negative :
  exists q,
    Binary64.truediv (-7) 2 = Ok q /\ (q == -7 # 2)%Q /\ Binary64.ceil q = -3.
Proof. eexists. split; [reflexivity|]. split; reflexivity. Qed.

Lemma round_half_even_le a b k :
  0 < b -> a <= b * k -> Binary64.round_half_even a b <= k.
Proof.
  intros Hb H. unfold Binary64.round_half_even.
  pose proof (Z.mod_pos_bound a b Hb) as Hm.
  assert (Hq : a / b <= k) by (apply Z.div_le_upper_bound; lia).
  destruct (2 * (a mod b) <? b) eqn:E1; [exact Hq|].
  apply Z.ltb_ge in E1.
  assert (Hne : a <> b * k).
  { intros E. rewrite E, (Z.mul_comm b k), Z.mod_mul in E1 by lia. lia. }
  assert (a / b < k) by (apply Z.div_lt_upper_bound; lia).
  destruct (b <? 2 * (a mod b)); [lia|].
  destruct (Z.even (a / b)); lia.
Qed.

Lemma round_half_even_gt a b k :
  0 < b -> b < 2 * (a - b * k) -> k < Binary64.round_half_even a b.
Proof.
  intros Hb H. unfold Binary64.round_half_even.
  pose proof (Z.div_mod a b ltac:(lia)) as Hdm.
  pose proof (Z.mod_pos_bound a b Hb) as Hm.
  assert (Hq : k <= a / b) by (apply Z.div_le_lower_bound; lia).
  destruct (Z.eq_dec (a / b) k) as [E|E].
  - rewrite E in *.
    replace (2 * (a mod b) <? b) with false by (symmetry; apply Z.ltb_ge; lia).
    replace (b <? 2 * (a mod b)) with true by (symmetry; apply Z.ltb_lt; lia).
    lia.
  - destruct (2 * (a mod b) <? b); [lia|].
    destruct (b <? 2 * (a mod b)); [lia|].
    destruct (Z.even (a / b)); lia.
Qed.

Lemma exponent_le n d : Binary64.exponent n d <= Z.log2 n - Z.log2 d.
Proof. unfold Binary64.exponent. destruct (_ <? _); lia. Qed.

(** The ceiling of a fraction with a positive denominator. *)
Lemma Qceiling_fraction (m s c : Z) :
  0 < s -> (c - 1) * s < m <= c * s -> Qceiling (m # Z.to_pos s) = c.
Proof.
  intros Hs H. unfold Qceiling, Qfloor, Qopp. simpl.
  rewrite Z2Pos.id by exact Hs.
  pose proof (Z.div_mod (- m) s ltac:(lia)) as Hdm.
  pose proof (Z.mod_pos_bound (- m) s Hs) as Hm. nia.
Qed.

(** Rounding a quotient [N / B] with [N < 2^53] keeps it above the
    integers below it and at or below the integers above it: the spacing of
    the binary64 numbers around it is finer than [1 / B]. *)
Lemma round_pos_ceiling N B :
  0 < N < 2 ^ 53 -> 0 < B < 2 ^ 1075 ->
  exists q, Binary64.round_pos N B = Some q /\ Qceiling q = - ((- N) / B).
Proof.
  intros HN HB. unfold Binary64.round_pos.
  pose proof (exponent_le N B) as He.
  assert (Ha : Z.log2 N < 53) by (apply Z.log2_lt_pow2; lia).
  pose proof (Z.log2_nonneg B) as Hb0.
  pose proof (Z.log2_spec B ltac:(lia)) as [_ Hb].
  set (fexp := Z.max (Binary64.exponent N B - 52) (-1074)) in *.
  assert (Hf : fexp <= 0) by lia.
  replace (0 <? fexp) with false by (symmetry; apply Z.ltb_ge; exact Hf).
  eexists. split; [reflexivity|].
  set (s := 2 ^ (- fexp)).
  assert (Hs : 0 < s) by (apply Z.pow_pos_nonneg; lia).
  assert (H2s : B < 2 * s).
  { unfold s. replace (2 * 2 ^ (- fexp)) with (2 ^ (Z.succ (- fexp)))
      by (rewrite Z.pow_succ_r by lia; reflexivity).
    destruct (Z.max_spec (Binary64.exponent N B - 52) (-1074)) as [[_ E]|[_ E]];
      fold fexp in E; rewrite E.
    - apply HB.
    - eapply Z.lt_le_trans; [exact Hb|].
      apply Z.pow_le_mono_r; lia. }
  pose proof (Z.div_mod (- N) B ltac:(lia)) as Hdm.
  pose proof (Z.mod_pos_bound (- N) B ltac:(lia)) as Hm.
  set (c := - (- N / B)) in *.
  apply Qceiling_fraction; [exact Hs|]. split.
  - apply round_half_even_gt; [lia|]. nia.
  - apply round_half_even_le; [lia|]. nia.
Qed.

(** The quotient of a size below 2^53 by a positive integer below 2^1075
    does not raise, and its ceiling is the ceiling of the exact quotient. *)
Lemma truediv_ceiling N B :
  0 <= N < 2 ^ 53 -> 0 < B < 2 ^ 1075 ->
  exists q, Binary64.truediv N B = Ok q /\ Qceiling q = - ((- N) / B).
Proof.
  intros HN HB. unfold Binary64.truediv.
  replace (B =? 0) with false by (symmetry; apply Z.eqb_neq; lia).
  destruct (N =? 0) eqn:E.
  - apply Z.eqb_eq in E. subst N. exists 0%Q. split; reflexivity.
  - apply Z.eqb_neq in E.
    rewrite !Z.abs_eq, !Z.sgn_pos by lia.
    destruct (round_pos_ceiling N B ltac:(lia) HB) as (q & Hq & Hc).
    rewrite Hq. eexists. split; [reflexivity|].
    rewrite <- Hc. apply Qceiling_comp. change (inject_Z (1 * 1)) with 1%Q.
    apply Qmult_1_l.
Qed.

(** ** DocumentSequence: the number of batches and the batch of an index *)

Section DocumentSequenceBatches.

Context {ImageMatrix Idx2Row Vocab : Type}.
Variable images_to_images : list ident -> pyobj -> pyobj -> result ndarray.
Variable images_to_matrix : list ident -> ImageMatrix -> Idx2Row -> result matrix.
Variable text_to_matrix : list ident -> Vocab -> Z -> result matrix.
Variable self : DocumentSequence ImageMatrix Idx2Row Vocab.

Local Abbreviation process_doc :=
  (process_doc images_to_images images_to_matrix text_to_matrix self).
Local Abbreviation for_docs :=
  (for_docs images_to_images images_to_matrix text_to_matrix self).
Local Abbreviation __getitem__ :=
  (__getitem__ images_to_images images_to_matrix text_to_matrix self).
Local Abbreviation batch_assembled :=
  (batch_assembled images_to_matrix text_to_matrix self).

(** X1: the number of batches as Python computes it.  For a collection
    of fewer than 2^53 documents and a positive [docs_per_batch] below
    2^1075, line 34 with its quotient in binary64 returns the ceiling of the
    number of documents over [docs_per_batch], the least [n] with
    [n * docs_per_batch] documents or more, which is what [__len__] returns
    with the exact quotient; it reads the collection and changes nothing. *)
Theorem len_is_ceiling (a : Args) (s : state) :
  args self = Some a ->
  0 < docs_per_batch a < 2 ^ 1075 ->
  Z.of_nat (length (nth (data_in self) (heap s) [])) < 2 ^ 53 ->
  exists n,
    len_binary64 self s = (Ok n, s) /\
    __len__ self s = (Ok n, s) /\
    0 <= n /\
    (n - 1) * docs_per_batch a
      < Z.of_nat (length (nth (data_in self) (heap s) []))
      <= n * docs_per_batch a.
Proof.
  intros Ha HB HN.
  destruct (truediv_ceiling
              (Z.of_nat (length (nth (data_in self) (heap s) [])))
              (docs_per_batch a) ltac:(lia) HB) as (q & Hq & Hc).
  eexists. split; [|split; [|split]].
  - unfold len_binary64, self_args, bind, read, ret, lift. rewrite Ha, Hq.
    unfold Binary64.ceil. rewrite Hc. reflexivity.
  - apply (len_spec self a s Ha). lia.
  - pose proof (ceiling_spec (Z.of_nat (length (nth (data_in self) (heap s) [])))
                  (docs_per_batch a) ltac:(lia)). nia.
  - apply ceiling_spec. lia.
Qed.

(** X2: without [args], [__len__] and [__getitem__] raise [AttributeError]
    and change nothing; with [docs_per_batch = 0] both raise
    [ZeroDivisionError], [__getitem__] after it has taken its slice. *)
Theorem configuration_errors (idx : Z) (s : state) :
  (args self = None ->
   __len__ self s
     = (Raise (AttributeError "'NoneType' object has no attribute"), s) /\
   __getitem__ idx s
     = (Raise (AttributeError "'NoneType' object has no attribute"), s)) /\
  (forall a,
     args self = Some a -> docs_per_batch a = 0 ->
     __len__ self s = (Raise ZeroDivisionError, s) /\
     __getitem__ idx s
       = (Raise ZeroDivisionError, mk_state (heap s ++ [[]]) (rng s))).
Proof.
  split.
  - intros Ha. split.
    + unfold __len__, self_args, bind, read, raise. now rewrite Ha.
    + unfold __getitem__, select_docs, self_args, bind, raise. now rewrite Ha.
  - intros a Ha HB. split.
    + unfold __len__, self_args, bind, read, raise, ret. now rewrite Ha, HB.
    + unfold __getitem__, select_docs, len_self, __len__, self_args, bind, read,
        alloc, raise, ret.
      rewrite Ha, HB. simpl. rewrite !Z.mul_0_r.
      replace (Py.slice (nth (data_in self) (heap s) []) (Some 0) (Some 0))
        with (@nil Doc); [reflexivity|].
      unfold Py.slice. rewrite !clamp_nonneg by lia. reflexivity.
Qed.

(** What a returned batch holds when the documents selected for it are
    known. *)
Lemma getitem_of_docs a idx s b s' docs :
  args self = Some a ->
  (data_in self < length (heap s))%nat ->
  batch_docs (nth (data_in self) (heap s) []) (docs_per_batch a) idx = docs ->
  __getitem__ idx s = (Ok b, s') ->
  exists nis nts,
    image_n_docs b = Np.column nis /\ text_n_docs b = Np.column nts /\
    batch_assembled docs (slabs (images b)) (slabs (texts b)) nis nts /\
    tensor_shape (texts b) = length docs :: slab_shape (texts b) /\
    tensor_shape (images b) = length docs :: slab_shape (images b) /\
    shape (text_n_docs b) = [length docs; 1%nat] /\
    shape (image_n_docs b) = [length docs; 1%nat].
Proof.
  intros Ha Hvalid Hdocs H.
  apply (getitem_ok images_to_images images_to_matrix text_to_matrix self) in H.
  destruct H as (c & s0 & nis & nts & Hsel & _ & Hb & _ & _ & Hi & Ht & _).
  destruct (select_docs_ok_inv self idx s c s0 Hvalid Hsel) as (a' & Ha' & _ & Hd).
  assert (a' = a) by congruence. subst a'. rewrite Hd, Hdocs in Hb.
  exists nis, nts. split; [exact Hi|]. split; [exact Ht|]. split; [exact Hb|].
  apply (batch_assembled_lengths images_to_matrix text_to_matrix self) in Hb.
  destruct Hb as (L1 & L2 & L3 & L4).
  unfold tensor_shape, shape. rewrite Hi, Ht. unfold Np.column. simpl.
  rewrite !length_map, L1, L2, L3, L4. auto.
Qed.

(** X3: a batch that the collection can fill.  For a positive
    [docs_per_batch] and an index [idx >= 0] with
    [(idx + 1) * docs_per_batch] documents or more in the collection, a
    batch [__getitem__] returns holds exactly the [docs_per_batch] documents
    from position [idx * docs_per_batch] on, in that order, and the four
    arrays have [docs_per_batch] as first dimension. *)
Theorem full_batch (a : Args) (idx : Z) (s : state) (b : batch) (s' : state) :
  args self = Some a ->
  (data_in self < length (heap s))%nat ->
  0 < docs_per_batch a ->
  0 <= idx ->
  (idx + 1) * docs_per_batch a
    <= Z.of_nat (length (nth (data_in self) (heap s) [])) ->
  __getitem__ idx s = (Ok b, s') ->
  let B := Z.to_nat (docs_per_batch a) in
  exists nis nts,
    image_n_docs b = Np.column nis /\ text_n_docs b = Np.column nts /\
    batch_assembled
      (firstn B (skipn (Z.to_nat (idx * docs_per_batch a))
                       (nth (data_in self) (heap s) [])))
      (slabs (images b)) (slabs (texts b)) nis nts /\
    tensor_shape (texts b) = B :: slab_shape (texts b) /\
    tensor_shape (images b) = B :: slab_shape (images b) /\
    shape (text_n_docs b) = [B; 1%nat] /\
    shape (image_n_docs b) = [B; 1%nat].
Proof.
  intros Ha Hvalid HB Hidx Hfull H B.
  destruct (batch_docs_full (nth (data_in self) (heap s) []) (docs_per_batch a)
              idx HB Hidx Hfull) as [Hdocs Hlen].
  destruct (getitem_of_docs a idx s b s' _ Ha Hvalid Hdocs H)
    as (nis & nts & Hi & Ht & Hb & S1 & S2 & S3 & S4).
  rewrite <- Hdocs, Hlen in S1, S2, S3, S4.
  exists nis, nts. repeat split; assumption.
Qed.

(** X4: the final batch of a collection that is not a multiple of
    [docs_per_batch], when the collection has the documents that are
    missing.  The batch returned holds the trailing documents and then the
    first documents of the collection, [docs_per_batch] in all, and the four
    arrays have [docs_per_batch] as first dimension. *)
Theorem final_batch_wraps_around
        (a : Args) (idx : Z) (s : state) (b : batch) (s' : state) :
  args self = Some a ->
  (data_in self < length (heap s))%nat ->
  0 < docs_per_batch a ->
  0 <= idx ->
  let l := nth (data_in self) (heap s) [] in
  let B := Z.to_nat (docs_per_batch a) in
  let r := (length l - Z.to_nat (idx * docs_per_batch a))%nat in
  idx * docs_per_batch a < Z.of_nat (length l) < (idx + 1) * docs_per_batch a ->
  (B - r <= length l)%nat ->
  __getitem__ idx s = (Ok b, s') ->
  exists nis nts,
    image_n_docs b = Np.column nis /\ text_n_docs b = Np.column nts /\
    batch_assembled
      (skipn (Z.to_nat (idx * docs_per_batch a)) l ++ firstn (B - r) l)
      (slabs (images b)) (slabs (texts b)) nis nts /\
    length (skipn (Z.to_nat (idx * docs_per_batch a)) l) = r /\
    length (firstn (B - r) l) = (B - r)%nat /\
    tensor_shape (texts b) = B :: slab_shape (texts b) /\
    tensor_shape (images b) = B :: slab_shape (images b) /\
    shape (text_n_docs b) = [B; 1%nat] /\
    shape (image_n_docs b) = [B; 1%nat].
Proof.
  intros Ha Hvalid HB Hidx l B r Hpart Henough H.
  destruct (batch_docs_final l (docs_per_batch a) idx HB Hidx Hpart)
    as [Hdocs Hlen].
  fold B r in Hdocs, Hlen.
  destruct (getitem_of_docs a idx s b s' _ Ha Hvalid Hdocs H)
    as (nis & nts & Hi & Ht & Hb & S1 & S2 & S3 & S4).
  assert (Hr : (r < B)%nat) by (unfold r, B; nia).
  assert (HlenB : length (skipn (Z.to_nat (idx * docs_per_batch a)) l
                          ++ firstn (B - r) l) = B).
  { rewrite <- Hdocs, Hlen. rewrite Nat.min_l by exact Henough. lia. }
  rewrite HlenB in S1, S2, S3, S4.
  exists nis, nts. repeat split; try assumption.
  - rewrite length_skipn. reflexivity.
  - rewrite length_firstn. apply Nat.min_l. exact Henough.
Qed.

(** X5: a batch without documents cannot be stacked.  On an empty
    collection, and for an index at or past the number of batches,
    [__getitem__] raises the [ValueError] of [np.vstack] on an empty list,
    having allocated the empty slice only. *)
Theorem batch_without_documents_raises (a : Args) (idx : Z) (s : state) :
  args self = Some a ->
  (data_in self < length (heap s))%nat ->
  0 < docs_per_batch a ->
  let N := Z.of_nat (length (nth (data_in self) (heap s) [])) in
  N = 0 \/ (0 <= idx /\ N <= idx * docs_per_batch a) ->
  __getitem__ idx s =
  (Raise (ValueError "need at least one array to concatenate"),
   mk_state (heap s ++ [[]]) (rng s)).
Proof.
  intros Ha Hvalid HB N Hout.
  assert (Hdocs : batch_docs (nth (data_in self) (heap s) [])
                             (docs_per_batch a) idx = []).
  { destruct Hout as [H0 | [Hidx Hpast]].
    - assert (Hnil : nth (data_in self) (heap s) [] = [])
        by (apply length_zero_iff_nil; unfold N in H0; lia).
      rewrite Hnil. unfold batch_docs. rewrite !slice_nil.
      destruct (idx =? _); reflexivity.
    - pose proof (ceiling_spec N (docs_per_batch a) HB) as Hceil.
      unfold batch_docs. fold N.
      replace (idx =? - (- N / docs_per_batch a) - 1) with false
        by (symmetry; apply Z.eqb_neq; unfold N in *; nia).
      rewrite slice_nonneg by nia.
      rewrite (Nat.min_r (Z.to_nat (idx * docs_per_batch a)))
        by (unfold N in *; lia).
      rewrite skipn_all. apply firstn_nil. }
  unfold __getitem__.
  rewrite (bind_step _ _ _ _ _ (select_docs_spec self a idx s Ha HB Hvalid)).
  rewrite Hdocs. unfold bind, read. simpl. rewrite nth_middle. reflexivity.
Qed.

(** X6: shuffling the documents at the end of an epoch does not change the
    number of batches. *)
Theorem len_unchanged_by_shuffle (s : state) :
  exists s',
    on_epoch_end self s = (Ok tt, s') /\
    fst (__len__ self s') = fst (__len__ self s).
Proof.
  destruct (on_epoch_end_spec self s) as (s' & E & _ & P & _).
  exists s'. split; [exact E|].
  unfold __len__, bind, read. apply Permutation_length in P.
  destruct (self_args self s') as [[a|e] s1] eqn:E1;
    unfold self_args in *; destruct (args self) as [a0|];
    unfold ret, raise in *; inversion E1; subst; simpl.
  - rewrite P. destruct (docs_per_batch a =? 0); reflexivity.
  - reflexivity.
Qed.

(** X7: in every batch [__getitem__] returns, the two tensors, the two
    count vectors and the two zero vectors of the placeholder target have
    one and the same first dimension, which is not zero. *)
Theorem arrays_share_first_dimension
        (idx : Z) (s : state) (b : batch) (s' : state) :
  __getitem__ idx s = (Ok b, s') ->
  exists n,
    (0 < n)%nat /\
    tensor_shape (texts b) = n :: slab_shape (texts b) /\
    tensor_shape (images b) = n :: slab_shape (images b) /\
    shape (text_n_docs b) = [n; 1%nat] /\
    shape (image_n_docs b) = [n; 1%nat] /\
    y b = (Np.zeros1 n, Np.zeros1 n) /\
    shape (fst (y b)) = [n] /\ shape (snd (y b)) = [n].
Proof.
  intros H.
  apply (getitem_ok images_to_images images_to_matrix text_to_matrix self) in H.
  destruct H as (c & s0 & nis & nts & _ & _ & Hb & _ & _ & Hi & Ht & Hy & Hne).
  apply (batch_assembled_lengths images_to_matrix text_to_matrix self) in Hb.
  destruct Hb as (L1 & L2 & L3 & L4).
  exists (length (slabs (images b))).
  assert (Hn3 : length nis = length (slabs (images b))) by congruence.
  assert (Hn4 : length nts = length (slabs (images b))) by congruence.
  assert (Hn2 : length (slabs (texts b)) = length (slabs (images b)))
    by congruence.
  split; [destruct (slabs (images b)); [congruence | simpl; lia]|].
  unfold tensor_shape, shape. rewrite Hi, Ht, Hy, Hn2, Hn3, Hn4.
  unfold Np.column, Np.zeros1. simpl.
  rewrite !length_map, !repeat_length, Hn3, Hn4. repeat split.
Qed.

(** ** DocumentSequence: what is drawn from a document *)

(** X8: subsampling draws without repetition.  With a positive subsample
    count [k] for a modality, the identifiers handed to the lookup are
    [min k n] of the [n] identifiers of the document: together with the
    identifiers left out they are a rearrangement of the document's. *)
Theorem subsample_draws_part_of_document
        (a : Args) (vers : Doc) (s : state) (ci ct : list ident) (s' : state) :
  args self = Some a ->
  draw_ids self vers s = (Ok (ci, ct), s') ->
  (0 < subsample_image a ->
   length ci = Nat.min (Z.to_nat (subsample_image a)) (length (fst vers)) /\
   exists rest, Permutation (map fst (fst vers)) (ci ++ rest)) /\
  (0 < subsample_text a ->
   length ct = Nat.min (Z.to_nat (subsample_text a)) (length (snd vers)) /\
   exists rest, Permutation (map fst (snd vers)) (ct ++ rest)).
Proof.
  intros Ha. unfold draw_ids.
  destruct (maybe_shuffle_ok
              (shuffle_sentences self && negb (args_and_positive self subsample_text))
              (map fst (snd vers)) s) as (t1 & s1 & E1 & _ & P1).
  destruct (maybe_shuffle_ok
              (shuffle_images self && negb (args_and_positive self subsample_image))
              (map fst (fst vers)) s1) as (i1 & s2 & E2 & _ & P2).
  rewrite (bind_step _ _ _ _ _ E1), (bind_step _ _ _ _ _ E2).
  destruct (subsample_ok self subsample_image i1 s2) as (i2 & s3 & E3 & _).
  destruct (subsample_ok self subsample_text t1 s3) as (t2 & s4 & E4 & _).
  intros H. split; intros Hk.
  - destruct (subsample_positive self subsample_image i1 a s2 Ha Hk) as (l1 & s3' & E3' & P3).
    rewrite E3' in E3. inversion E3; subst i2 s3'. clear E3.
    rewrite (bind_step _ _ _ _ _ E3'), (bind_step _ _ _ _ _ E4) in H.
    inversion H; subst. clear H.
    assert (Hlen : length l1 = length (fst vers)).
    { rewrite <- (Permutation_length P3), <- (Permutation_length P2).
      apply length_map. }
    split.
    + rewrite length_firstn, Hlen. reflexivity.
    + exists (skipn (Z.to_nat (subsample_image a)) l1).
      rewrite firstn_skipn. now transitivity i1.
  - rewrite (bind_step _ _ _ _ _ E3) in H.
    destruct (subsample_positive self subsample_text t1 a s3 Ha Hk) as (l1 & s4' & E4' & P4).
    rewrite (bind_step _ _ _ _ _ E4') in H.
    inversion H; subst. clear H.
    assert (Hlen : length l1 = length (snd vers)).
    { rewrite <- (Permutation_length P4), <- (Permutation_length P1).
      apply length_map. }
    split.
    + rewrite length_firstn, Hlen. reflexivity.
    + exists (skipn (Z.to_nat (subsample_text a)) l1).
      rewrite firstn_skipn. now transitivity t1.
Qed.

Lemma state_stable_bind {A B} (m : M A) (k : A -> M B) :
  state_stable m -> (forall x, state_stable (k x)) -> state_stable (bind m k).
Proof.
  intros Hm Hk s r s'. unfold bind.
  destruct (m s) as [[x|e] s1] eqn:E; intros H.
  - apply Hk in H. apply Hm in E. congruence.
  - inversion H; subst. eapply Hm; eauto.
Qed.

Lemma state_stable_lift {A} (r : result A) : state_stable (lift r).
Proof. intros s r' s' H. inversion H. reflexivity. Qed.

Lemma state_stable_ret {A} (x : A) : state_stable (ret x).
Proof. intros s r s' H. inversion H. reflexivity. Qed.

Lemma state_stable_raise {A} (e : exn) : state_stable (@raise A e).
Proof. intros s r s' H. inversion H. reflexivity. Qed.

Lemma state_stable_self_args : state_stable (self_args self).
Proof.
  unfold self_args. destruct (args self);
    [apply state_stable_ret | apply state_stable_raise].
Qed.

Lemma state_stable_load_global name : state_stable (load_global name).
Proof.
  unfold load_global. destruct (Py.get module_globals name).
  - apply state_stable_ret.
  - destruct (existsb _ _); [apply state_stable_ret | apply state_stable_raise].
Qed.

(** Once the identifiers are drawn nothing looks at the state. *)
Lemma state_stable_after_draw ci ct :
  state_stable
    (im <- image_features images_to_images images_to_matrix self ci ;;
     let '(cur_images, image_padding) := im in
     tx <- text_features text_to_matrix self ct ;;
     let '(cur_text, text_padding) := tx in
     let image_n := shape0 cur_images in
     let text_n := shape0 cur_text in
     cur_images <- lift (Np.vstack [cur_images; image_padding]) ;;
     cur_text <- lift (Np.vstack [cur_text; text_padding]) ;;
     ret (Np.expand_dims0 cur_images, Np.expand_dims0 cur_text, image_n, text_n)).
Proof.
  unfold image_features, text_features.
  repeat first
    [ apply state_stable_bind; [| intros ?]
    | apply state_stable_lift | apply state_stable_ret
    | apply state_stable_self_args | apply state_stable_load_global
    | match goal with
      | |- state_stable (if ?b then _ else _) => destruct b
      | |- state_stable (match ?x with _ => _ end) => destruct x
      end ].
Qed.

(** X9: without shuffling and subsampling nothing is random.  With
    [shuffle_sentences] and [shuffle_images] off and no subsample count, the
    identifiers of a document reach the lookups in the order of the
    document, and [__getitem__], whether it returns or raises, leaves the
    random generator as it found it. *)
Theorem no_randomness_without_shuffle :
  shuffle_sentences self = false ->
  shuffle_images self = false ->
  args_and_positive self subsample_image = false ->
  args_and_positive self subsample_text = false ->
  (forall vers s,
     draw_ids self vers s
     = (Ok (map fst (fst vers), map fst (snd vers)), s)) /\
  (forall idx s r s', __getitem__ idx s = (r, s') -> rng s' = rng s).
Proof.
  intros Hs Hi Hsi Hst.
  assert (Hdraw : forall vers s,
            draw_ids self vers s
            = (Ok (map fst (fst vers), map fst (snd vers)), s)).
  { intros vers s. unfold draw_ids. rewrite Hs, Hi, Hsi, Hst. reflexivity. }
  split; [exact Hdraw|].
  assert (Hdoc : forall vers, state_stable (process_doc vers)).
  { intros vers s r s'. unfold process_doc.
    rewrite (bind_step _ _ _ _ _ (Hdraw vers s)).
    apply state_stable_after_draw. }
  assert (Hloop : forall docs, state_stable (for_docs docs)).
  { induction docs as [|vers docs IH]; simpl.
    - apply state_stable_ret.
    - apply state_stable_bind; [apply Hdoc|]. intros [[[im tx] ni] nt].
      apply state_stable_bind; [exact IH|]. intros [[[ims txs] nis] nts].
      apply state_stable_ret. }
  assert (Hsel : forall idx s r s', select_docs self idx s = (r, s') -> rng s' = rng s).
  { intros idx s r s'.
    unfold select_docs, len_self, __len__, self_args, bind, read, alloc, store,
      ret, raise.
    destruct (args self) as [a|]; simpl.
    - destruct (docs_per_batch a =? 0); [intros H; inversion H; reflexivity|].
      destruct (_ <? 0); [intros H; inversion H; reflexivity|].
      destruct (idx =? _); simpl; intros H; inversion H; reflexivity.
    - intros H. inversion H. reflexivity. }
  intros idx s r s'. unfold __getitem__, bind at 1.
  destruct (select_docs self idx s) as [[c|e] s0] eqn:E; intros H.
  - apply Hsel in E. rewrite <- E. f_equal.
    revert H. apply state_stable_bind.
    + intros x y z Hr. inversion Hr. reflexivity.
    + intros docs. apply state_stable_bind; [apply Hloop|].
      intros [[[ims txs] nis] nts].
      repeat first [ apply state_stable_bind; [| intros ?]
                   | apply state_stable_lift | apply state_stable_ret ].
  - inversion H; subst. eapply Hsel; eauto.
Qed.

End DocumentSequenceBatches.

(** ** SaveDocModels: a run *)

Lemma fl_ltb_asym_trans u v b :
  fl_ltb v b = true -> fl_ltb u b = false -> fl_ltb u v = false.
Proof.
  intros Hvb Hub. destruct (fl_ltb u v) eqn:E; [|reflexivity].
  rewrite (fl_ltb_trans u v b E Hvb) in Hub. discriminate.
Qed.

Lemma fl_ltb_irreflexive a : fl_ltb a a = false.
Proof.
  destruct a; simpl; try reflexivity. apply Qltb_ge. apply Qle_refl.
Qed.

Section SaveDocModelsRuns.

Variable Model : Type.
Variable format_5f : fl -> string.

Local Abbreviation on_epoch_end := (@SaveDocModels.on_epoch_end Model format_5f).
Local Abbreviation run := (@SaveDocModels.run Model format_5f).
Local Abbreviation model_str := (@SaveDocModels.model_str Model format_5f).

(** An epoch end keeps the directory and the two models, and keeps the
    best loss set once it is. *)
Lemma on_epoch_end_keeps self epoch lg self' :
  on_epoch_end self epoch lg = Ok self' ->
  SaveDocModels.checkpoint_dir self' = SaveDocModels.checkpoint_dir self /\
  SaveDocModels.single_text_doc_model self'
    = SaveDocModels.single_text_doc_model self /\
  SaveDocModels.single_image_doc_model self'
    = SaveDocModels.single_image_doc_model self /\
  (exists v, Py.get lg "val_loss" = Some v) /\
  (exists b, SaveDocModels.best_val_loss self' = Some b).
Proof.
  unfold SaveDocModels.on_epoch_end, Py.getitem.
  destruct (Py.get lg "val_loss") as [v|]; [|discriminate].
  destruct (SaveDocModels.best_val_loss self) as [best|] eqn:Hb; [|discriminate].
  destruct (fl_ltb v best); intros H; inversion H; subst; simpl;
    repeat split; eauto.
Qed.

(** X10: a run of the saver begun by [on_train_begin] ends normally when
    the log of every epoch holds [val_loss], and raises [KeyError] at the
    first epoch whose log does not; an epoch end on an object that has not
    seen [on_train_begin] raises [AttributeError]. *)
Theorem saver_run_needs_val_loss (self0 : SaveDocModels.t Model)
        (epochs : list (Z * logs)) :
  (Forall (fun el => Py.get (snd el) "val_loss" <> None) epochs ->
   exists self, run (SaveDocModels.on_train_begin self0) epochs = Ok self) /\
  (forall pre epoch lg post,
     epochs = pre ++ (epoch, lg) :: post ->
     Forall (fun el => Py.get (snd el) "val_loss" <> None) pre ->
     Py.get lg "val_loss" = None ->
     run (SaveDocModels.on_train_begin self0) epochs
     = Raise (KeyError "val_loss")) /\
  (forall dir text_model image_model disk epoch lg v,
     Py.get lg "val_loss" = Some v ->
     on_epoch_end (SaveDocModels.__init__ dir text_model image_model disk)
       epoch lg
     = Raise (AttributeError
                "'SaveDocModels' object has no attribute 'best_val_loss'")).
Proof.
  assert (Hstep : forall self epoch lg,
            (exists b, SaveDocModels.best_val_loss self = Some b) ->
            Py.get lg "val_loss" <> None ->
            exists self', on_epoch_end self epoch lg = Ok self').
  { intros self epoch lg (b & Hb) Hv.
    unfold SaveDocModels.on_epoch_end, Py.getitem.
    destruct (Py.get lg "val_loss") as [v|]; [|congruence].
    rewrite Hb. destruct (fl_ltb v b); eauto. }
  assert (Hrun : forall l self,
            (exists b, SaveDocModels.best_val_loss self = Some b) ->
            Forall (fun el => Py.get (snd el) "val_loss" <> None) l ->
            exists self', run self l = Ok self' /\
                          exists b, SaveDocModels.best_val_loss self' = Some b).
  { induction l as [|[epoch lg] l IH]; intros self Hb Hall; simpl.
    - eauto.
    - inversion Hall as [|? ? Hv Hrest]; subst. simpl in Hv.
      destruct (Hstep self epoch lg Hb Hv) as (self1 & E). rewrite E.
      apply IH; [|exact Hrest].
      apply on_epoch_end_keeps in E. tauto. }
  assert (Happ : forall l1 l2 self self1,
            run self l1 = Ok self1 -> run self (l1 ++ l2) = run self1 l2).
  { induction l1 as [|[epoch lg] l1 IH]; intros l2 self self1; simpl.
    - intros H. inversion H. reflexivity.
    - destruct (on_epoch_end self epoch lg); [apply IH | discriminate]. }
  split; [|split].
  - intros Hall.
    destruct (Hrun epochs (SaveDocModels.on_train_begin self0)) as (self & E & _);
      simpl; eauto.
  - intros pre epoch lg post -> Hpre Hv.
    destruct (Hrun pre (SaveDocModels.on_train_begin self0)) as (self & E & _);
      simpl; eauto.
    rewrite (Happ _ _ _ _ E). simpl.
    unfold SaveDocModels.on_epoch_end, Py.getitem. now rewrite Hv.
  - intros dir tm im disk epoch lg v Hv.
    unfold SaveDocModels.on_epoch_end, Py.getitem. now rewrite Hv.
Qed.

(** X11: the recorded best checkpoint always names files that were
    written.  After any run begun by [on_train_begin], either nothing has
    been recorded, nothing written and the best loss is still infinity, or
    the record holds an epoch of the run with its logs, the best loss is the
    validation loss of those logs, the two recorded paths are the paths made
    of that epoch and loss, and the last two files written are the text
    encoder at the recorded text path and the image encoder at the recorded
    image path.  Files written earlier are all still listed. *)
Theorem best_checkpoint_is_last_saved (self0 : SaveDocModels.t Model)
        (epochs : list (Z * logs)) (self : SaveDocModels.t Model) :
  run (SaveDocModels.on_train_begin self0) epochs = Ok self ->
  (SaveDocModels.best_checkpoints_and_logs self = Some None /\
   SaveDocModels.best_val_loss self = Some PosInf /\
   SaveDocModels.saved self = SaveDocModels.saved self0) \/
  (exists epoch lg v earlier,
     In (epoch, lg) epochs /\
     Py.get lg "val_loss" = Some v /\
     SaveDocModels.best_val_loss self = Some v /\
     SaveDocModels.best_checkpoints_and_logs self
       = Some (Some (model_str self0 "image" epoch v,
                     model_str self0 "text" epoch v, lg, epoch)) /\
     SaveDocModels.saved self
       = SaveDocModels.saved self0 ++ earlier
         ++ [(model_str self0 "text" epoch v,
              SaveDocModels.single_text_doc_model self0);
             (model_str self0 "image" epoch v,
              SaveDocModels.single_image_doc_model self0)]).
Proof.
  set (inv := fun (seen : list (Z * logs)) (self : SaveDocModels.t Model) =>
    SaveDocModels.checkpoint_dir self = SaveDocModels.checkpoint_dir self0 /\
    SaveDocModels.single_text_doc_model self
      = SaveDocModels.single_text_doc_model self0 /\
    SaveDocModels.single_image_doc_model self
      = SaveDocModels.single_image_doc_model self0 /\
    ((SaveDocModels.best_checkpoints_and_logs self = Some None /\
      SaveDocModels.best_val_loss self = Some PosInf /\
      SaveDocModels.saved self = SaveDocModels.saved self0) \/
     (exists epoch lg v earlier,
        In (epoch, lg) seen /\
        Py.get lg "val_loss" = Some v /\
        SaveDocModels.best_val_loss self = Some v /\
        SaveDocModels.best_checkpoints_and_logs self
          = Some (Some (model_str self0 "image" epoch v,
                        model_str self0 "text" epoch v, lg, epoch)) /\
        SaveDocModels.saved self
          = SaveDocModels.saved self0 ++ earlier
            ++ [(model_str self0 "text" epoch v,
                 SaveDocModels.single_text_doc_model self0);
                (model_str self0 "image" epoch v,
                 SaveDocModels.single_image_doc_model self0)]))).
  assert (Hrun : forall l seen s1 s2,
            inv seen s1 -> run s1 l = Ok s2 -> inv (seen ++ l) s2).
  { induction l as [|[epoch lg] l IH]; intros seen s1 s2 Hinv; simpl.
    - intros H. inversion H; subst. now rewrite app_nil_r.
    - destruct (on_epoch_end s1 epoch lg) as [s1'|] eqn:E; [|discriminate].
      intros H.
      replace (seen ++ (epoch, lg) :: l) with ((seen ++ [(epoch, lg)]) ++ l)
        by (rewrite <- app_assoc; reflexivity).
      apply (IH _ s1' s2); [|exact H]. clear IH H.
      destruct Hinv as (Hd & Ht & Hi & Hcases).
      revert E. unfold SaveDocModels.on_epoch_end, Py.getitem.
      destruct (Py.get lg "val_loss") as [v|] eqn:Hv; [|discriminate].
      destruct (SaveDocModels.best_val_loss s1) as [best|] eqn:Hb; [|discriminate].
      destruct (fl_ltb v best).
      + intros E. inversion E; subst. clear E. unfold inv. simpl.
        repeat split; try assumption. right.
        unfold SaveDocModels.model_str. rewrite Hd, Ht, Hi.
        destruct Hcases as [(_ & _ & Hs) | (e0 & lg0 & v0 & earlier & _ & _ & _ & _ & Hs)].
        * exists epoch, lg, v, []. rewrite Hs.
          repeat split; auto. apply in_or_app. right. now left.
        * exists epoch, lg, v,
            (earlier ++ [(model_str self0 "text" e0 v0,
                          SaveDocModels.single_text_doc_model self0);
                         (model_str self0 "image" e0 v0,
                          SaveDocModels.single_image_doc_model self0)]).
          rewrite Hs. repeat split; auto.
          -- apply in_or_app. right. now left.
          -- now rewrite <- !app_assoc.
      + intros E. inversion E; subst. clear E. unfold inv.
        repeat split; try assumption.
        destruct Hcases as [(Hn1 & Hn2 & Hn3)
                           | (e0 & lg0 & v0 & earlier & Hin & H1 & H2 & H3 & H4)].
        * left. rewrite Hb. auto.
        * right. exists e0, lg0, v0, earlier. rewrite Hb.
          repeat split; auto. apply in_or_app. now left. }
  intros H. apply (Hrun epochs [] _ self) in H.
  - destruct H as (_ & _ & _ & H). exact H.
  - unfold inv. simpl. repeat split. left. auto.
Qed.

(** X12: after any run begun by [on_train_begin] the best loss is the
    least validation loss of the run: it is infinity or one of the losses
    seen, and no loss seen is strictly below it. *)
Theorem best_val_loss_is_minimum (self0 : SaveDocModels.t Model)
        (epochs : list (Z * logs)) (self : SaveDocModels.t Model) :
  run (SaveDocModels.on_train_begin self0) epochs = Ok self ->
  exists best,
    SaveDocModels.best_val_loss self = Some best /\
    In best (PosInf :: SaveDocModels.val_losses epochs) /\
    Forall (fun u => fl_ltb u best = false) (SaveDocModels.val_losses epochs).
Proof.
  assert (Hrun : forall l seen s1 s2 b1,
            SaveDocModels.best_val_loss s1 = Some b1 ->
            In b1 (PosInf :: seen) ->
            Forall (fun u => fl_ltb u b1 = false) seen ->
            run s1 l = Ok s2 ->
            exists b2,
              SaveDocModels.best_val_loss s2 = Some b2 /\
              In b2 (PosInf :: seen ++ SaveDocModels.val_losses l) /\
              Forall (fun u => fl_ltb u b2 = false)
                     (seen ++ SaveDocModels.val_losses l)).
  { induction l as [|[epoch lg] l IH]; intros seen s1 s2 b1 Hb Hin Hle; simpl.
    - intros H. inversion H; subst. exists b1. now rewrite app_nil_r.
    - destruct (on_epoch_end s1 epoch lg) as [s1'|] eqn:E; [|discriminate].
      intros H. revert E. unfold SaveDocModels.on_epoch_end, Py.getitem.
      destruct (Py.get lg "val_loss") as [v|] eqn:Hv; [|discriminate].
      rewrite Hb.
      replace (seen ++ v :: SaveDocModels.val_losses l)
        with ((seen ++ [v]) ++ SaveDocModels.val_losses l)
        by (rewrite <- app_assoc; reflexivity).
      destruct (fl_ltb v b1) eqn:Hlt; intros E; inversion E; subst; clear E.
      + refine (IH (seen ++ [v]) _ s2 v _ _ _ H); [reflexivity | | ].
        * right. apply in_or_app. right. now left.
        * apply Forall_app. split.
          -- eapply Forall_impl; [|exact Hle]. intros u Hu.
             eapply fl_ltb_asym_trans; eauto.
          -- constructor; [apply fl_ltb_irreflexive | constructor].
      + refine (IH (seen ++ [v]) _ s2 b1 Hb _ _ H).
        * destruct Hin as [<- | Hin]; [now left|].
          right. apply in_or_app. now left.
        * apply Forall_app. split; [exact Hle|].
          constructor; [exact Hlt | constructor]. }
  intros H.
  destruct (Hrun epochs [] (SaveDocModels.on_train_begin self0) self PosInf
              eq_refl (or_introl eq_refl) (Forall_nil _) H) as (b & Hb & Hin & Hle).
  exists b. auto.
Qed.

End SaveDocModelsRuns.

(** ** LearningRateLinearIncrease: the course of the rate *)

Module WarmupFacts.
Import LearningRateLinearIncrease.

Lemma scaled_fraction_bounds (j ws : Z) (m : Q) :
  0 < ws -> 0 <= j <= ws -> (0 <= m)%Q ->
  (0 <= inject_Z j * (m / inject_Z ws))%Q /\
  (inject_Z j * (m / inject_Z ws) <= m)%Q.
Proof.
  intros Hw Hj Hm.
  assert (Hws : (0 < inject_Z ws)%Q)
    by (change 0%Q with (inject_Z 0); rewrite <- Zlt_Qlt; lia).
  assert (Hj0 : (0 <= inject_Z j)%Q)
    by (change 0%Q with (inject_Z 0); rewrite <- Zle_Qle; lia).
  assert (Hjw : (inject_Z j <= inject_Z ws)%Q) by (rewrite <- Zle_Qle; lia).
  set (x := (m / inject_Z ws)%Q).
  assert (Hx : (0 <= x)%Q)
    by (unfold x; apply Qle_shift_div_l; [exact Hws | lra]).
  assert (Hm' : (m == inject_Z ws * x)%Q) by (unfold x; field; lra).
  split; nra.
Qed.

(** The rate after [k] mini-batches of a training that has just begun. *)
Lemma rate_after (max_lr : Q) (warmup_steps verbose : Z) (lr0 : Q) (k : nat) :
  0 < warmup_steps ->
  (lr (batches k (on_train_begin (__init__ max_lr warmup_steps verbose lr0)))
   == inject_Z (Z.min (Z.of_nat k) warmup_steps)
      * (max_lr / inject_Z warmup_steps))%Q.
Proof.
  intros Hw. set (s0 := on_train_begin _).
  destruct (Z.le_gt_cases (Z.of_nat k) warmup_steps) as [Hk|Hk].
  - destruct (LinearIncreaseFacts.batches_warmup k s0 Hw eq_refl Hk) as [_ Hl].
    rewrite Hl, Z.min_l by exact Hk. simpl. ring.
  - replace k with ((k - Z.to_nat warmup_steps) + Z.to_nat warmup_steps)%nat at 1
      by lia.
    rewrite LinearIncreaseFacts.batches_add.
    destruct (LinearIncreaseFacts.batches_warmup (Z.to_nat warmup_steps) s0 Hw
                eq_refl ltac:(simpl; lia)) as [Hc Hl].
    rewrite LinearIncreaseFacts.batches_after.
    + rewrite Hl, Z.min_r by lia. rewrite Z2Nat.id by lia. simpl. ring.
    + destruct (LinearIncreaseFacts.batches_fields (Z.to_nat warmup_steps) s0)
        as [_ ->]. rewrite Hc. simpl. lia.
Qed.

(** X13: the warmup only raises the rate, and it ends.  For a positive
    [warmup_steps] and a maximum rate that is not negative, the rate is
    never negative, no mini-batch lowers it, and from the
    [warmup_steps]-th mini-batch on a mini-batch changes nothing. *)
Theorem warmup_raises_then_rests
        (max_lr : Q) (warmup_steps verbose : Z) (lr0 : Q) :
  0 < warmup_steps ->
  (0 <= max_lr)%Q ->
  let self := on_train_begin (__init__ max_lr warmup_steps verbose lr0) in
  forall k : nat,
    (0 <= lr (batches k self))%Q /\
    (lr (batches k self) <= lr (batches (S k) self))%Q /\
    (warmup_steps <= Z.of_nat k -> batches (S k) self = batches k self).
Proof.
  intros Hw Hm self k. unfold self. split; [|split].
  - rewrite (rate_after max_lr warmup_steps verbose lr0 k Hw).
    apply (scaled_fraction_bounds (Z.min (Z.of_nat k) warmup_steps)
             warmup_steps max_lr Hw ltac:(lia) Hm).
  - rewrite (rate_after max_lr warmup_steps verbose lr0 k Hw).
    rewrite (rate_after max_lr warmup_steps verbose lr0 (S k) Hw).
    assert (Hx : (0 <= max_lr / inject_Z warmup_steps)%Q).
    { apply Qle_shift_div_l; [|lra].
      change 0%Q with (inject_Z 0). rewrite <- Zlt_Qlt. lia. }
    assert (Hmin : (inject_Z (Z.min (Z.of_nat k) warmup_steps)
                    <= inject_Z (Z.min (Z.of_nat (S k)) warmup_steps))%Q)
      by (rewrite <- Zle_Qle; lia).
    nra.
  - intros Hk. set (s0 := on_train_begin _).
    change (batches (S k) s0) with (on_batch_begin (batches k s0)).
    apply LinearIncreaseFacts.on_batch_begin_after.
    replace k with ((k - Z.to_nat warmup_steps) + Z.to_nat warmup_steps)%nat by lia.
    rewrite LinearIncreaseFacts.batches_add.
    destruct (LinearIncreaseFacts.batches_warmup (Z.to_nat warmup_steps) s0 Hw
                eq_refl ltac:(simpl; lia)) as [Hc _].
    destruct (LinearIncreaseFacts.batches_fields (Z.to_nat warmup_steps) s0)
      as [_ Hws].
    rewrite LinearIncreaseFacts.batches_after by (rewrite Hws, Hc; simpl; lia).
    rewrite Hc, Hws. simpl. lia.
Qed.

(** X14: without a positive [warmup_steps] there is no warmup.  The rate
    forced to zero at train begin is never raised: every mini-batch leaves
    the state as it is, and nothing is divided by zero. *)
Theorem no_warmup_without_steps (max_lr : Q) (warmup_steps verbose : Z) (lr0 : Q) :
  warmup_steps <= 0 ->
  let self := on_train_begin (__init__ max_lr warmup_steps verbose lr0) in
  forall k : nat, batches k self = self /\ lr (batches k self) = 0%Q.
Proof.
  intros Hw self k.
  assert (H : batches k self = self)
    by (apply LinearIncreaseFacts.batches_after; simpl; lia).
  rewrite H. split; reflexivity.
Qed.

(** X15: the warmup does not start again.  The step counter is set in
    [__init__] only, so once the warmup of a first training is over, a
    second [on_train_begin] forces the rate to zero and no mini-batch raises
    it again. *)
Theorem warmup_does_not_restart
        (max_lr : Q) (warmup_steps verbose : Z) (lr0 : Q) (k j : nat) :
  0 < warmup_steps ->
  warmup_steps <= Z.of_nat k ->
  let first := batches k (on_train_begin (__init__ max_lr warmup_steps verbose lr0)) in
  lr (batches j (on_train_begin first)) = 0%Q /\
  cur_step_count (batches j (on_train_begin first)) = warmup_steps.
Proof.
  intros Hw Hk first.
  assert (Hcount : cur_step_count first = warmup_steps /\
                   LearningRateLinearIncrease.warmup_steps first = warmup_steps).
  { unfold first. set (s0 := on_train_begin _).
    replace k with ((k - Z.to_nat warmup_steps) + Z.to_nat warmup_steps)%nat by lia.
    rewrite LinearIncreaseFacts.batches_add.
    destruct (LinearIncreaseFacts.batches_warmup (Z.to_nat warmup_steps) s0 Hw
                eq_refl ltac:(simpl; lia)) as [Hc _].
    destruct (LinearIncreaseFacts.batches_fields (Z.to_nat warmup_steps) s0)
      as [_ Hws].
    rewrite LinearIncreaseFacts.batches_after by (rewrite Hws, Hc; simpl; lia).
    rewrite Hc, Hws. simpl. split; [lia | reflexivity]. }
  destruct Hcount as [Hc Hws].
  rewrite LinearIncreaseFacts.batches_after by (simpl; lia).
  simpl. split; [reflexivity | exact Hc].
Qed.

End WarmupFacts.

(** ** ReduceLROnPlateauAfterValLoss: runs, and the reducer of Keras *)

Module ReducerRuns.
Import ReduceLROnPlateauAfterValLoss.

(** The state in which Keras' [on_epoch_end] consults [in_cooldown]. *)
Lemma on_epoch_end_unfold self epoch lg :
  on_epoch_end self epoch lg =
  let d := Py.setitem (match lg with Some d => d | None => [] end)
                      "lr" (Fin (lr self)) in
  let entered :=
    match lg with
    | Some (_ :: _) => set_current_logs self (Some d)
    | _ => set_current_logs self lg
    end in
  match Py.get d (monitor self) with
  | None => Ok entered
  | Some current =>
      match in_cooldown entered with
      | Raise e => Raise e
      | Ok (c, self1) => detect self1 c current
      end
  end.
Proof.
  unfold on_epoch_end, super_on_epoch_end.
  destruct lg as [[|kv d]|]; reflexivity.
Qed.

(** A dormant state: the flag is unset and the current logs hold a
    validation loss that is not below the threshold. *)
Lemma in_cooldown_dormant self lgc v :
  val_threshold_activated self = false ->
  current_logs self = Some (Some lgc) ->
  Py.get lgc "val_loss" = Some v ->
  fl_ltb v (activation_val_loss self) = false ->
  in_cooldown self = Ok (true, self).
Proof.
  intros Hf Hl Hv Hlt. unfold in_cooldown, Py.getitem.
  rewrite Hf, Hl. simpl. rewrite Hv, Hlt.
  now rewrite orb_true_r.
Qed.

Lemma in_cooldown_no_val_loss self lgc :
  val_threshold_activated self = false ->
  current_logs self = Some (Some lgc) ->
  Py.get lgc "val_loss" = None ->
  in_cooldown self = Raise (KeyError "val_loss").
Proof.
  intros Hf Hl Hv. unfold in_cooldown, Py.getitem.
  rewrite Hf, Hl. simpl. now rewrite Hv.
Qed.

Lemma detect_dormant self lgc v current :
  val_threshold_activated self = false ->
  current_logs self = Some (Some lgc) ->
  Py.get lgc "val_loss" = Some v ->
  fl_ltb v (activation_val_loss self) = false ->
  exists self',
    detect self true current = Ok self' /\
    val_threshold_activated self' = false /\ lr self' = lr self /\
    activation_val_loss self' = activation_val_loss self.
Proof.
  intros Hf Hl Hv Hlt. unfold detect.
  set (s1 := set_counters self (cooldown_counter self - 1) 0).
  destruct (apply_op s1 current (best s1)).
  - eexists. split; [reflexivity|]. simpl. auto.
  - rewrite (in_cooldown_dormant s1 lgc v Hf Hl Hv Hlt). simpl.
    eexists. split; [reflexivity|]. simpl. auto.
Qed.

(** An epoch end leaves the threshold as it is, and sets the flag only on
    logs with a validation loss below the threshold. *)
Lemma on_epoch_end_flag self epoch lg self' :
  on_epoch_end self epoch lg = Ok self' ->
  val_threshold_activated self = false ->
  (val_threshold_activated self' = false /\ lr self' = lr self /\
   activation_val_loss self' = activation_val_loss self) \/
  (exists d v,
      lg = Some d /\ Py.get d "val_loss" = Some v /\
      fl_ltb v (activation_val_loss self) = true).
Proof.
  rewrite on_epoch_end_unfold. cbv zeta. intros H Hf.
  destruct (Py.get _ (monitor self)) as [current|] eqn:Hmon.
  - destruct lg as [[|kv d]|].
    + exfalso. revert H. unfold in_cooldown. simpl. rewrite Hf. simpl.
      discriminate.
    + destruct (Py.get (kv :: d) "val_loss") as [v|] eqn:Hv.
      * destruct (fl_ltb v (activation_val_loss self)) eqn:Hlt.
        -- right. exists (kv :: d), v. auto.
        -- left.
           set (entered := set_current_logs self
                             (Some (Py.setitem (kv :: d) "lr" (Fin (lr self))))) in *.
           assert (Hd : Py.get (Py.setitem (kv :: d) "lr" (Fin (lr self))) "val_loss"
                        = Some v)
             by (rewrite get_setitem_other by discriminate; exact Hv).
           rewrite (in_cooldown_dormant entered _ v Hf eq_refl Hd Hlt) in H.
           destruct (detect_dormant entered _ v current Hf eq_refl Hd Hlt)
             as (s2 & E & F & L & A).
           rewrite E in H. inversion H; subst. auto.
      * exfalso.
        assert (Hd : Py.get (Py.setitem (kv :: d) "lr" (Fin (lr self))) "val_loss"
                     = None)
          by (rewrite get_setitem_other by discriminate; exact Hv).
        rewrite (in_cooldown_no_val_loss
                   (set_current_logs self
                      (Some (Py.setitem (kv :: d) "lr" (Fin (lr self)))))
                   _ Hf eq_refl Hd) in H.
        discriminate.
    + exfalso. revert H. unfold in_cooldown. simpl. rewrite Hf. simpl.
      discriminate.
  - left. inversion H; subst. destruct lg as [[|kv d]|]; simpl; auto.
Qed.

(** X16: over a whole run, the rate is touched only after the threshold
    is reached.  If a run that starts with the flag unset ends with the
    flag set, or with another rate than it started with, then the
    validation loss of one of its epochs was strictly below
    [activation_val_loss]. *)
Theorem rate_changes_only_after_threshold
        (self : t) (epochs : list (Z * option logs)) (self' : t) :
  val_threshold_activated self = false ->
  reducer_run self epochs = Ok self' ->
  val_threshold_activated self' = true \/ lr self' <> lr self ->
  exists epoch lg v,
    In (epoch, Some lg) epochs /\
    Py.get lg "val_loss" = Some v /\
    fl_ltb v (activation_val_loss self) = true.
Proof.
  revert self. induction epochs as [|[epoch lg] rest IH]; intros self Hf; simpl.
  - intros H Hch. inversion H; subst. destruct Hch; congruence.
  - destruct (on_epoch_end self epoch lg) as [s1|] eqn:E; [|discriminate].
    intros Hrun Hch.
    destruct (on_epoch_end_flag self epoch lg s1 E Hf)
      as [(Hf1 & Hl1 & Ha1) | (d & v & -> & Hv & Hlt)].
    + destruct (IH s1 Hf1 Hrun) as (e & lg' & v & Hin & Hv & Hlt).
      * destruct Hch; [now left | right; congruence].
      * exists e, lg', v. repeat split; auto. congruence.
    + exists epoch, d, v. auto.
Qed.

(** With the flag set plateau detection is that of Keras. *)
Lemma detect_activated_is_keras self c current :
  val_threshold_activated self = true ->
  detect self c current = Ok (ReduceLROnPlateau.detect self c current).
Proof.
  intros Hf. unfold detect, ReduceLROnPlateau.detect.
  set (s1 := if c then set_counters self (cooldown_counter self - 1) 0 else self).
  assert (Hfl : val_threshold_activated s1 = true) by (unfold s1; destruct c; auto).
  clearbody s1. destruct (apply_op s1 current (best s1)); [reflexivity|].
  rewrite (ReducerFacts.in_cooldown_activated s1 Hfl).
  unfold ReduceLROnPlateau.in_cooldown.
  destruct (0 <? cooldown_counter s1); simpl; [reflexivity|].
  destruct (_ <=? _); reflexivity.
Qed.

(** X17: once activated, the callback is [ReduceLROnPlateau].  With the
    flag set, an epoch end never raises, whatever the logs hold, and does
    what the [on_epoch_end] of Keras does with the [in_cooldown] of Keras;
    the flag stays set. *)
Theorem activated_is_plain_reducer (self : t) (epoch : Z) (lg : option logs) :
  val_threshold_activated self = true ->
  on_epoch_end self epoch lg
  = Ok (ReduceLROnPlateau.on_epoch_end (set_current_logs self lg) epoch lg) /\
  val_threshold_activated
    (ReduceLROnPlateau.on_epoch_end (set_current_logs self lg) epoch lg) = true.
Proof.
  intros Hf.
  assert (Heq : on_epoch_end self epoch lg
                = Ok (ReduceLROnPlateau.on_epoch_end (set_current_logs self lg)
                        epoch lg)).
  { unfold on_epoch_end, super_on_epoch_end, ReduceLROnPlateau.on_epoch_end.
    cbv zeta.
    set (entered := match lg with Some (_ :: _) => _ | _ => _ end).
    assert (Hfl : val_threshold_activated entered = true)
      by (unfold entered; destruct lg as [[|? ?]|]; exact Hf).
    clearbody entered.
    destruct (Py.get _ (monitor entered)) as [current|]; [|reflexivity].
    rewrite (ReducerFacts.in_cooldown_activated entered Hfl).
    apply detect_activated_is_keras. exact Hfl. }
  split; [exact Heq|].
  pose proof Heq as H.
  unfold on_epoch_end, super_on_epoch_end in H. cbv zeta in H.
  set (entered := match lg with Some (_ :: _) => _ | _ => _ end) in H.
  assert (Hfl : val_threshold_activated entered = true)
    by (unfold entered; destruct lg as [[|? ?]|]; exact Hf).
  clearbody entered.
  destruct (Py.get _ (monitor entered)) as [current|].
  - rewrite (ReducerFacts.in_cooldown_activated entered Hfl) in H.
    apply ReducerFacts.detect_keeps in H. destruct H as [H _]. auto.
  - inversion H as [H1]. rewrite <- H1. exact Hfl.
Qed.

(** X18: until the flag is set the callback needs [val_loss].  With the
    flag unset, an epoch end whose logs hold the monitored metric but no
    [val_loss] raises [KeyError]; if the logs do not hold the monitored
    metric either, it returns with the flag unset and the rate as it was. *)
Theorem dormant_needs_val_loss (self : t) (epoch : Z) (lg : logs) :
  val_threshold_activated self = false ->
  Py.get lg "val_loss" = None ->
  (forall current,
     Py.get (Py.setitem lg "lr" (Fin (lr self))) (monitor self) = Some current ->
     on_epoch_end self epoch (Some lg) = Raise (KeyError "val_loss")) /\
  (Py.get (Py.setitem lg "lr" (Fin (lr self))) (monitor self) = None ->
   exists self',
     on_epoch_end self epoch (Some lg) = Ok self' /\
     val_threshold_activated self' = false /\ lr self' = lr self).
Proof.
  intros Hf Hv. rewrite on_epoch_end_unfold. cbv zeta. split.
  - intros current Hmon. rewrite Hmon. destruct lg as [|kv d]; cbv iota.
    + unfold in_cooldown, Py.getitem. simpl. rewrite Hf. reflexivity.
    + assert (Hd : Py.get (Py.setitem (kv :: d) "lr" (Fin (lr self))) "val_loss"
                   = None)
        by (rewrite get_setitem_other by discriminate; exact Hv).
      now rewrite (in_cooldown_no_val_loss
                     (set_current_logs self
                        (Some (Py.setitem (kv :: d) "lr" (Fin (lr self)))))
                     _ Hf eq_refl Hd).
  - intros Hmon. rewrite Hmon. eexists. split; [reflexivity|].
    destruct lg as [|kv d]; simpl; auto.
Qed.

End ReducerRuns.

(** ** PrintMetrics *)

Section PrintMetricsFacts.

Variables Val ImageFeatures Idx2Row Word2Idx Model ArgsT Metric : Type.

Local Abbreviation t :=
  (PrintMetrics.t Val ImageFeatures Idx2Row Word2Idx Model ArgsT Metric).

Lemma joined_app (held : option (list Metric)) l1 l2 :
  joined (joined held l1) l2 = joined held (l1 ++ l2).
Proof.
  destruct l1 as [|x l1]; [reflexivity|].
  destruct l2 as [|y l2]; simpl.
  - now rewrite app_nil_r.
  - destruct held; now rewrite <- ?app_assoc.
Qed.

Lemma get_setdefault_append (h : list (string * list Metric)) k v k' :
  Py.get (PrintMetrics.setdefault_append h k v) k' =
  if String.eqb k k' then
    Some (match Py.get h k with Some vs => vs ++ [v] | None => [v] end)
  else Py.get h k'.
Proof.
  induction h as [|[k0 vs] h IH]; simpl.
  - destruct (String.eqb k k'); reflexivity.
  - destruct (String.eqb k0 k) eqn:E0; simpl.
    + apply String.eqb_eq in E0. subst k0.
      destruct (String.eqb k k'); reflexivity.
    + rewrite IH. destruct (String.eqb k0 k') eqn:E1.
      * apply String.eqb_eq in E1. subst k0.
        rewrite String.eqb_sym, E0. reflexivity.
      * reflexivity.
Qed.

Lemma values_in_cons (k0 : string) (v : Metric) items k :
  values_in ((k0, v) :: items) k =
  if String.eqb k0 k then v :: values_in items k else values_in items k.
Proof.
  unfold values_in. simpl. destruct (String.eqb k0 k); reflexivity.
Qed.

(** The loop over the items of one evaluation. *)
Lemma record_metrics_get (items : list (string * Metric)) h :
  exists h',
    PrintMetrics.record_metrics (Some h) items = Ok (Some h') /\
    forall k, Py.get h' k = joined (Py.get h k) (values_in items k).
Proof.
  revert h. induction items as [|[k0 v] items IH]; intros h; simpl.
  - exists h. split; [reflexivity|]. intros k. reflexivity.
  - destruct (IH (PrintMetrics.setdefault_append h k0 v)) as (h' & E & Hget).
    exists h'. split; [exact E|]. intros k.
    rewrite Hget, get_setdefault_append, values_in_cons.
    destruct (String.eqb k0 k) eqn:E0; [|reflexivity].
    apply String.eqb_eq in E0. subst k0.
    destruct (Py.get h k); destruct (values_in items k); simpl;
      rewrite <- ?app_assoc; reflexivity.
Qed.

(** A run whose evaluations all return, from a state that has a history. *)
Lemma run_history (epochs : list (Z * result (list (string * Metric))))
      (self : t) es h :
  PrintMetrics.epoch self = Some es ->
  PrintMetrics.history self = Some h ->
  Forall (fun em => exists items, snd em = Ok items) epochs ->
  exists self' h',
    PrintMetrics.run self epochs = Ok self' /\
    PrintMetrics.epoch self' = Some (es ++ map fst epochs) /\
    PrintMetrics.history self' = Some h' /\
    forall k, Py.get h' k = joined (Py.get h k) (reported epochs k).
Proof.
  revert self es h.
  induction epochs as [|[e m] epochs IH]; intros self es h He Hh Hall; simpl.
  - exists self, h. rewrite app_nil_r. repeat split; auto.
  - inversion Hall as [|? ? (items & Hm) Hrest]; subst. simpl in Hm. subst m.
    unfold PrintMetrics.on_epoch_end. rewrite He, Hh.
    destruct (record_metrics_get items h) as (h1 & E1 & Hget1). rewrite E1.
    match goal with
    | |- context [PrintMetrics.run ?s1 epochs] =>
        destruct (IH s1 (es ++ [e]) h1 eq_refl eq_refl Hrest)
          as (self' & h' & E & He' & Hh' & Hget)
    end.
    exists self', h'. split; [exact E|]. split; [|split; [exact Hh'|]].
    + rewrite He', <- app_assoc. reflexivity.
    + intros k. rewrite Hget, Hget1. unfold reported. simpl.
      apply joined_app.
Qed.

(** X19: the history lists, name by name, what the evaluations returned.
    After a run begun by [on_train_begin] whose evaluations all returned,
    [epoch] is the list of the epoch numbers in order, and [history] holds
    under every metric name the values returned under that name, epoch after
    epoch, and no entry for a name never returned. *)
Theorem history_lists_reported_values
        (self0 : t) (epochs : list (Z * result (list (string * Metric))))
        (self : t) :
  PrintMetrics.run (PrintMetrics.on_train_begin self0) epochs = Ok self ->
  PrintMetrics.epoch self = Some (map fst epochs) /\
  exists h,
    PrintMetrics.history self = Some h /\
    forall k,
      Py.get h k = match reported epochs k with
                   | [] => None
                   | vs => Some vs
                   end.
Proof.
  intros H.
  assert (Hall : Forall (fun em => exists items, snd em = Ok items) epochs).
  { clear -H. revert H. generalize (PrintMetrics.on_train_begin self0).
    induction epochs as [|[e m] epochs IH]; intros s H; [constructor|].
    change (match PrintMetrics.on_epoch_end s e m with
            | Ok s' => PrintMetrics.run s' epochs
            | Raise x => Raise x
            end = Ok self) in H.
    destruct m as [items|x]; [|discriminate H].
    destruct (PrintMetrics.on_epoch_end s e (Ok items)) as [s1|];
      [|discriminate H].
    constructor; [simpl; eauto | eapply IH; eauto]. }
  destruct (run_history epochs (PrintMetrics.on_train_begin self0) [] []
              eq_refl eq_refl Hall) as (self' & h' & E & He & Hh & Hget).
  rewrite E in H. inversion H; subst self'. split; [exact He|].
  exists h'. split; [exact Hh|]. intros k. rewrite Hget. simpl.
  destruct (reported epochs k); reflexivity.
Qed.

(** X20: a run of the logger ends normally exactly when every evaluation
    returned: it passes on the exception of the first evaluation that
    raised.  An epoch end on an object that has not seen [on_train_begin]
    raises [AttributeError]. *)
Theorem logger_run_outcome
        (self0 : t) (epochs : list (Z * result (list (string * Metric)))) :
  (Forall (fun em => exists items, snd em = Ok items) epochs ->
   exists self,
     PrintMetrics.run (PrintMetrics.on_train_begin self0) epochs = Ok self) /\
  (forall pre e x post,
     epochs = pre ++ (e, Raise x) :: post ->
     Forall (fun em => exists items, snd em = Ok items) pre ->
     PrintMetrics.run (PrintMetrics.on_train_begin self0) epochs = Raise x) /\
  (forall v f r w tm im a e items,
     PrintMetrics.on_epoch_end
       (PrintMetrics.__init__ Val ImageFeatures Idx2Row Word2Idx Model ArgsT
          Metric v f r w tm im a) e (Ok items)
     = Raise (AttributeError "'PrintMetrics' object has no attribute 'epoch'")).
Proof.
  assert (Happ : forall l1 l2 (s s1 : t),
            PrintMetrics.run s l1 = Ok s1 ->
            PrintMetrics.run s (l1 ++ l2) = PrintMetrics.run s1 l2).
  { induction l1 as [|[e m] l1 IH]; intros l2 s s1; simpl.
    - intros H. inversion H. reflexivity.
    - destruct (PrintMetrics.on_epoch_end s e m); [apply IH | discriminate]. }
  split; [|split].
  - intros Hall.
    destruct (run_history epochs (PrintMetrics.on_train_begin self0) [] []
                eq_refl eq_refl Hall) as (self' & h' & E & _).
    eauto.
  - intros pre e x post -> Hpre.
    destruct (run_history pre (PrintMetrics.on_train_begin self0) [] []
                eq_refl eq_refl Hpre) as (self' & h' & E & _).
    rewrite (Happ _ _ _ _ E). reflexivity.
  - reflexivity.
Qed.

(** X21: a metric returned once at every epoch is aligned with the
    epochs.  If every evaluation of a run returned exactly one value under
    the name [k], the list [history[k]] has one value for each entry of
    [epoch], and its value at a position is the value returned at the epoch
    of that position. *)
Theorem history_aligned_with_epochs
        (self0 : t) (epochs : list (Z * result (list (string * Metric))))
        (self : t) (k : string) :
  Forall (fun em => exists items v,
              snd em = Ok items /\ values_in items k = [v]) epochs ->
  epochs <> [] ->
  PrintMetrics.run (PrintMetrics.on_train_begin self0) epochs = Ok self ->
  exists es h vs,
    PrintMetrics.epoch self = Some es /\
    PrintMetrics.history self = Some h /\
    Py.get h k = Some vs /\
    length vs = length es /\
    forall i e items,
      nth_error epochs i = Some (e, Ok items) ->
      nth_error es i = Some e /\
      exists v, nth_error vs i = Some v /\ values_in items k = [v].
Proof.
  intros Hall Hne H.
  destruct (history_lists_reported_values self0 epochs self H)
    as (He & h & Hh & Hget).
  assert (Hrep : length (reported epochs k) = length epochs /\
                 forall i e items,
                   nth_error epochs i = Some (e, Ok items) ->
                   exists v, nth_error (reported epochs k) i = Some v /\
                             values_in items k = [v]).
  { clear -Hall. induction Hall as [|[e m] l (items & v & Hm & Hv) Hrest [IHl IHn]].
    - split; [reflexivity|]. intros [|i]; discriminate.
    - simpl in Hm. subst m. unfold reported in *. simpl. rewrite Hv. simpl.
      split; [now rewrite IHl|].
      intros [|i] e' items' Hn; simpl in *.
      + inversion Hn; subst. eauto.
      + eapply IHn; eauto. }
  destruct Hrep as [Hlen Hnth].
  exists (map fst epochs), h, (reported epochs k).
  split; [exact He|]. split; [exact Hh|]. split; [|split].
  - rewrite Hget. destruct (reported epochs k) eqn:E; [|reflexivity].
    destruct epochs; [congruence | discriminate].
  - now rewrite length_map.
  - intros i e items Hn. split.
    + rewrite nth_error_map, Hn. reflexivity.
    + eapply Hnth; eauto.
Qed.

End PrintMetricsFacts.

(** ** The further properties on the small collection *)

Lemma len_is_ceiling_witness :
  exists n,
    len_binary64 (ex_sequence 3 false true) ex_state = (Ok n, ex_state) /\
    __len__ (ex_sequence 3 false true) ex_state = (Ok n, ex_state) /\
    0 <= n /\
    (n - 1) * 3 < 4 <= n * 3.
Proof.
  apply (len_is_ceiling (ex_sequence 3 false true) (mk_Args 3 2 0 0 false)
           ex_state eq_refl).
  - split; reflexivity.
  - reflexivity.
Defined.

Lemma configuration_errors_witness :
  __getitem__ ex_images_to_images ex_images_to_matrix ex_text_to_matrix
    (ex_sequence 0 false true) 0 ex_state
  = (Raise ZeroDivisionError, mk_state (heap ex_state ++ [[]]) (rng ex_state)).
Proof.
  destruct (configuration_errors ex_images_to_images ex_images_to_matrix
              ex_text_to_matrix (ex_sequence 0 false true) 0 ex_state)
    as [_ H].
  apply (H (mk_Args 0 2 0 0 false) eq_refl eq_refl).
Defined.

Lemma full_batch_witness :
  exists b s',
    __getitem__ ex_images_to_images ex_images_to_matrix ex_text_to_matrix
      (ex_sequence 3 false true) 0 ex_state = (Ok b, s') /\
    tensor_shape (texts b) = 3%nat :: slab_shape (texts b) /\
    shape (image_n_docs b) = [3; 1]%nat.
Proof.
  eexists. eexists. split.
  - vm_compute. reflexivity.
  - edestruct (full_batch ex_images_to_images ex_images_to_matrix
                 ex_text_to_matrix (ex_sequence 3 false true)
                 (mk_Args 3 2 0 0 false) 0 ex_state)
      as (nis & nts & _ & _ & _ & H1 & _ & _ & H4).
    + reflexivity.
    + simpl. lia.
    + simpl. lia.
    + lia.
    + simpl. lia.
    + vm_compute. reflexivity.
    + split; [exact H1 | exact H4].
Defined.

Lemma final_batch_wraps_around_witness :
  exists b s',
    __getitem__ ex_images_to_images ex_images_to_matrix ex_text_to_matrix
      (ex_sequence 3 false true) 1 ex_state = (Ok b, s') /\
    tensor_shape (images b) = 3%nat :: slab_shape (images b) /\
    shape (text_n_docs b) = [3; 1]%nat.
Proof.
  eexists. eexists. split.
  - vm_compute. reflexivity.
  - edestruct (final_batch_wraps_around ex_images_to_images ex_images_to_matrix
                 ex_text_to_matrix (ex_sequence 3 false true)
                 (mk_Args 3 2 0 0 false) 1 ex_state)
      as (nis & nts & _ & _ & _ & _ & _ & _ & H2 & H3 & _).
    + reflexivity.
    + simpl. lia.
    + simpl. lia.
    + lia.
    + simpl. lia.
    + simpl. lia.
    + vm_compute. reflexivity.
    + split; [exact H2 | exact H3].
Defined.

Lemma batch_without_documents_raises_witness :
  __getitem__ ex_images_to_images ex_images_to_matrix ex_text_to_matrix
    (ex_sequence 3 false true) 2 ex_state
  = (Raise (ValueError "need at least one array to concatenate"),
     mk_state (heap ex_state ++ [[]]) (rng ex_state)).
Proof.
  apply (batch_without_documents_raises ex_images_to_images ex_images_to_matrix
           ex_text_to_matrix (ex_sequence 3 false true)
           (mk_Args 3 2 0 0 false) 2 ex_state eq_refl).
  - simpl. lia.
  - simpl. lia.
  - right. simpl. lia.
Defined.

Lemma arrays_share_first_dimension_witness :
  exists b s' n,
    __getitem__ ex_images_to_images ex_images_to_matrix ex_text_to_matrix
      (ex_sequence 3 false true) 1 ex_state = (Ok b, s') /\
    (0 < n)%nat /\
    tensor_shape (texts b) = n :: slab_shape (texts b) /\
    y b = (Np.zeros1 n, Np.zeros1 n).
Proof.
  eexists. eexists.
  edestruct (arrays_share_first_dimension ex_images_to_images
               ex_images_to_matrix ex_text_to_matrix
               (ex_sequence 3 false true) 1 ex_state)
    as (n & Hn & H1 & _ & _ & _ & Hy & _).
  - vm_compute. reflexivity.
  - exists n. split; [reflexivity|]. split; [exact Hn|].
    split; [exact H1 | exact Hy].
Defined.

Lemma subsample_draws_part_of_document_witness :
  exists ci ct s',
    draw_ids ex_sequence_subsampled (ex_doc 2 3) ex_state = (Ok (ci, ct), s') /\
    length ci = 1%nat /\ length ct = 2%nat.
Proof.
  eexists. eexists. eexists. split.
  - vm_compute. reflexivity.
  - destruct (subsample_draws_part_of_document ex_sequence_subsampled
                (mk_Args 3 2 2 1 false) (ex_doc 2 3) ex_state _ _ _
                eq_refl eq_refl) as [Hi Ht].
    destruct (Hi ltac:(simpl; lia)) as [Hli _].
    destruct (Ht ltac:(simpl; lia)) as [Hlt _].
    split; [exact Hli | exact Hlt].
Defined.

Lemma no_randomness_without_shuffle_witness :
  draw_ids (ex_sequence 3 false false) (ex_doc 2 3) ex_state
  = (Ok (map fst (fst (ex_doc 2 3)), map fst (snd (ex_doc 2 3))), ex_state) /\
  exists r s',
    __getitem__ ex_images_to_images ex_images_to_matrix ex_text_to_matrix
      (ex_sequence 3 false false) 1 ex_state = (r, s') /\
    rng s' = rng ex_state.
Proof.
  destruct (no_randomness_without_shuffle ex_images_to_images
              ex_images_to_matrix ex_text_to_matrix (ex_sequence 3 false false)
              eq_refl eq_refl eq_refl eq_refl) as [Hd H].
  split; [apply Hd|].
  eexists. eexists. split; [vm_compute; reflexivity|].
  refine (H 1 ex_state _ _ _). vm_compute. reflexivity.
Defined.

Lemma saver_run_needs_val_loss_witness :
  (exists self,
      SaveDocModels.run ex_format_5f (SaveDocModels.on_train_begin ex_saver)
        ex_epochs = Ok self) /\
  SaveDocModels.run ex_format_5f (SaveDocModels.on_train_begin ex_saver)
    (ex_epochs ++ [(2, [("loss", Fin 1)]%string)])
  = Raise (KeyError "val_loss").
Proof.
  split.
  - destruct (saver_run_needs_val_loss string ex_format_5f ex_saver ex_epochs)
      as (H & _).
    apply H. repeat constructor; discriminate.
  - destruct (saver_run_needs_val_loss string ex_format_5f ex_saver
                (ex_epochs ++ [(2, [("loss", Fin 1)]%string)]))
      as (_ & H & _).
    apply (H ex_epochs 2 [("loss", Fin 1)]%string []).
    + reflexivity.
    + repeat constructor; discriminate.
    + reflexivity.
Defined.

Lemma best_checkpoint_is_last_saved_witness :
  exists epoch lg v earlier,
    In (epoch, lg) ex_epochs /\
    Py.get lg "val_loss" = Some v /\
    SaveDocModels.best_val_loss ex_saver_after = Some v /\
    SaveDocModels.best_checkpoints_and_logs ex_saver_after
      = Some (Some (SaveDocModels.model_str ex_format_5f ex_saver "image" epoch v,
                    SaveDocModels.model_str ex_format_5f ex_saver "text" epoch v,
                    lg, epoch)) /\
    SaveDocModels.saved ex_saver_after
      = SaveDocModels.saved ex_saver ++ earlier
        ++ [(SaveDocModels.model_str ex_format_5f ex_saver "text" epoch v,
             SaveDocModels.single_text_doc_model ex_saver);
            (SaveDocModels.model_str ex_format_5f ex_saver "image" epoch v,
             SaveDocModels.single_image_doc_model ex_saver)].
Proof.
  destruct (best_checkpoint_is_last_saved string ex_format_5f ex_saver ex_epochs
              ex_saver_after eq_refl) as [(H & _) | H].
  - discriminate H.
  - exact H.
Defined.

Lemma best_val_loss_is_minimum_witness :
  exists best,
    SaveDocModels.best_val_loss ex_saver_after = Some best /\
    In best (PosInf :: SaveDocModels.val_losses ex_epochs) /\
    Forall (fun u => fl_ltb u best = false) (SaveDocModels.val_losses ex_epochs).
Proof.
  apply (best_val_loss_is_minimum string ex_format_5f ex_saver ex_epochs
           ex_saver_after eq_refl).
Defined.

Lemma warmup_raises_then_rests_witness :
  let self :=
    LearningRateLinearIncrease.on_train_begin
      (LearningRateLinearIncrease.__init__ (1 # 10) 4 0 (3 # 10)) in
  (0 <= LearningRateLinearIncrease.lr
          (LearningRateLinearIncrease.batches 4 self))%Q /\
  (LearningRateLinearIncrease.lr (LearningRateLinearIncrease.batches 4 self)
   <= LearningRateLinearIncrease.lr
        (LearningRateLinearIncrease.batches 5 self))%Q /\
  LearningRateLinearIncrease.batches 5 self
  = LearningRateLinearIncrease.batches 4 self.
Proof.
  destruct (WarmupFacts.warmup_raises_then_rests (1 # 10) 4 0 (3 # 10)
              ltac:(lia) ltac:(discriminate) 4%nat) as (H0 & H1 & H2).
  split; [exact H0|]. split; [exact H1|]. apply H2. simpl. lia.
Defined.

Lemma no_warmup_without_steps_witness :
  let self :=
    LearningRateLinearIncrease.on_train_begin
      (LearningRateLinearIncrease.__init__ (1 # 100) 0 0 (3 # 10)) in
  LearningRateLinearIncrease.batches 5 self = self /\
  LearningRateLinearIncrease.lr (LearningRateLinearIncrease.batches 5 self) = 0%Q.
Proof.
  apply (WarmupFacts.no_warmup_without_steps (1 # 100) 0 0 (3 # 10)). lia.
Defined.

Lemma warmup_does_not_restart_witness :
  let first :=
    LearningRateLinearIncrease.batches 6
      (LearningRateLinearIncrease.on_train_begin
         (LearningRateLinearIncrease.__init__ (1 # 100) 4 0 (3 # 10))) in
  LearningRateLinearIncrease.lr
    (LearningRateLinearIncrease.batches 3
       (LearningRateLinearIncrease.on_train_begin first)) = 0%Q /\
  LearningRateLinearIncrease.cur_step_count
    (LearningRateLinearIncrease.batches 3
       (LearningRateLinearIncrease.on_train_begin first)) = 4.
Proof.
  apply (WarmupFacts.warmup_does_not_restart (1 # 100) 4 0 (3 # 10) 6 3).
  - lia.
  - simpl. lia.
Defined.

Lemma rate_changes_only_after_threshold_witness :
  exists epoch lg v,
    In (epoch, Some lg)
       [(0, Some [("val_loss", Fin 2)]);
        (1, Some [("val_loss", Fin (1 # 2))])]%string /\
    Py.get lg "val_loss" = Some v /\
    fl_ltb v (ReduceLROnPlateauAfterValLoss.activation_val_loss ex_reducer) = true.
Proof.
  eapply (ReducerRuns.rate_changes_only_after_threshold ex_reducer
            [(0, Some [("val_loss", Fin 2)]);
             (1, Some [("val_loss", Fin (1 # 2))])]%string).
  - reflexivity.
  - vm_compute. reflexivity.
  - left. reflexivity.
Defined.

Lemma activated_is_plain_reducer_witness :
  let self := ReduceLROnPlateauAfterValLoss.set_activated ex_reducer in
  ReduceLROnPlateauAfterValLoss.on_epoch_end self 3 None
  = Ok (ReduceLROnPlateau.on_epoch_end
          (ReduceLROnPlateauAfterValLoss.set_current_logs self None) 3 None) /\
  ReduceLROnPlateauAfterValLoss.val_threshold_activated
    (ReduceLROnPlateau.on_epoch_end
       (ReduceLROnPlateauAfterValLoss.set_current_logs self None) 3 None) = true.
Proof.
  apply (ReducerRuns.activated_is_plain_reducer
           (ReduceLROnPlateauAfterValLoss.set_activated ex_reducer) 3 None).
  reflexivity.
Defined.

Lemma dormant_needs_val_loss_witness :
  ReduceLROnPlateauAfterValLoss.on_epoch_end ex_reducer_on_loss 0
    (Some [("loss", Fin 3)]%string)
  = Raise (KeyError "val_loss").
Proof.
  destruct (ReducerRuns.dormant_needs_val_loss ex_reducer_on_loss 0
              [("loss", Fin 3)]%string eq_refl eq_refl) as [H _].
  apply (H (Fin 3)). reflexivity.
Defined.

Lemma history_lists_reported_values_witness :
  exists self h,
    PrintMetrics.run (PrintMetrics.on_train_begin ex_logger) ex_evaluations
      = Ok self /\
    PrintMetrics.epoch self = Some [0; 1] /\
    PrintMetrics.history self = Some h /\
    Py.get h "auc" = Some [3 # 4; 4 # 5] /\
    Py.get h "loss" = None.
Proof.
  eexists. eexists. split; [vm_compute; reflexivity|].
  edestruct (history_lists_reported_values unit unit unit unit unit unit Q
               ex_logger ex_evaluations) as (He & h & Hh & Hget).
  - vm_compute. reflexivity.
  - split; [exact He|]. split; [reflexivity|].
    inversion Hh; subst h. split; [apply (Hget "auc"%string) | apply (Hget "loss"%string)].
Defined.

Lemma logger_run_outcome_witness :
  PrintMetrics.run (PrintMetrics.on_train_begin ex_logger)
    (ex_evaluations ++ [(2, Raise (ValueError "no validation set"))])
  = Raise (ValueError "no validation set").
Proof.
  destruct (logger_run_outcome unit unit unit unit unit unit Q ex_logger
              (ex_evaluations ++ [(2, Raise (ValueError "no validation set"))]))
    as (_ & H & _).
  apply (H ex_evaluations 2 (ValueError "no validation set") []).
  - reflexivity.
  - repeat constructor; simpl; eauto.
Defined.

Lemma history_aligned_with_epochs_witness :
  exists es h vs,
    PrintMetrics.epoch
      (match PrintMetrics.run (PrintMetrics.on_train_begin ex_logger)
               ex_evaluations with
       | Ok self => self
       | Raise _ => ex_logger
       end) = Some es /\
    PrintMetrics.history
      (match PrintMetrics.run (PrintMetrics.on_train_begin ex_logger)
               ex_evaluations with
       | Ok self => self
       | Raise _ => ex_logger
       end) = Some h /\
    Py.get h "recall" = Some vs /\
    length vs = length es.
Proof.
  edestruct (history_aligned_with_epochs unit unit unit unit unit unit Q
               ex_logger ex_evaluations
               (match PrintMetrics.run (PrintMetrics.on_train_begin ex_logger)
                        ex_evaluations with
                | Ok self => self
                | Raise _ => ex_logger
                end) "recall"%string)
    as (es & h & vs & He & Hh & Hget & Hlen & _).
  - repeat constructor; simpl; eexists; eexists; (split; [reflexivity|]);
      reflexivity.
  - discriminate.
  - reflexivity.
  - exists es, h, vs. auto.
Defined.
